(** * An MCP host: sessions with tool servers and the streaming tool-dispatch loop

    A shallow embedding of [mcp-host.py] (classes [Transport], [Client],
    [ConnectionManager], [LLMManager]) and of the event loop it shares with
    [app.py].

    Python objects are records, methods are computations in a small state and
    exception monad [Py], and every call that leaves the process (spawning a
    server, the MCP session calls, the model API) is an [Effect] appended to a
    log.  What the outside world answers is decided by an [Env] of oracles that
    see the whole log so far, so that a theorem quantified over [Env] covers
    every behaviour of the servers and of the model.  Calls to [print] and to
    the Streamlit placeholder only drive the display and are left out. *)

From Stdlib Require Import String Ascii List Bool Arith Lia.
Import ListNotations.
Open Scope string_scope.
Open Scope list_scope.

(** ** Python values the host handles *)

(** Argument maps, schemas and result payloads are opaque to the host: it
    passes them on and renders them with [str()] or inside an f-string. *)
Record PyObj := mkPyObj { py_str : string }.

(** The line feed of ["\n"]. *)
Definition nl : string := String (ascii_of_nat 10) "".

(** Exceptions, by class, with [str(e)]. *)
Inductive ExcClass :=
| ConnectionError
| ConnectionErrorSubclass (cls : string)   (* BrokenPipeError, ConnectionResetError, ... *)
| ValueError
| IndexError
| AttributeError
| OtherException (cls : string).

Record Exc := mkExc { exc_class : ExcClass; exc_str : string }.

(** [isinstance(e, ConnectionError)] *)
Definition isinstance_ConnectionError (e : Exc) : bool :=
  match exc_class e with
  | ConnectionError | ConnectionErrorSubclass _ => true
  | _ => false
  end.

Inductive res (A : Type) :=
| Ok (a : A)
| Raise (e : Exc).
Arguments Ok {A} a.
Arguments Raise {A} e.

(** [mcp.types.Tool]; [description] is optional there. *)
Record Tool := mkTool {
  tool_name : string;
  tool_description : option string;
  tool_inputSchema : PyObj
}.

(** [str()] of an optional string, as an f-string renders it. *)
Definition str_opt (o : option string) : string :=
  match o with Some s => s | None => "None" end.

Record CallToolResult := mkCallToolResult { content : PyObj }.

(** The dictionaries the host builds for the model. *)
Record ToolDict := mkToolDict {
  td_name : string;
  td_description : string;
  td_input_schema : PyObj
}.

Inductive Role := user | assistant.
Record Message := mkMessage { role : Role; msg_content : string }.

(** ** Stream events, as [process_query] reads them *)

Record ToolCall := mkToolCall { tc_name : string; tc_parameters : PyObj }.

Inductive Delta :=
| text_delta (text : string)
| other_delta (type : string).

Inductive StreamEvent :=
| message_start
| content_block_start
| content_block_delta (delta : Delta)
| content_block_stop
| message_stop
| tool_use (tool_calls : list ToolCall)
| other_event (type : string).

(** A streamed response: the events it yields, then either its end or an
    exception raised by the iteration. *)
Record Stream := mkStream { events : list StreamEvent; stream_error : option Exc }.

(** ** Effects and the environment *)

Inductive Effect :=
| stdio_client_enter (command : string) (args : list string) (env : list (string * string))
| stdio_client_exit (h : nat)
| ClientSession_aenter (h : nat)
| ClientSession_aexit (s : nat)
| session_initialize (s : nat)
| session_list_tools (s : nat)
| session_call_tool (s : nat) (name : string) (arguments : PyObj)
| messages_create (messages : list Message) (tools : option (list ToolDict))
                  (response : res Stream).

Definition Log := list Effect.

(** The answers of the outside world.  The oracles of the servers are asked
    with the log as it stands once the request has been recorded; the model
    is asked with the log before its request, which is then recorded together
    with the response. *)
Record Env := mkEnv {
  get_default_environment : list (string * string);
  env_stdio_client : Log -> option Exc;
  env_ClientSession_aenter : Log -> option Exc;
  env_initialize : Log -> option Exc;
  env_list_tools : Log -> res (list Tool);
  env_call_tool : Log -> res CallToolResult;
  env_messages_create : Log -> list Message -> option (list ToolDict) -> res Stream
}.

(** ** The monad of methods: object state, log, exceptions *)

Definition Py (S A : Type) : Type := S -> Log -> res A * S * Log.

Definition ret {S A} (a : A) : Py S A := fun s l => (Ok a, s, l).

Definition bind {S A B} (m : Py S A) (k : A -> Py S B) : Py S B :=
  fun s l =>
    match m s l with
    | (Ok a, s', l') => k a s' l'
    | (Raise e, s', l') => (Raise e, s', l')
    end.

Definition raise {S A} (e : Exc) : Py S A := fun s l => (Raise e, s, l).

(** [try: body except Exception as e: handler(e)]; what [body] did to the
    objects before it raised stays done. *)
Definition try_except {S A} (body : Py S A) (handler : Exc -> Py S A) : Py S A :=
  fun s l =>
    match body s l with
    | (Ok a, s', l') => (Ok a, s', l')
    | (Raise e, s', l') => handler e s' l'
    end.

Definition get {S} : Py S S := fun s l => (Ok s, s, l).
Definition modify {S} (f : S -> S) : Py S unit := fun s l => (Ok tt, f s, l).
Definition emit {S} (e : Effect) : Py S unit := fun s l => (Ok tt, s, l ++ [e]).
Definition history {S} : Py S Log := fun s l => (Ok l, s, l).

(** Lift an outcome of the environment. *)
Definition of_res {S A} (r : res A) : Py S A := fun s l => (r, s, l).
Definition of_failure {S} (o : option Exc) : Py S unit :=
  match o with None => ret tt | Some e => raise e end.

(** Run a method of a component held in a field of the object. *)
Definition zoom {S T A} (proj : S -> T) (upd : T -> S -> S) (m : Py T A) : Py S A :=
  fun s l => let '(r, t', l') := m (proj s) l in (r, upd t' s, l').

Declare Scope py_scope.
Delimit Scope py_scope with py.
Notation "x <- m ;; k" := (bind m (fun x => k))
  (at level 100, m at next level, right associativity) : py_scope.
Notation "m ;; k" := (bind m (fun _ => k))
  (at level 100, right associativity) : py_scope.
Open Scope py_scope.

Fixpoint for_each {S A} (body : A -> Py S unit) (xs : list A) : Py S unit :=
  match xs with
  | [] => ret tt
  | x :: xs' => body x ;; for_each body xs'
  end.

(** ** class Transport *)

Module Transport.

Record t := mk {
  command : string;
  args : list string;
  env : list (string * string);
  exit_stack : list nat;     (* pending exit callbacks, innermost first *)
  stdio : option nat;
  write : option nat
}.

Definition set_streams (v : option nat) (tr : t) : t :=
  mk (command tr) (args tr) (env tr) (exit_stack tr) v v.
Definition set_exit_stack (st : list nat) (tr : t) : t :=
  mk (command tr) (args tr) (env tr) st (stdio tr) (write tr).

(** [env or get_default_environment()] *)
Definition __init__ (E : Env) (command : string) (args : list string)
           (env : option (list (string * string))) : t :=
  mk command args
     (match env with
      | None | Some [] => get_default_environment E
      | Some e => e
      end)
     [] None None.

(** [AsyncExitStack.aclose()]: pops and runs every callback, innermost
    first, and leaves the stack empty. *)
Definition aclose : Py t unit :=
  tr <- get ;;
  modify (set_exit_stack []) ;;
  for_each (fun h => emit (stdio_client_exit h)) (exit_stack tr).

Definition cleanup : Py t unit :=
  modify (set_streams None) ;;
  aclose.

(** [exit_stack.enter_async_context(stdio_client(server_params))], in two
    halves: the request is recorded, and the task is suspended until the
    outcome arrives.  The handle of the spawned server is the position of
    the request in the log. *)
Definition stdio_client_request : Py t nat :=
  tr <- get ;;
  l <- history ;;
  emit (stdio_client_enter (command tr) (args tr) (env tr)) ;;
  ret (length l).

Definition stdio_client_response (E : Env) (h : nat) : Py t nat :=
  l <- history ;;
  of_failure (env_stdio_client E l) ;;
  modify (fun tr => set_exit_stack (h :: exit_stack tr) tr) ;;
  ret h.

Definition enter_stdio_client (E : Env) : Py t nat :=
  h <- stdio_client_request ;;
  stdio_client_response E h.

Definition connect_failed (e : Exc) : Exc :=
  mkExc ConnectionError ("Failed to connect to server: " ++ exc_str e).

Definition connect (E : Env) : Py t (nat * nat) :=
  try_except
    (h <- enter_stdio_client E ;;
     modify (set_streams (Some h)) ;;
     ret (h, h))
    (fun e => cleanup ;; raise (connect_failed e)).

End Transport.

(** ** class Client *)

Module Client.

Record t := mk {
  server_name : string;
  transport : Transport.t;
  session : option nat;
  _available_tools : list Tool;
  _is_stopping : bool
}.

Definition set_transport (tr : Transport.t) (c : t) : t :=
  mk (server_name c) tr (session c) (_available_tools c) (_is_stopping c).
Definition set_session (s : option nat) (c : t) : t :=
  mk (server_name c) (transport c) s (_available_tools c) (_is_stopping c).
Definition set_available_tools (ts : list Tool) (c : t) : t :=
  mk (server_name c) (transport c) (session c) ts (_is_stopping c).
Definition set_is_stopping (b : bool) (c : t) : t :=
  mk (server_name c) (transport c) (session c) (_available_tools c) b.

Definition __init__ (server_name : string) (transport : Transport.t) : t :=
  mk server_name transport None [] false.

Definition is_connected (c : t) : bool :=
  match session c with Some _ => negb (_is_stopping c) | None => false end.

Definition available_tools (c : t) : list Tool := _available_tools c.

Definition on_transport {A} (m : Py Transport.t A) : Py t A :=
  zoom transport set_transport m.

Definition cleanup : Py t unit :=
  modify (set_available_tools []) ;;
  c <- get ;;
  match session c with
  | Some s => emit (ClientSession_aexit s) ;; modify (set_session None)
  | None => ret tt
  end ;;
  on_transport Transport.cleanup.

(** [ClientSession(stdio, write).__aenter__()], request and outcome; the
    session is named by the position of the request in the log. *)
Definition ClientSession_request (stdio : nat) : Py t nat :=
  l <- history ;;
  emit (ClientSession_aenter stdio) ;;
  ret (length l).

Definition ClientSession_response (E : Env) : Py t unit :=
  l <- history ;;
  of_failure (env_ClientSession_aenter E l).

Definition ClientSession_enter (E : Env) (stdio : nat) : Py t nat :=
  s <- ClientSession_request stdio ;;
  ClientSession_response E ;;
  ret s.

(** [self.session.initialize()] *)
Definition initialize_request (s : nat) : Py t unit :=
  emit (session_initialize s).

Definition initialize_response (E : Env) : Py t unit :=
  l <- history ;;
  of_failure (env_initialize E l).

Definition initialize (E : Env) (s : nat) : Py t unit :=
  initialize_request s ;;
  initialize_response E.

(** [self.session.list_tools()], of which [response.tools] is kept. *)
Definition list_tools_request (s : nat) : Py t unit :=
  emit (session_list_tools s).

Definition list_tools_response (E : Env) : Py t (list Tool) :=
  l <- history ;;
  of_res (env_list_tools E l).

Definition list_tools (E : Env) (s : nat) : Py t (list Tool) :=
  list_tools_request s ;;
  list_tools_response E.

Definition start_failed (c : t) (e : Exc) : Exc :=
  mkExc ConnectionError
        ("Failed to initialize session with server " ++ server_name c ++ ": "
         ++ exc_str e).

(** The [except] clause of [start]. *)
Definition start_handler {A} (e : Exc) : Py t A :=
  cleanup ;;
  c <- get ;;
  raise (start_failed c e).

(** The body guarded by [self._reconnect_lock], run without interruption.
    The lock itself belongs to the task model further down. *)
Definition start_locked (E : Env) : Py t unit :=
  try_except
    (streams <- on_transport (Transport.connect E) ;;
     s <- ClientSession_enter E (fst streams) ;;
     modify (set_session (Some s)) ;;
     initialize E s ;;
     tools <- list_tools E s ;;
     modify (set_available_tools tools))
    start_handler.

Definition start (E : Env) : Py t unit :=
  c <- get ;;
  if is_connected c then ret tt else start_locked E.

Definition ensure_connected (E : Env) : Py t unit :=
  c <- get ;;
  if negb (is_connected c) then start E else ret tt.

Definition stop : Py t unit :=
  modify (set_is_stopping true) ;;
  cleanup ;;
  modify (set_is_stopping false).

(** [any(tool.name == tool_name for tool in self._available_tools)] *)
Definition has_tool (c : t) (name : string) : bool :=
  existsb (fun tool => String.eqb (tool_name tool) name) (_available_tools c).

Definition tool_not_available (c : t) (name : string) : Exc :=
  mkExc ValueError
        ("Tool " ++ name ++ " not available on server " ++ server_name c).

(** [self.session.call_tool(tool_name, tool_args)] *)
Definition session_call (E : Env) (name : string) (arguments : PyObj)
  : Py t CallToolResult :=
  c <- get ;;
  match session c with
  | None =>
      raise (mkExc AttributeError
                   "'NoneType' object has no attribute 'call_tool'")
  | Some s =>
      emit (session_call_tool s name arguments) ;;
      l <- history ;;
      of_res (env_call_tool E l)
  end.

Definition call_tool (E : Env) (name : string) (arguments : PyObj)
  : Py t CallToolResult :=
  ensure_connected E ;;
  c <- get ;;
  if negb (has_tool c name) then raise (tool_not_available c name)
  else
    try_except
      (session_call E name arguments)
      (fun e =>
         if isinstance_ConnectionError e then
           cleanup ;;
           ensure_connected E ;;
           session_call E name arguments
         else raise e).

End Client.

(** ** Python dictionaries with string keys, in insertion order *)

Module Dict.

Definition t (V : Type) : Type := list (string * V).

Fixpoint get {V} (k : string) (d : t V) : option V :=
  match d with
  | [] => None
  | (k', v) :: d' => if String.eqb k' k then Some v else get k d'
  end.

(** [k in d] *)
Definition contains {V} (k : string) (d : t V) : bool :=
  match get k d with Some _ => true | None => false end.

(** [d[k] = v]: an existing key keeps its place. *)
Fixpoint set {V} (k : string) (v : V) (d : t V) : t V :=
  match d with
  | [] => [(k, v)]
  | (k', v') :: d' =>
      if String.eqb k' k then (k', v) :: d' else (k', v') :: set k v d'
  end.

(** [del d[k]] *)
Fixpoint del {V} (k : string) (d : t V) : t V :=
  match d with
  | [] => []
  | (k', v') :: d' => if String.eqb k' k then d' else (k', v') :: del k d'
  end.

End Dict.

(** ** class Server, McpConnection, class ConnectionManager *)

Module Server.
Record t := mk { name : string; command : string; args : list string }.
End Server.

Module McpConnection.
(** The ["transport"] entry is the very object the client holds, so it is
    read through the client. *)
Record t := mk { server : Server.t; client : Client.t }.
Definition transport (c : t) : Transport.t := Client.transport (client c).
Definition set_client (cl : Client.t) (c : t) : t := mk (server c) cl.
End McpConnection.

Module ConnectionManager.

Record t := mk { connections : Dict.t McpConnection.t }.

Definition __init__ : t := mk [].

Definition already_exists (server_name : string) : Exc :=
  mkExc ValueError ("Connection to " ++ server_name ++ " already exists").
Definition does_not_exist (server_name : string) : Exc :=
  mkExc ValueError ("Connection to " ++ server_name ++ " does not exist").

(** Run a method on an object that is not stored anywhere yet, and hand the
    object back. *)
Definition on_new {S T A} (obj : T) (m : Py T A) : Py S T :=
  fun s l =>
    match m obj l with
    | (Ok _, obj', l') => (Ok obj', s, l')
    | (Raise e, _, l') => (Raise e, s, l')
    end.

Definition add_connection (E : Env) (server_name command : string)
           (args : list string) (env : option (list (string * string)))
  : Py t unit :=
  cm <- get ;;
  if Dict.contains server_name (connections cm) then
    raise (already_exists server_name)
  else
    let server := Server.mk server_name command args in
    let transport := Transport.__init__ E command args env in
    let client := Client.__init__ server_name transport in
    client' <- on_new client (Client.start E) ;;
    modify (fun cm =>
              mk (Dict.set server_name (McpConnection.mk server client')
                           (connections cm))).

(** Run a method of the client registered under [server_name]; the client
    is shared with the registry, so what the method does to it is seen
    there, also when it raises. *)
Definition on_client {A} (server_name : string) (m : Py Client.t A) : Py t A :=
  fun cm l =>
    match Dict.get server_name (connections cm) with
    | None => (Raise (does_not_exist server_name), cm, l)
    | Some conn =>
        let '(r, cl', l') := m (McpConnection.client conn) l in
        (r,
         mk (Dict.set server_name (McpConnection.set_client cl' conn)
                      (connections cm)),
         l')
    end.

Definition remove_connection (server_name : string) : Py t unit :=
  on_client server_name Client.stop ;;
  modify (fun cm => mk (Dict.del server_name (connections cm))).

Definition get_client (server_name : string) (cm : t) : res Client.t :=
  match Dict.get server_name (connections cm) with
  | None => Raise (does_not_exist server_name)
  | Some conn => Ok (McpConnection.client conn)
  end.

(** The dictionaries built here copy [name], [description] and
    [inputSchema] of each tool; the [Tool] record stands for them. *)
Definition get_all_tools (cm : t) : Dict.t (list Tool) :=
  map (fun kv => (fst kv, Client.available_tools (McpConnection.client (snd kv))))
      (connections cm).

Definition cleanup : Py t unit :=
  cm <- get ;;
  for_each (fun kv => on_client (fst kv) Client.stop ;; ret tt) (connections cm) ;;
  modify (fun _ => mk []).

End ConnectionManager.

(** ** [str.split(sep, 1)] and the unpacking of its result *)

Definition underscore : ascii := "_"%char.

(** The text before and after the first [sep], when there is one. *)
Fixpoint partition_first (sep : ascii) (s : string) : option (string * string) :=
  match s with
  | EmptyString => None
  | String c rest =>
      if Ascii.eqb c sep then Some (EmptyString, rest)
      else match partition_first sep rest with
           | Some (a, b) => Some (String c a, b)
           | None => None
           end
  end.

(** [s.split(sep, 1)] for a separator of one character. *)
Definition split_1 (s : string) (sep : ascii) : list string :=
  match partition_first sep s with
  | Some (a, b) => [a; b]
  | None => [s]
  end.

(** [a, b = xs] *)
Definition unpack2 (xs : list string) : res (string * string) :=
  match xs with
  | [a; b] => Ok (a, b)
  | [] => Raise (mkExc ValueError "not enough values to unpack (expected 2, got 0)")
  | [_] => Raise (mkExc ValueError "not enough values to unpack (expected 2, got 1)")
  | _ => Raise (mkExc ValueError "too many values to unpack (expected 2)")
  end.

(** [sep in s] *)
Fixpoint contains_char (sep : ascii) (s : string) : bool :=
  match s with
  | EmptyString => false
  | String c rest => Ascii.eqb c sep || contains_char sep rest
  end.

(** ** class LLMManager *)

Module LLMManager.

(** The local variables of [process_query], next to the connection manager
    the object holds. *)
Record Frame := mkFrame {
  connection_manager : ConnectionManager.t;
  messages : list Message;
  tool_results : list (string * string * CallToolResult);
  final_text : list string;
  current_text : string
}.

Definition set_connection_manager (cm : ConnectionManager.t) (f : Frame) : Frame :=
  mkFrame cm (messages f) (tool_results f) (final_text f) (current_text f).
Definition set_messages (ms : list Message) (f : Frame) : Frame :=
  mkFrame (connection_manager f) ms (tool_results f) (final_text f) (current_text f).
Definition set_tool_results (rs : list (string * string * CallToolResult)) (f : Frame)
  : Frame :=
  mkFrame (connection_manager f) (messages f) rs (final_text f) (current_text f).
Definition set_final_text (ft : list string) (f : Frame) : Frame :=
  mkFrame (connection_manager f) (messages f) (tool_results f) ft (current_text f).
Definition set_current_text (ct : string) (f : Frame) : Frame :=
  mkFrame (connection_manager f) (messages f) (tool_results f) (final_text f) ct.

Definition messages_append (m : Message) : Py Frame unit :=
  modify (fun f => set_messages (messages f ++ [m]) f).
Definition final_text_append (s : string) : Py Frame unit :=
  modify (fun f => set_final_text (final_text f ++ [s]) f).
Definition tool_results_append (r : string * string * CallToolResult) : Py Frame unit :=
  modify (fun f => set_tool_results (tool_results f ++ [r]) f).

(** Truth value of a string. *)
Definition nonempty (s : string) : bool :=
  match s with EmptyString => false | _ => true end.

Definition _format_tools_for_llm (server_tools : Dict.t (list Tool)) : list ToolDict :=
  flat_map
    (fun kv =>
       let server_name := fst kv in
       map (fun tool =>
              mkToolDict
                (server_name ++ "_" ++ tool_name tool)
                ("[" ++ server_name ++ "] " ++ str_opt (tool_description tool))
                (tool_inputSchema tool))
           (snd kv))
    server_tools.

(** [self.anthropic.messages.create(..., messages=messages, stream=True)],
    with or without [tools]. *)
Definition create (E : Env) (tools : option (list ToolDict)) : Py Frame Stream :=
  f <- get ;;
  l <- history ;;
  let response := env_messages_create E l (messages f) tools in
  emit (messages_create (messages f) tools response) ;;
  of_res response.

(** [if current_text: final_text.append(current_text); current_text = ""] *)
Definition flush : Py Frame unit :=
  f <- get ;;
  if nonempty (current_text f) then
    final_text_append (current_text f) ;;
    modify (set_current_text "")
  else ret tt.

(** The body of the inner [async for next_event in stream]. *)
Definition next_event_body (next_event : StreamEvent) : Py Frame unit :=
  match next_event with
  | content_block_delta (text_delta text) =>
      modify (fun f => set_current_text (current_text f ++ text) f)
  | _ => ret tt
  end.

Definition called_text (server_name tool_name : string) (parameters : PyObj) : string :=
  nl ++ "[Called " ++ server_name ++ "." ++ tool_name ++ " with args "
     ++ py_str parameters ++ "]" ++ nl.

Definition error_msg (server_name tool_name : string) (e : Exc) : string :=
  nl ++ "Error calling " ++ server_name ++ "." ++ tool_name ++ ": " ++ exc_str e.

(** [client = get_client(server_name); result = await client.call_tool(...)] *)
Definition invoke (E : Env) (server_name tool_name : string) (parameters : PyObj)
  : Py Frame CallToolResult :=
  zoom connection_manager set_connection_manager
       (ConnectionManager.on_client server_name
          (Client.call_tool E tool_name parameters)).

(** The rest of the [try] block, once the tool has returned. *)
Definition after_result (E : Env) (server_name tool_name : string)
           (parameters : PyObj) (result : CallToolResult) : Py Frame unit :=
  tool_results_append (server_name, tool_name, result) ;;
  final_text_append (called_text server_name tool_name parameters) ;;
  f <- get ;;
  (if nonempty (current_text f)
   then messages_append (mkMessage assistant (current_text f))
   else ret tt) ;;
  messages_append (mkMessage user (py_str (content result))) ;;
  stream <- create E None ;;
  for_each next_event_body (events stream) ;;
  of_failure (stream_error stream) ;;
  flush.

(** The [try ... except Exception as e] of the [tool_use] branch. *)
Definition dispatch (E : Env) (server_name tool_name : string) (parameters : PyObj)
  : Py Frame unit :=
  try_except
    (result <- invoke E server_name tool_name parameters ;;
     after_result E server_name tool_name parameters result)
    (fun e => final_text_append (error_msg server_name tool_name e)).

(** The body of [async for event in stream]. *)
Definition event_body (E : Env) (event : StreamEvent) : Py Frame unit :=
  match event with
  | message_start => ret tt
  | content_block_start => ret tt
  | content_block_delta (text_delta text) =>
      modify (fun f => set_current_text (current_text f ++ text) f)
  | content_block_delta (other_delta _) => ret tt
  | content_block_stop => flush
  | message_stop => flush
  | tool_use tool_calls =>
      match tool_calls with
      | [] => raise (mkExc IndexError "list index out of range")
      | tool_call :: _ =>
          names <- of_res (unpack2 (split_1 (tc_name tool_call) underscore)) ;;
          dispatch E (fst names) (snd names) (tc_parameters tool_call)
      end
  | other_event _ => ret tt
  end.

Definition query_body (E : Env) (query : string) : Py Frame string :=
  modify (set_messages [mkMessage user query]) ;;
  f <- get ;;
  let available_tools :=
    _format_tools_for_llm (ConnectionManager.get_all_tools (connection_manager f)) in
  stream <- create E (Some available_tools) ;;
  for_each (event_body E) (events stream) ;;
  of_failure (stream_error stream) ;;
  f <- get ;;
  ret (String.concat nl (final_text f)).

Definition process_query (E : Env) (query : string) : Py ConnectionManager.t string :=
  fun cm l =>
    let '(r, f, l') := query_body E query (mkFrame cm [] [] [] "") l in
    (r, connection_manager f, l').

End LLMManager.

(** ** [Client.start] as asyncio tasks

    Several tasks may be inside [start] of one client at a time.  A task runs
    without interruption from one suspension point to the next; the
    suspension points are the waits for the lock and for the four outside
    calls.  The [except] clause, whose own awaits change nothing for the
    properties below, is run in one piece. *)

Module StartTask.

Inductive pc :=
| Called                          (* start() entered, nothing run yet *)
| WaitLock                        (* suspended in self._reconnect_lock *)
| AwaitStdioClient (h : nat)      (* lock held, inside transport.connect() *)
| AwaitSessionEnter (s : nat)     (* lock held, in ClientSession(...).__aenter__() *)
| AwaitInitialize (s : nat)       (* lock held, in session.initialize() *)
| AwaitListTools (s : nat)        (* lock held, in session.list_tools() *)
| Returned (r : res unit).

(** What a task runs when it wakes up at [p] with the lock held, up to its
    next suspension point; all of it lies inside the [try] of [start]. *)
Definition resume (E : Env) (p : pc) : Py Client.t pc :=
  match p with
  | AwaitStdioClient h =>
      streams <- Client.on_transport
                   (try_except
                      (h' <- Transport.stdio_client_response E h ;;
                       modify (Transport.set_streams (Some h')) ;;
                       ret (h', h'))
                      (fun e => Transport.cleanup ;;
                                raise (Transport.connect_failed e))) ;;
      s <- Client.ClientSession_request (fst streams) ;;
      ret (AwaitSessionEnter s)
  | AwaitSessionEnter s =>
      Client.ClientSession_response E ;;
      modify (Client.set_session (Some s)) ;;
      Client.initialize_request s ;;
      ret (AwaitInitialize s)
  | AwaitInitialize s =>
      Client.initialize_response E ;;
      Client.list_tools_request s ;;
      ret (AwaitListTools s)
  | AwaitListTools s =>
      tools <- Client.list_tools_response E ;;
      modify (Client.set_available_tools tools) ;;
      ret (Returned (Ok tt))
  | _ => ret p
  end.

(** The first stretch after the lock has been taken. *)
Definition after_acquire : Py Client.t pc :=
  h <- Client.on_transport Transport.stdio_client_request ;;
  ret (AwaitStdioClient h).

(** The client, its lock and the log are shared by the tasks. *)
Record Shared := mkShared {
  client : Client.t;
  locked : bool;
  log : Log
}.

(** Run a stretch under the lock, inside [try ... except] of [start]; the
    lock is released when the task leaves the [async with] block. *)
Definition under_lock (m : Py Client.t pc) (sh : Shared) : pc * Shared :=
  match try_except m Client.start_handler (client sh) (log sh) with
  | (Ok (Returned r), c', l') => (Returned r, mkShared c' false l')
  | (Ok p', c', l') => (p', mkShared c' true l')
  | (Raise e, c', l') => (Returned (Raise e), mkShared c' false l')
  end.

(** One step of a task; [None] when the task cannot run. *)
Definition step (E : Env) (p : pc) (sh : Shared) : option (pc * Shared) :=
  match p with
  | Called =>
      if Client.is_connected (client sh) then Some (Returned (Ok tt), sh)
      else if locked sh then Some (WaitLock, sh)
      else Some (under_lock after_acquire sh)
  | WaitLock =>
      if locked sh then None else Some (under_lock after_acquire sh)
  | Returned _ => None
  | _ => Some (under_lock (resume E p) sh)
  end.

(** The event loop: a shared state and the tasks, each at its [pc]. *)
Record Loop := mkLoop { shared : Shared; tasks : list pc }.

Fixpoint replace_nth {A} (i : nat) (x : A) (xs : list A) : list A :=
  match xs, i with
  | [], _ => []
  | _ :: xs', O => x :: xs'
  | y :: xs', S i' => y :: replace_nth i' x xs'
  end.

(** The loop runs task [i] up to its next suspension point. *)
Definition run_task (E : Env) (i : nat) (lp : Loop) : option Loop :=
  match nth_error (tasks lp) i with
  | None => None
  | Some p =>
      match step E p (shared lp) with
      | None => None
      | Some (p', sh') => Some (mkLoop sh' (replace_nth i p' (tasks lp)))
      end
  end.

(** A schedule names the task that runs at each turn. *)
Fixpoint run (E : Env) (schedule : list nat) (lp : Loop) : option Loop :=
  match schedule with
  | [] => Some lp
  | i :: schedule' =>
      match run_task E i lp with
      | None => None
      | Some lp' => run E schedule' lp'
      end
  end.

(** [n] tasks call [start] on the client. *)
Definition spawn (c : Client.t) (l : Log) (n : nat) : Loop :=
  mkLoop (mkShared c false l) (repeat Called n).

(** A task alone, run until it returns. *)
Fixpoint run_alone (E : Env) (fuel : nat) (p : pc) (sh : Shared)
  : option (res unit * Shared) :=
  match p with
  | Returned r => Some (r, sh)
  | _ =>
      match fuel with
      | O => None
      | S fuel' =>
          match step E p sh with
          | None => None
          | Some (p', sh') => run_alone E fuel' p' sh'
          end
      end
  end.

(** Attempts to connect the transport recorded in a log. *)
Definition is_connect_attempt (e : Effect) : bool :=
  match e with stdio_client_enter _ _ _ => true | _ => false end.
Definition connect_attempts (l : Log) : nat :=
  length (filter is_connect_attempt l).

End StartTask.

(** ** [process_stream] of [app.py]

    The same loop over the same host; [full_response] plays the part of
    [final_text], and no list of tool results is kept. *)

Module App.

Definition full_response := LLMManager.final_text.

(** The rest of the [try] block, once the tool has returned. *)
Definition after_result (E : Env) (server_name tool_name : string)
           (parameters : PyObj) (result : CallToolResult)
  : Py LLMManager.Frame unit :=
  LLMManager.final_text_append
    (LLMManager.called_text server_name tool_name parameters) ;;
  f <- get ;;
  (if LLMManager.nonempty (LLMManager.current_text f)
   then LLMManager.messages_append (mkMessage assistant (LLMManager.current_text f))
   else ret tt) ;;
  LLMManager.messages_append (mkMessage user (py_str (content result))) ;;
  stream <- LLMManager.create E None ;;
  for_each LLMManager.next_event_body (events stream) ;;
  of_failure (stream_error stream) ;;
  LLMManager.flush.

Definition dispatch (E : Env) (server_name tool_name : string) (parameters : PyObj)
  : Py LLMManager.Frame unit :=
  try_except
    (result <- LLMManager.invoke E server_name tool_name parameters ;;
     after_result E server_name tool_name parameters result)
    (fun e =>
       LLMManager.final_text_append (LLMManager.error_msg server_name tool_name e)).

(** The body of [async for event in stream]. *)
Definition event_body (E : Env) (event : StreamEvent) : Py LLMManager.Frame unit :=
  match event with
  | message_start => ret tt
  | content_block_start => ret tt
  | content_block_delta (text_delta text) =>
      modify (fun f =>
                LLMManager.set_current_text (LLMManager.current_text f ++ text) f)
  | content_block_delta (other_delta _) => ret tt
  | content_block_stop => LLMManager.flush
  | message_stop => LLMManager.flush
  | tool_use tool_calls =>
      match tool_calls with
      | [] => raise (mkExc IndexError "list index out of range")
      | tool_call :: _ =>
          names <- of_res (unpack2 (split_1 (tc_name tool_call) underscore)) ;;
          dispatch E (fst names) (snd names) (tc_parameters tool_call)
      end
  | other_event _ => ret tt
  end.

Definition stream_body (E : Env) (user_input : string) : Py LLMManager.Frame string :=
  modify (LLMManager.set_messages [mkMessage user user_input]) ;;
  f <- get ;;
  let available_tools :=
    LLMManager._format_tools_for_llm
      (ConnectionManager.get_all_tools (LLMManager.connection_manager f)) in
  stream <- LLMManager.create E (Some available_tools) ;;
  for_each (event_body E) (events stream) ;;
  of_failure (stream_error stream) ;;
  f <- get ;;
  ret (String.concat nl (full_response f)).

Definition process_stream (E : Env) (user_input : string)
  : Py ConnectionManager.t string :=
  fun cm l =>
    let '(r, f, l') := stream_body E user_input (LLMManager.mkFrame cm [] [] [] "") l in
    (r, LLMManager.connection_manager f, l').

End App.

(** ** More of [str]

    Characters are code points below 256. *)

(** [s.endswith(suffix)] *)
Fixpoint endswith (s suffix : string) : bool :=
  if String.eqb s suffix then true
  else match s with
       | EmptyString => false
       | String _ s' => endswith s' suffix
       end.

(** [c.isspace()] *)
Definition isspace (c : ascii) : bool :=
  let n := nat_of_ascii c in
  (Nat.leb 9 n && Nat.leb n 13) || (Nat.leb 28 n && Nat.leb n 32)
  || Nat.eqb n 133 || Nat.eqb n 160.

Fixpoint lstrip (s : string) : string :=
  match s with
  | EmptyString => EmptyString
  | String c s' => if isspace c then lstrip s' else s
  end.

Fixpoint rstrip (s : string) : string :=
  match s with
  | EmptyString => EmptyString
  | String c s' =>
      match rstrip s' with
      | EmptyString => if isspace c then EmptyString else String c EmptyString
      | r => String c r
      end
  end.

(** [s.strip()] *)
Definition strip (s : string) : string := rstrip (lstrip s).

Definition lower_char (c : ascii) : ascii :=
  let n := nat_of_ascii c in
  if (Nat.leb 65 n && Nat.leb n 90)
     || (Nat.leb 192 n && Nat.leb n 222 && negb (Nat.eqb n 215))
  then ascii_of_nat (n + 32) else c.

(** [s.lower()] *)
Fixpoint lower (s : string) : string :=
  match s with
  | EmptyString => EmptyString
  | String c s' => String (lower_char c) (lower s')
  end.

(** [try: body finally: final]: [final] runs however [body] ends, and what
    [body] raised is raised again unless [final] raises itself. *)
Definition try_finally {S A} (body : Py S A) (final : Py S unit) : Py S A :=
  fun s l =>
    let '(r, s', l') := body s l in
    match final s' l' with
    | (Ok _, s'', l'') => (r, s'', l'')
    | (Raise e, s'', l'') => (Raise e, s'', l'')
    end.

(** ** class Host

    A host holds one connection manager and an LLM manager built on that
    same connection manager, which is all its state.  What [chat_loop] and
    [main] print themselves is kept as a list of lines. *)

Module Host.

Record t := mk {
  connection_manager : ConnectionManager.t;
  printed : list string
}.

Definition __init__ : t := mk ConnectionManager.__init__ [].

Definition on_connection_manager {A} (m : Py ConnectionManager.t A) : Py t A :=
  zoom connection_manager (fun cm h => mk cm (printed h)) m.

Definition print (line : string) : Py t unit :=
  modify (fun h => mk (connection_manager h) (printed h ++ [line])).

Definition add_server (E : Env) (server_name script_path : string)
           (env : option (list (string * string))) : Py t unit :=
  if endswith script_path ".py" then
    on_connection_manager
      (ConnectionManager.add_connection E server_name "python" [script_path] env)
  else if endswith script_path ".js" then
    on_connection_manager
      (ConnectionManager.add_connection E server_name "node" [script_path] env)
  else
    on_connection_manager
      (ConnectionManager.add_connection E server_name script_path [] env).

(** One turn of [while True]: [true] when the loop goes on, [false] on
    [break]. *)
Definition chat_round (E : Env) (line : res string) : Py t bool :=
  try_except
    (typed <- of_res line ;;
     let query := strip typed in
     if String.eqb (lower query) "quit" then ret false
     else
       response <- on_connection_manager (LLMManager.process_query E query) ;;
       print (nl ++ response) ;;
       ret true)
    (fun e => print (nl ++ "Error: " ++ exc_str e) ;; ret true).

(** The loop over what [input()] gives, call after call: a line, or an
    exception such as [EOFError].  The result tells whether the loop was left
    by ['quit']; otherwise it is waiting for its next line. *)
Fixpoint chat_rounds (E : Env) (console : list (res string)) : Py t bool :=
  match console with
  | [] => ret false
  | line :: console' =>
      go_on <- chat_round E line ;;
      if go_on then chat_rounds E console' else ret true
  end.

Definition chat_loop (E : Env) (console : list (res string)) : Py t bool :=
  print (nl ++ "MCP Host Started!") ;;
  print "Type your queries or 'quit' to exit." ;;
  chat_rounds E console.

Definition cleanup : Py t unit :=
  on_connection_manager ConnectionManager.cleanup.

End Host.

(** ** [main] *)

Module Main.

Definition equals_sign : ascii := "="%char.

(** The inner [while]: [rest] is [sys.argv[i:]]; the arguments that carry an
    [=] are stored in [env], and what follows them is handed back. *)
Fixpoint parse_env (env : Dict.t string) (rest : list string)
  : res (Dict.t string * list string) :=
  match rest with
  | [] => Ok (env, [])
  | arg :: rest' =>
      if contains_char equals_sign arg then
        match unpack2 (split_1 arg equals_sign) with
        | Ok (key, value) => parse_env (Dict.set key value env) rest'
        | Raise e => Raise e
        end
      else Ok (env, rest)
  end.

Definition ServerConfig : Type := string * string * Dict.t string.

(** The outer [while], with [rest = sys.argv[i:]]; every turn takes two
    arguments at least, so [fuel] turns are enough for [fuel] arguments. *)
Fixpoint parse_configs (fuel : nat) (default : Dict.t string) (rest : list string)
  : res (list ServerConfig) :=
  match fuel with
  | O => Ok []
  | S fuel' =>
      match rest with
      | [] => Ok []
      | [_] => Ok []
      | server_name :: script_path :: rest' =>
          match parse_env default rest' with
          | Raise e => Raise e
          | Ok (env, rest'') =>
              match parse_configs fuel' default rest'' with
              | Raise e => Raise e
              | Ok configs => Ok ((server_name, script_path, env) :: configs)
              end
          end
      end
  end.

(** [i = 1]: the program name is skipped. *)
Definition server_configs (E : Env) (argv : list string) : res (list ServerConfig) :=
  parse_configs (length argv) (get_default_environment E) (tl argv).

Definition usage : list string :=
  ["Usage: python client.py <server_name> <path_to_server_script> [env_var1=value1 ...] [<server_name_2> <path_to_server_script_2> [env_var1=value1 ...] ...]";
   (nl ++ "Example:")%string;
   "python client.py server1 mcp-server1/server.py API_KEY=xyz server2 mcp-server2/server.py TOKEN=abc"].

Inductive Ending :=
| Left (by_quit : bool)      (* chat_loop was left, or still waits for input *)
| Exit (code : nat)          (* sys.exit *)
| Uncaught (e : Exc).

Definition connect_all (E : Env) (configs : list ServerConfig) : Py Host.t unit :=
  for_each (fun config : ServerConfig =>
              let '(server_name, script_path, env) := config in
              Host.add_server E server_name script_path (Some env))
           configs.

Definition main (E : Env) (argv : list string) (console : list (res string))
  : Ending * Host.t * Log :=
  if Nat.ltb (length argv) 3 then
    (Exit 1, Host.mk ConnectionManager.__init__ usage, [])
  else
    match server_configs E argv with
    | Raise e => (Uncaught e, Host.__init__, [])
    | Ok configs =>
        match try_finally (connect_all E configs ;; Host.chat_loop E console)
                          Host.cleanup Host.__init__ [] with
        | (Ok by_quit, h, l) => (Left by_quit, h, l)
        | (Raise e, h, l) => (Uncaught e, h, l)
        end
    end.

End Main.

(** ** The page of [app.py]

    Streamlit runs the script from top to bottom at every interaction;
    [st.session_state] is what stays from one run to the next. *)

Module Page.

Record SessionState := mk {
  host : Host.t;
  messages : list Message;
  server_initialized : bool
}.

(** The state the first run sets up. *)
Definition first : SessionState := mk Host.__init__ [] false.

Definition on_host {A} (m : Py Host.t A) : Py SessionState A :=
  zoom host (fun h st => mk h (messages st) (server_initialized st)) m.

Definition messages_append (m : Message) : Py SessionState unit :=
  modify (fun st => mk (host st) (messages st ++ [m]) (server_initialized st)).

Definition init_server (E : Env) : Py SessionState unit :=
  st <- get ;;
  if negb (server_initialized st) then
    on_host (Host.add_server E "weather" "../weather/src/weather/server.py" None) ;;
    modify (fun st => mk (host st) (messages st) true)
  else ret tt.

(** One run of the script, with what [st.chat_input] returns. *)
Definition run (E : Env) (user_input : option string) : Py SessionState unit :=
  st <- get ;;
  (if negb (server_initialized st) then init_server E else ret tt) ;;
  match user_input with
  | None | Some EmptyString => ret tt
  | Some text =>
      messages_append (mkMessage user text) ;;
      response <- on_host (Host.on_connection_manager (App.process_stream E text)) ;;
      messages_append (mkMessage assistant response)
  end.

End Page.

(** ** States and effects named in the statements *)

Definition released (tr : Transport.t) : Transport.t :=
  Transport.mk (Transport.command tr) (Transport.args tr) (Transport.env tr)
               [] None None.

(** The client once [cleanup] has run, and the calls [cleanup] makes. *)
Definition disconnected (c : Client.t) : Client.t :=
  Client.mk (Client.server_name c) (released (Client.transport c)) None []
            (Client._is_stopping c).

Definition cleanup_effects (c : Client.t) : Log :=
  match Client.session c with Some s => [ClientSession_aexit s] | None => [] end
  ++ map stdio_client_exit (Transport.exit_stack (Client.transport c)).

(** The transport once [connect] has succeeded with handle [h]. *)
Definition opened (h : nat) (tr : Transport.t) : Transport.t :=
  Transport.mk (Transport.command tr) (Transport.args tr) (Transport.env tr)
               (h :: Transport.exit_stack tr) (Some h) (Some h).

Definition connect_request (c : Client.t) : Effect :=
  stdio_client_enter (Transport.command (Client.transport c))
                     (Transport.args (Client.transport c))
                     (Transport.env (Client.transport c)).

(** Kinds of calls recorded in a log. *)
Definition is_invocation (e : Effect) : bool :=
  match e with session_call_tool _ _ _ => true | _ => false end.
Definition is_create (e : Effect) : bool :=
  match e with messages_create _ _ _ => true | _ => false end.

(** The tool invocations sent to servers, and how many streamed responses
    were opened. *)
Definition invocations (l : Log) : Log := filter is_invocation l.
Definition streams_opened (l : Log) : nat := length (filter is_create l).

(** ** A weather server and a model, for the examples *)

Module Scenario.

Definition forecast : Tool := mkTool "forecast" (Some "Get the forecast") (mkPyObj "{}").
Definition alerts : Tool := mkTool "alerts" (Some "Get the alerts") (mkPyObj "{}").
Definition boston : PyObj := mkPyObj "{'city': 'Boston'}".
Definition sunny : CallToolResult := mkCallToolResult (mkPyObj "sunny").

(** Everything works; the model asks for the forecast after some text, and
    asks for the alerts in its continuation. *)
Definition first_stream : Stream :=
  mkStream [message_start;
            content_block_delta (text_delta "A");
            tool_use [mkToolCall "weather_forecast" boston];
            message_stop] None.
Definition continuation : Stream :=
  mkStream [content_block_delta (text_delta "B");
            tool_use [mkToolCall "weather_alerts" boston]] None.

Definition model (l : Log) (messages : list Message) (tools : option (list ToolDict))
  : res Stream :=
  match tools with Some _ => Ok first_stream | None => Ok continuation end.

Definition healthy : Env :=
  mkEnv [("PATH", "/usr/bin")]
        (fun _ => None) (fun _ => None) (fun _ => None)
        (fun _ => Ok [forecast; alerts])
        (fun _ => Ok sunny)
        model.

(** The server answers every invocation with a broken pipe, and cannot be
    started a second time. *)
Definition broken_pipe : Exc := mkExc (ConnectionErrorSubclass "BrokenPipeError") "Broken pipe".
Definition no_such_file : Exc := mkExc (OtherException "FileNotFoundError") "No such file".

Definition dying : Env :=
  mkEnv [("PATH", "/usr/bin")]
        (fun l => if Nat.leb (StartTask.connect_attempts l) 1 then None else Some no_such_file)
        (fun _ => None) (fun _ => None)
        (fun _ => Ok [forecast; alerts])
        (fun _ => Raise broken_pipe)
        model.

(** The server answers every invocation with an error of its own. *)
Definition tool_failed : Exc := mkExc (OtherException "McpError") "city not found".
Definition failing : Env :=
  mkEnv [("PATH", "/usr/bin")]
        (fun _ => None) (fun _ => None) (fun _ => None)
        (fun _ => Ok [forecast; alerts])
        (fun _ => Raise tool_failed)
        model.

(** A client for the weather server, before [start]. *)
Definition fresh_client (E : Env) : Client.t :=
  Client.__init__ "weather" (Transport.__init__ E "python" ["server.py"] None).

(** The client and the log once [start] has gone through. *)
Definition started_log : Log :=
  [stdio_client_enter "python" ["server.py"] [("PATH", "/usr/bin")];
   ClientSession_aenter 0; session_initialize 1; session_list_tools 1].
Definition started_client : Client.t :=
  Client.mk "weather"
            (Transport.mk "python" ["server.py"] [("PATH", "/usr/bin")] [0]
                          (Some 0) (Some 0))
            (Some 1) [forecast; alerts] false.

(** The client and the log once two tasks have gone through [start] one
    after the other. *)
Definition started_twice_log : Log :=
  started_log
    ++ [stdio_client_enter "python" ["server.py"] [("PATH", "/usr/bin")];
        ClientSession_aenter 4; session_initialize 5; session_list_tools 5].
Definition started_twice_client : Client.t :=
  Client.mk "weather"
            (Transport.mk "python" ["server.py"] [("PATH", "/usr/bin")] [4; 0]
                          (Some 4) (Some 4))
            (Some 5) [forecast; alerts] false.

(** The registry once the weather server has been added. *)
Definition registry : ConnectionManager.t :=
  ConnectionManager.mk
    [("weather",
      McpConnection.mk (Server.mk "weather" "python" ["server.py"]) started_client)].

End Scenario.

(** ** Claims of the specification that the code does not meet, as stated *)

(** "A call that fails with a connectivity error is followed by one recovery
    cycle: cleanup, reconnect, one retry, whose outcome is the outcome of the
    call." *)
Definition retry_once_as_stated (E : Env) (c : Client.t) (l : Log)
           (name : string) (arguments : PyObj) : Prop :=
  forall s e1,
    Client.is_connected c = true ->
    Client.session c = Some s ->
    Client.has_tool c name = true ->
    env_call_tool E (l ++ [session_call_tool s name arguments]) = Raise e1 ->
    isinstance_ConnectionError e1 = true ->
    exists r c' l',
      Client.call_tool E name arguments c l = (r, c', l') /\
      length (invocations l') = length (invocations l) + 2 /\
      r = env_call_tool E l'.

Module Scenario2.

(** The first invocation hits a broken pipe; after the reconnection the
    server answers. *)
Definition flaky : Env :=
  mkEnv [("PATH", "/usr/bin")]
        (fun _ => None) (fun _ => None) (fun _ => None)
        (fun _ => Ok [Scenario.forecast; Scenario.alerts])
        (fun l => if Nat.leb (length (invocations l)) 1
                  then Raise Scenario.broken_pipe else Ok Scenario.sunny)
        Scenario.model.

(** The weather client after cleanup and a second [start]. *)
Definition restarted_client : Client.t :=
  Client.mk "weather"
            (Transport.mk "python" ["server.py"] [("PATH", "/usr/bin")] [7]
                          (Some 7) (Some 7))
            (Some 8) [Scenario.forecast; Scenario.alerts] false.

End Scenario2.

(** ** The event loop, in the words of the statements *)

(** The text a stream carries in its text deltas. *)
Fixpoint text_of (evs : list StreamEvent) : string :=
  match evs with
  | [] => ""
  | content_block_delta (text_delta text) :: evs' => text ++ text_of evs'
  | _ :: evs' => text_of evs'
  end.

Definition is_tool_use (ev : StreamEvent) : bool :=
  match ev with tool_use _ => true | _ => false end.
Definition count_tool_use (evs : list StreamEvent) : nat :=
  length (filter is_tool_use evs).

(** The [tool_use] events carried by all the streams a log has delivered. *)
Fixpoint tool_use_delivered (l : Log) : nat :=
  match l with
  | [] => 0
  | messages_create _ _ (Ok stream) :: l' =>
      count_tool_use (events stream) + tool_use_delivered l'
  | _ :: l' => tool_use_delivered l'
  end.

(** The frame once the buffer has been flushed to the output. *)
Definition flushed (f : LLMManager.Frame) : LLMManager.Frame :=
  if LLMManager.nonempty (LLMManager.current_text f) then
    LLMManager.set_current_text ""
      (LLMManager.set_final_text
         (LLMManager.final_text f ++ [LLMManager.current_text f]) f)
  else f.

(** The turns appended once a tool has returned [result]. *)
Definition turns_after (f : LLMManager.Frame) (result : CallToolResult) : list Message :=
  (if LLMManager.nonempty (LLMManager.current_text f)
   then [mkMessage assistant (LLMManager.current_text f)] else [])
  ++ [mkMessage user (py_str (content result))].

(** The frame when the continuation is asked for. *)
Definition frame_after (f : LLMManager.Frame) (server_name tool_name : string)
           (parameters : PyObj) (result : CallToolResult) : LLMManager.Frame :=
  LLMManager.mkFrame
    (LLMManager.connection_manager f)
    (LLMManager.messages f ++ turns_after f result)
    (LLMManager.tool_results f ++ [(server_name, tool_name, result)])
    (LLMManager.final_text f
       ++ [LLMManager.called_text server_name tool_name parameters])
    (LLMManager.current_text f).

Definition annotated (f : LLMManager.Frame) (server_name tool_name : string) (e : Exc)
  : LLMManager.Frame :=
  LLMManager.set_final_text
    (LLMManager.final_text f ++ [LLMManager.error_msg server_name tool_name e]) f.

(** "After every [tool_use] event a new stream is opened, and the events of
    that stream are handled by the same rules": each [tool_use] event
    delivered during a query has its own continuation. *)
Definition reopens_as_stated (E : Env) (query : string) (cm : ConnectionManager.t)
           (l : Log) : Prop :=
  forall r cm' l',
    LLMManager.process_query E query cm l = (r, cm', l') ->
    streams_opened (skipn (length l) l')
      = 1 + tool_use_delivered (skipn (length l) l').

(** "A [tool_use] event that arrives while text is buffered flushes the text
    as an assistant turn, which empties the buffer." *)
Definition flush_as_stated (E : Env) (tool_calls : list ToolCall)
           (f : LLMManager.Frame) (l : Log) : Prop :=
  LLMManager.nonempty (LLMManager.current_text f) = true ->
  forall r f' l',
    LLMManager.event_body E (tool_use tool_calls) f l = (r, f', l') ->
    In (mkMessage assistant (LLMManager.current_text f)) (LLMManager.messages f') /\
    LLMManager.current_text f' = "".

Module Scenario3.

(** The query under way: the weather server is registered and the model
    has produced the text "A". *)
Definition frame_A : LLMManager.Frame :=
  LLMManager.mkFrame Scenario.registry [mkMessage user "Boston?"] [] [] "A".

Definition forecast_call : ToolCall := mkToolCall "weather_forecast" Scenario.boston.

End Scenario3.

(** A stretch of log that carries no request to the model, and whose tool
    invocations, at most two, are all for [name] with [arguments]. *)
Definition invokes_only (name : string) (arguments : PyObj) (sent : Log) : Prop :=
  filter is_create sent = [] /\
  length (invocations sent) <= 2 /\
  forall e, In e (invocations sent) -> exists s, e = session_call_tool s name arguments.

(** Two frames that differ at most in the tool results they keep. *)
Definition same_but_results (f g : LLMManager.Frame) : Prop :=
  LLMManager.set_tool_results [] f = LLMManager.set_tool_results [] g.

Module Scenario4.

(** The model asks for the forecast twice after the text "A"; its first
    continuation is refused by the API, the second goes through. *)
Definition overloaded : Exc := mkExc (OtherException "APIStatusError") "overloaded".

Definition first_stream : Stream :=
  mkStream [content_block_delta (text_delta "A");
            tool_use [Scenario3.forecast_call];
            tool_use [Scenario3.forecast_call];
            message_stop] None.

Definition model (l : Log) (messages : list Message) (tools : option (list ToolDict))
  : res Stream :=
  match tools with
  | Some _ => Ok first_stream
  | None => if Nat.leb (streams_opened l) 1 then Raise overloaded
            else Ok (mkStream [content_block_delta (text_delta "B")] None)
  end.

Definition overloaded_once : Env :=
  mkEnv [("PATH", "/usr/bin")]
        (fun _ => None) (fun _ => None) (fun _ => None)
        (fun _ => Ok [Scenario.forecast; Scenario.alerts])
        (fun _ => Ok Scenario.sunny)
        model.

End Scenario4.

(** The tasks that are inside the block guarded by the lock. *)
Definition holds_lock (p : StartTask.pc) : bool :=
  match p with
  | StartTask.AwaitStdioClient _ | StartTask.AwaitSessionEnter _
  | StartTask.AwaitInitialize _ | StartTask.AwaitListTools _ => true
  | _ => false
  end.
Definition holders (ts : list StartTask.pc) : nat := length (filter holds_lock ts).

(** ** Names used in the further statements *)

(** The server names a registry holds, in order of registration. *)
Definition server_names (cm : ConnectionManager.t) : list string :=
  map fst (ConnectionManager.connections cm).

(** The clients a registry holds. *)
Definition clients (cm : ConnectionManager.t) : list Client.t :=
  map (fun kv => McpConnection.client (snd kv)) (ConnectionManager.connections cm).

(** The client once [stop] has run. *)
Definition stopped (c : Client.t) : Client.t :=
  Client.set_is_stopping false (disconnected c).

(** The launch descriptions a registry holds, by server name. *)
Definition descriptors (cm : ConnectionManager.t) : list (string * Server.t) :=
  map (fun kv => (fst kv, McpConnection.server (snd kv)))
      (ConnectionManager.connections cm).

Definition is_stop (ev : StreamEvent) : bool :=
  match ev with content_block_stop | message_stop => true | _ => false end.

(** What a stream without [tool_use] events puts out: the text deltas,
    cut at every [content_block_stop] and [message_stop]; and the text that
    is left in the buffer at the end. *)
Fixpoint segments (buffer : string) (evs : list StreamEvent) : list string * string :=
  match evs with
  | [] => ([], buffer)
  | content_block_delta (text_delta text) :: evs' => segments (buffer ++ text) evs'
  | content_block_stop :: evs' | message_stop :: evs' =>
      if LLMManager.nonempty buffer
      then (buffer :: fst (segments "" evs'), snd (segments "" evs'))
      else segments "" evs'
  | _ :: evs' => segments buffer evs'
  end.

(** [KEY=value], as it is typed. *)
Definition assignment (kv : string * string) : string :=
  (fst kv ++ String Main.equals_sign (snd kv))%string.

(** A line of the console at which [chat_loop] breaks. *)
Definition is_quit (line : res string) : bool :=
  match line with
  | Ok typed => String.eqb (lower (strip typed)) "quit"
  | Raise _ => false
  end.

(** [print(f"\nError: {str(e)}")] *)
Definition error_line (e : Exc) : string := (nl ++ "Error: " ++ exc_str e)%string.

(** * Properties *)

(** ** Strings *)

Lemma append_nil_r (s : string) : (s ++ "")%string = s.
Proof. induction s as [|c s IH]; cbn; [reflexivity|now rewrite IH]. Qed.

Lemma append_assoc (s1 s2 s3 : string) :
  ((s1 ++ s2) ++ s3)%string = (s1 ++ (s2 ++ s3))%string.
Proof. induction s1 as [|c s1 IH]; cbn; [reflexivity|now rewrite IH]. Qed.

(** ** Running the monad *)

Lemma for_each_emit {S} (mk_effect : nat -> Effect) (hs : list nat) (s : S) (l : Log) :
  for_each (fun h => emit (mk_effect h)) hs s l = (Ok tt, s, l ++ map mk_effect hs).
Proof.
  revert l. induction hs as [|h hs IH]; intros l; simpl.
  - now rewrite app_nil_r.
  - unfold bind at 1, emit at 1. rewrite IH, <- app_assoc. reflexivity.
Qed.

(** ** Transport *)

Lemma Transport_cleanup_run (tr : Transport.t) (l : Log) :
  Transport.cleanup tr l =
  (Ok tt, released tr, l ++ map stdio_client_exit (Transport.exit_stack tr)).
Proof.
  unfold Transport.cleanup, Transport.aclose, bind, modify, get.
  rewrite for_each_emit. reflexivity.
Qed.

(** C9: cleaning a transport up a second time changes nothing and releases
    nothing, and so does cleaning up a transport that was never connected;
    no call of [cleanup] raises. *)
Theorem Transport_cleanup_idempotent (tr : Transport.t) (l : Log) :
  (exists tr1 l1,
      Transport.cleanup tr l = (Ok tt, tr1, l1) /\
      Transport.cleanup tr1 l1 = (Ok tt, tr1, l1) /\
      Transport.stdio tr1 = None /\ Transport.write tr1 = None) /\
  (Transport.cleanup ;; Transport.cleanup) tr l = Transport.cleanup tr l /\
  (forall E command args env,
      Transport.cleanup (Transport.__init__ E command args env) l =
      (Ok tt, Transport.__init__ E command args env, l)).
Proof.
  split; [|split].
  - exists (released tr), (l ++ map stdio_client_exit (Transport.exit_stack tr)).
    rewrite !Transport_cleanup_run. cbn. rewrite app_nil_r. auto.
  - unfold bind. rewrite !Transport_cleanup_run. cbn. now rewrite app_nil_r.
  - intros. rewrite Transport_cleanup_run. cbn. now rewrite app_nil_r.
Qed.

Lemma Transport_connect_run (E : Env) (tr : Transport.t) (l : Log) :
  let l1 := l ++ [stdio_client_enter (Transport.command tr) (Transport.args tr)
                                     (Transport.env tr)] in
  Transport.connect E tr l =
  match env_stdio_client E l1 with
  | None =>
      (Ok (length l, length l),
       Transport.mk (Transport.command tr) (Transport.args tr) (Transport.env tr)
                    (length l :: Transport.exit_stack tr)
                    (Some (length l)) (Some (length l)),
       l1)
  | Some e =>
      (Raise (Transport.connect_failed e), released tr,
       l1 ++ map stdio_client_exit (Transport.exit_stack tr))
  end.
Proof.
  intros l1. unfold Transport.connect, Transport.enter_stdio_client,
    Transport.stdio_client_request, Transport.stdio_client_response.
  unfold try_except, bind at 1 2 3 4 5 6 7 8. unfold get, history, emit, ret.
  fold l1. unfold bind at 1.
  destruct (env_stdio_client E l1) as [e|]; cbn.
  - unfold bind. rewrite Transport_cleanup_run. reflexivity.
  - reflexivity.
Qed.

(** ** Client *)

Lemma Client_cleanup_run (c : Client.t) (l : Log) :
  Client.cleanup c l = (Ok tt, disconnected c, l ++ cleanup_effects c).
Proof.
  unfold Client.cleanup, Client.on_transport, zoom, cleanup_effects.
  unfold bind, modify, get.
  destruct c as [name tr [s|] tools stopping];
    cbn [Client.session Client.set_available_tools]; unfold emit, ret;
    rewrite Transport_cleanup_run; cbn; rewrite <- ?app_assoc; reflexivity.
Qed.

Ltac py_eval :=
  cbv beta iota zeta delta
    [bind ret raise try_except get modify emit history of_res of_failure zoom
     fst snd
     Client.on_transport Client.start_handler
     Client.ClientSession_enter Client.ClientSession_request
     Client.ClientSession_response
     Client.initialize Client.initialize_request Client.initialize_response
     Client.list_tools Client.list_tools_request Client.list_tools_response
     Client.session_call].

(** [start] with the lock held, spelled out on the four answers of the
    environment. *)
Lemma start_locked_run (E : Env) (c : Client.t) (l : Log) :
  let h := length l in
  let l1 := l ++ [connect_request c] in
  let s := length l1 in
  let l2 := l1 ++ [ClientSession_aenter h] in
  let l3 := l2 ++ [session_initialize s] in
  let l4 := l3 ++ [session_list_tools s] in
  let c1 := Client.set_transport (opened h (Client.transport c)) c in
  let c2 := Client.set_session (Some s) c1 in
  Client.start_locked E c l =
  match env_stdio_client E l1 with
  | Some e =>
      (Raise (Client.start_failed c (Transport.connect_failed e)), disconnected c,
       (l1 ++ map stdio_client_exit (Transport.exit_stack (Client.transport c)))
          ++ cleanup_effects (Client.set_transport (released (Client.transport c)) c))
  | None =>
      match env_ClientSession_aenter E l2 with
      | Some e => (Raise (Client.start_failed c e), disconnected c,
                   l2 ++ cleanup_effects c1)
      | None =>
          match env_initialize E l3 with
          | Some e => (Raise (Client.start_failed c e), disconnected c,
                       l3 ++ cleanup_effects c2)
          | None =>
              match env_list_tools E l4 with
              | Raise e => (Raise (Client.start_failed c e), disconnected c,
                            l4 ++ cleanup_effects c2)
              | Ok tools => (Ok tt, Client.set_available_tools tools c2, l4)
              end
          end
      end
  end.
Proof.
  intros h l1 s l2 l3 l4 c1 c2. subst h l1 s l2 l3 l4 c1 c2.
  unfold Client.start_locked. py_eval. rewrite Transport_connect_run.
  unfold connect_request.
  repeat
    match goal with
    | |- context [match ?o with Some _ => _ | None => _ end] =>
        destruct o; py_eval; rewrite ?Client_cleanup_run
    | |- context [match ?o with Ok _ => _ | Raise _ => _ end] =>
        destruct o; py_eval; rewrite ?Client_cleanup_run
    end; reflexivity.
Qed.

(** ** The task model agrees with the method *)

Ltac task_eval :=
  cbv beta iota zeta delta
    [StartTask.run_alone StartTask.step StartTask.under_lock
     StartTask.after_acquire StartTask.resume
     StartTask.client StartTask.locked StartTask.log
     Transport.stdio_client_request Transport.stdio_client_response];
  py_eval.

(** A task that runs [start] alone goes through the same calls and ends in the
    same state as the method run in one piece, with the lock free again. *)
Lemma run_alone_start (E : Env) (c : Client.t) (l : Log) :
  StartTask.run_alone E 5 StartTask.Called (StartTask.mkShared c false l) =
  let '(r, c', l') := Client.start E c l in
  Some (r, StartTask.mkShared c' false l').
Proof.
  unfold Client.start. py_eval. task_eval.
  destruct (Client.is_connected c); [reflexivity|].
  rewrite start_locked_run. unfold connect_request.
  cbn [Client.transport Client.set_transport].
  repeat
    match goal with
    | |- context [match ?o with Some _ => _ | None => _ end] =>
        destruct o; task_eval;
        rewrite ?Transport_cleanup_run, ?Client_cleanup_run
    | |- context [match ?o with Ok _ => _ | Raise _ => _ end] =>
        destruct o; task_eval;
        rewrite ?Transport_cleanup_run, ?Client_cleanup_run
    end; try reflexivity.
Qed.

(** ** Concurrent callers of [start] *)

Example Scenario_start :
  Client.start Scenario.healthy (Scenario.fresh_client Scenario.healthy) [] =
  (Ok tt, Scenario.started_client, Scenario.started_log).
Proof. reflexivity. Qed.

Example Scenario_add_connection :
  ConnectionManager.add_connection Scenario.healthy "weather" "python" ["server.py"]
    None ConnectionManager.__init__ [] =
  (Ok tt, Scenario.registry, Scenario.started_log).
Proof. reflexivity. Qed.

(** C3: two tasks call [start] on a disconnected client.  The second finds the
    client disconnected and waits for the lock; when the first has connected
    and released the lock, the second connects again: two attempts are made,
    and the session of the first is replaced without having been closed. *)
Theorem start_concurrent_connects_twice :
  let tasks := StartTask.spawn (Scenario.fresh_client Scenario.healthy) [] 2 in
  StartTask.run Scenario.healthy [0; 1] tasks =
    Some (StartTask.mkLoop
            (StartTask.mkShared (Scenario.fresh_client Scenario.healthy) true
               [stdio_client_enter "python" ["server.py"] [("PATH", "/usr/bin")]])
            [StartTask.AwaitStdioClient 0; StartTask.WaitLock]) /\
  StartTask.run Scenario.healthy [0; 1; 0; 0; 0; 0] tasks =
    Some (StartTask.mkLoop
            (StartTask.mkShared Scenario.started_client false Scenario.started_log)
            [StartTask.Returned (Ok tt); StartTask.WaitLock]) /\
  StartTask.run Scenario.healthy [0; 1; 0; 0; 0; 0; 1; 1; 1; 1; 1] tasks =
    Some (StartTask.mkLoop
            (StartTask.mkShared Scenario.started_twice_client false
               Scenario.started_twice_log)
            [StartTask.Returned (Ok tt); StartTask.Returned (Ok tt)]) /\
  StartTask.connect_attempts Scenario.started_twice_log = 2 /\
  ~ In (ClientSession_aexit 1) Scenario.started_twice_log.
Proof.
  cbv zeta.
  split; [vm_compute; reflexivity|].
  split; [vm_compute; reflexivity|].
  split; [vm_compute; reflexivity|].
  split; [vm_compute; reflexivity|].
  cbn. intros H. repeat (destruct H as [H|H]; [discriminate H|]). exact H.
Qed.

(** What the lock does give: whatever the schedule, at most one task is
    inside the guarded block, and the lock is held exactly then. *)
Lemma under_lock_holder (m : Py Client.t StartTask.pc) (sh : StartTask.Shared) :
  (forall c l p c' l', m c l = (Ok p, c', l') ->
                       holds_lock p = true \/ exists r, p = StartTask.Returned r) ->
  holds_lock (fst (StartTask.under_lock m sh))
  = StartTask.locked (snd (StartTask.under_lock m sh)).
Proof.
  intros Hm. unfold StartTask.under_lock, try_except.
  destruct (m (StartTask.client sh) (StartTask.log sh)) as [[[p|e] c'] l'] eqn:Hrun.
  - destruct (Hm _ _ _ _ _ Hrun) as [Hp|[r ->]]; [|reflexivity].
    destruct p; try discriminate Hp; reflexivity.
  - unfold Client.start_handler, bind. rewrite Client_cleanup_run. reflexivity.
Qed.

Lemma after_acquire_holder (c : Client.t) (l : Log) p c' l' :
  StartTask.after_acquire c l = (Ok p, c', l') ->
  holds_lock p = true \/ exists r, p = StartTask.Returned r.
Proof.
  unfold StartTask.after_acquire, Client.on_transport, zoom,
    Transport.stdio_client_request, bind, get, history, emit, ret.
  intros H. injection H as <- _ _. left. reflexivity.
Qed.

Lemma resume_holder (E : Env) (p0 : StartTask.pc) (c : Client.t) (l : Log) p c' l' :
  holds_lock p0 = true ->
  StartTask.resume E p0 c l = (Ok p, c', l') ->
  holds_lock p = true \/ exists r, p = StartTask.Returned r.
Proof.
  intros H0. destruct p0; try discriminate H0; cbn [StartTask.resume];
    unfold bind; intros H;
    repeat
      match type of H with
      | (let (_, _) := ?m in _) = _ =>
          destruct m as [[[?|?] ?] ?]; try discriminate H
      | match ?m with _ => _ end = _ =>
          destruct m as [[[?|?] ?] ?]; try discriminate H
      end;
    unfold ret in H; injection H as <- _ _; eauto.
Qed.

Lemma Some_eq {A} (x y : A) : Some x = Some y -> x = y.
Proof. congruence. Qed.

Lemma step_lock (E : Env) (p : StartTask.pc) (sh : StartTask.Shared) p' sh' :
  StartTask.step E p sh = Some (p', sh') ->
  (holds_lock p = true -> holds_lock p' = StartTask.locked sh') /\
  (holds_lock p = false ->
   (holds_lock p' = false /\ StartTask.locked sh' = StartTask.locked sh) \/
   (StartTask.locked sh = false /\ holds_lock p' = StartTask.locked sh')).
Proof.
  pose proof (under_lock_holder StartTask.after_acquire sh after_acquire_holder) as Ha.
  assert (Hr : forall p0, holds_lock p0 = true ->
                 holds_lock (fst (StartTask.under_lock (StartTask.resume E p0) sh))
                 = StartTask.locked (snd (StartTask.under_lock (StartTask.resume E p0) sh))).
  { intros p0 Hp0. apply under_lock_holder. intros. eapply resume_holder; eauto. }
  destruct p; cbn [StartTask.step holds_lock]; intros H;
    try (match type of H with
         | Some (StartTask.under_lock (StartTask.resume E ?p0) sh) = _ =>
             specialize (Hr p0 eq_refl)
         end;
         apply Some_eq in H; rewrite H in Hr;
         split; [intros _; exact Hr|discriminate]).
  - destruct (Client.is_connected (StartTask.client sh)).
    { injection H as <- <-. split; [discriminate|]. intros _. left. split; reflexivity. }
    destruct (StartTask.locked sh) eqn:Hl.
    { injection H as <- <-. split; [discriminate|]. intros _. left. now split. }
    apply Some_eq in H. rewrite H in Ha. split; [discriminate|]. intros _. right.
    split; [reflexivity|exact Ha].
  - destruct (StartTask.locked sh) eqn:Hl; [discriminate|].
    apply Some_eq in H. rewrite H in Ha. split; [discriminate|]. intros _. right.
    split; [reflexivity|exact Ha].
  - discriminate H.
Qed.

Lemma holders_replace_nth (ts : list StartTask.pc) (i : nat) (p p' : StartTask.pc) :
  nth_error ts i = Some p ->
  holders (StartTask.replace_nth i p' ts) + (if holds_lock p then 1 else 0)
  = holders ts + (if holds_lock p' then 1 else 0).
Proof.
  unfold holders. revert i. induction ts as [|q ts IH]; intros i H.
  - destruct i; discriminate.
  - destruct i as [|i]; cbn in H |- *.
    + injection H as ->. destruct (holds_lock p), (holds_lock p'); cbn; lia.
    + specialize (IH i H). destruct (holds_lock q); cbn; lia.
Qed.

Lemma lock_serialises_attempts (E : Env) (schedule : list nat) (lp lp' : StartTask.Loop) :
  holders (StartTask.tasks lp)
    = (if StartTask.locked (StartTask.shared lp) then 1 else 0) ->
  StartTask.run E schedule lp = Some lp' ->
  holders (StartTask.tasks lp')
    = (if StartTask.locked (StartTask.shared lp') then 1 else 0).
Proof.
  revert lp. induction schedule as [|i schedule IH]; intros lp Hinv; cbn [StartTask.run].
  - intros H. now injection H as <-.
  - unfold StartTask.run_task.
    destruct (nth_error (StartTask.tasks lp) i) as [p|] eqn:Hnth; [|discriminate].
    destruct (StartTask.step E p (StartTask.shared lp)) as [[p' sh']|] eqn:Hstep;
      [|discriminate].
    apply IH. cbn [StartTask.tasks StartTask.shared].
    pose proof (holders_replace_nth _ _ _ p' Hnth) as Hcount.
    destruct (step_lock E p _ _ _ Hstep) as [Hheld Hfree].
    destruct (holds_lock p) eqn:Hp.
    + specialize (Hheld eq_refl). rewrite <- Hheld.
      assert (Hone : holders (StartTask.tasks lp) >= 1).
      { unfold holders. clear - Hnth Hp. revert i Hnth.
        induction (StartTask.tasks lp) as [|q ts IHts]; intros i Hnth.
        - destruct i; discriminate.
        - destruct i; cbn in *.
          + injection Hnth as ->. rewrite Hp. cbn. lia.
          + specialize (IHts i Hnth). destruct (holds_lock q); cbn; lia. }
      destruct (StartTask.locked (StartTask.shared lp)); [|lia].
      destruct (holds_lock p'); lia.
    + destruct (Hfree eq_refl) as [[Hp' Hl]|[Hl Hp']].
      * rewrite Hl, <- Hinv. rewrite Hp' in Hcount. lia.
      * rewrite Hl in Hinv. rewrite <- Hp'. destruct (holds_lock p'); lia.
Qed.

Lemma start_tasks_exclusive (E : Env) (schedule : list nat) (c : Client.t) (l : Log)
      (n : nat) (lp : StartTask.Loop) :
  StartTask.run E schedule (StartTask.spawn c l n) = Some lp ->
  holders (StartTask.tasks lp) <= 1.
Proof.
  intros Hrun.
  assert (H0 : forall k, holders (repeat StartTask.Called k) = 0).
  { induction k as [|k IH]; [reflexivity|exact IH]. }
  pose proof (lock_serialises_attempts E schedule (StartTask.spawn c l n) lp
                (H0 n) Hrun) as Hinv.
  destruct (StartTask.locked (StartTask.shared lp)); lia.
Qed.

(** ** What [start] and [cleanup] send *)

Lemma filter_exits (p : Effect -> bool) (hs : list nat) :
  (forall h, p (stdio_client_exit h) = false) ->
  filter p (map stdio_client_exit hs) = [].
Proof.
  intros Hp. induction hs as [|h hs IH]; cbn; [reflexivity|].
  now rewrite Hp.
Qed.

Lemma cleanup_effects_quiet (p : Effect -> bool) (c : Client.t) :
  (forall h, p (stdio_client_exit h) = false) ->
  (forall s, p (ClientSession_aexit s) = false) ->
  filter p (cleanup_effects c) = [].
Proof.
  intros Hexit Haexit. unfold cleanup_effects.
  rewrite filter_app, filter_exits by assumption.
  destruct (Client.session c); cbn; rewrite ?Haexit; reflexivity.
Qed.

Ltac quiet :=
  repeat rewrite ?filter_app, ?length_app;
  rewrite ?cleanup_effects_quiet, ?filter_exits by reflexivity;
  cbn; rewrite ?app_nil_r.

(** With the lock held, [start] makes one attempt to connect and sends no
    tool invocation and no request to the model; it leaves the client either
    with a session or cleaned up, and then raises a [ConnectionError]. *)
Lemma start_locked_spec (E : Env) (c : Client.t) (l : Log) :
  exists r c' sent,
    Client.start_locked E c l = (r, c', l ++ sent) /\
    StartTask.connect_attempts sent = 1 /\
    invocations sent = [] /\
    filter is_create sent = [] /\
    match r with
    | Ok _ => (exists s, Client.session c' = Some s) /\
              Client._is_stopping c' = Client._is_stopping c /\
              Client.server_name c' = Client.server_name c
    | Raise e => exc_class e = ConnectionError /\ c' = disconnected c
    end.
Proof.
  rewrite start_locked_run. unfold connect_request.
  unfold StartTask.connect_attempts, invocations.
  repeat
    match goal with
    | |- context [match ?o with Some _ => _ | None => _ end] => destruct o
    | |- context [match ?o with Ok _ => _ | Raise _ => _ end] => destruct o
    end;
    do 3 eexists; rewrite <- ?app_assoc;
    (split; [reflexivity|]); quiet; repeat split; eauto.
Qed.

Lemma ensure_connected_connected (E : Env) (c : Client.t) (l : Log) :
  Client.is_connected c = true -> Client.ensure_connected E c l = (Ok tt, c, l).
Proof.
  intros H. unfold Client.ensure_connected, bind, get. now rewrite H.
Qed.

Lemma ensure_connected_disconnected (E : Env) (c : Client.t) (l : Log) :
  Client.is_connected c = false ->
  Client.ensure_connected E c l = Client.start_locked E c l.
Proof.
  intros H. unfold Client.ensure_connected, Client.start, bind, get.
  rewrite H. cbn. now rewrite H.
Qed.

(** [ensure_connected] sends no tool invocation and no request to the model,
    and makes at most one attempt to connect. *)
Lemma ensure_connected_spec (E : Env) (c : Client.t) (l : Log) :
  exists r c' sent,
    Client.ensure_connected E c l = (r, c', l ++ sent) /\
    StartTask.connect_attempts sent <= 1 /\
    invocations sent = [] /\
    filter is_create sent = [] /\
    match r with
    | Ok _ => exists s, Client.session c' = Some s
    | Raise e => exc_class e = ConnectionError
    end.
Proof.
  destruct (Client.is_connected c) eqn:Hc.
  - rewrite ensure_connected_connected by assumption.
    exists (Ok tt), c, []. rewrite app_nil_r. repeat split; auto.
    unfold Client.is_connected in Hc. destruct (Client.session c); eauto.
    discriminate.
  - rewrite ensure_connected_disconnected by assumption.
    destruct (start_locked_spec E c l) as (r & c' & sent & -> & H1 & H2 & H3 & H4).
    exists r, c', sent. repeat split; auto; [lia|].
    destruct r; intuition.
Qed.

(** ** Calling a tool *)

(** C7: a tool that is not in the list the session holds once the connection
    is ensured is refused by the client itself: [call_tool] raises the
    [ValueError] "Tool ... not available on server ..." and no invocation is
    sent to the server.  On a connected session nothing is sent at all. *)
Theorem call_tool_unknown_capability
        (E : Env) (c : Client.t) (l : Log) (name : string) (arguments : PyObj)
        (c1 : Client.t) (l1 : Log) :
  Client.ensure_connected E c l = (Ok tt, c1, l1) ->
  Client.has_tool c1 name = false ->
  Client.call_tool E name arguments c l =
    (Raise (Client.tool_not_available c1 name), c1, l1) /\
  exc_class (Client.tool_not_available c1 name) = ValueError /\
  invocations l1 = invocations l /\
  (Client.is_connected c = true -> c1 = c /\ l1 = l).
Proof.
  intros Hens Hno. repeat split.
  - unfold Client.call_tool, bind. rewrite Hens. unfold get. now rewrite Hno.
  - destruct (ensure_connected_spec E c l) as (r & c' & sent & Hrun & _ & Hinv & _).
    rewrite Hens in Hrun. injection Hrun as _ _ ->.
    unfold invocations in *. now rewrite filter_app, Hinv, app_nil_r.
  - rewrite ensure_connected_connected in Hens by assumption. congruence.
  - rewrite ensure_connected_connected in Hens by assumption. congruence.
Qed.

(** On the started weather client, which lists no tool "news". *)
Lemma call_tool_unknown_capability_witness :
  Client.call_tool Scenario.healthy "news" Scenario.boston
                   Scenario.started_client Scenario.started_log =
    (Raise (Client.tool_not_available Scenario.started_client "news"),
     Scenario.started_client, Scenario.started_log) /\
  exc_class (Client.tool_not_available Scenario.started_client "news") = ValueError /\
  invocations Scenario.started_log = invocations Scenario.started_log /\
  (Client.is_connected Scenario.started_client = true ->
   Scenario.started_client = Scenario.started_client /\
   Scenario.started_log = Scenario.started_log).
Proof.
  apply (call_tool_unknown_capability Scenario.healthy Scenario.started_client
           Scenario.started_log "news" Scenario.boston); reflexivity.
Defined.

(** The first attempt of [call_tool] on a connected session that has the
    tool. *)
Lemma call_tool_first_attempt
      (E : Env) (c : Client.t) (l : Log) (name : string) (arguments : PyObj)
      (s : nat) :
  Client.is_connected c = true ->
  Client.session c = Some s ->
  Client.has_tool c name = true ->
  Client.call_tool E name arguments c l =
  match env_call_tool E (l ++ [session_call_tool s name arguments]) with
  | Ok result => (Ok result, c, l ++ [session_call_tool s name arguments])
  | Raise e =>
      if isinstance_ConnectionError e then
        (Client.cleanup ;; Client.ensure_connected E ;;
         Client.session_call E name arguments)
          c (l ++ [session_call_tool s name arguments])
      else (Raise e, c, l ++ [session_call_tool s name arguments])
  end.
Proof.
  intros Hc Hs Ht. unfold Client.call_tool. unfold bind at 1.
  rewrite ensure_connected_connected by assumption.
  unfold bind at 1, get. rewrite Ht. cbn [negb].
  unfold try_except, Client.session_call at 1. unfold bind at 1, get.
  rewrite Hs. unfold bind at 1 2, emit, history, of_res.
  destruct (env_call_tool E (l ++ [session_call_tool s name arguments])) as [r|e];
    [reflexivity|].
  destruct (isinstance_ConnectionError e); reflexivity.
Qed.

(** C4, as the code has it: a failure of the invocation that is not a
    [ConnectionError] propagates at once.  After a [ConnectionError] the
    session is cleaned up and one attempt to reconnect is made; when that
    fails, its [ConnectionError] propagates and the call is not retried; when
    it succeeds, the call is sent once more and the outcome of that second
    invocation, result or exception, is the outcome of [call_tool]. *)
Theorem call_tool_recovery
        (E : Env) (c : Client.t) (l : Log) (name : string) (arguments : PyObj)
        (s : nat) (e1 : Exc) :
  Client.is_connected c = true ->
  Client.session c = Some s ->
  Client.has_tool c name = true ->
  env_call_tool E (l ++ [session_call_tool s name arguments]) = Raise e1 ->
  let first := session_call_tool s name arguments in
  (isinstance_ConnectionError e1 = false ->
   Client.call_tool E name arguments c l = (Raise e1, c, l ++ [first])) /\
  (isinstance_ConnectionError e1 = true ->
   exists r c2 sent,
     Client.start_locked E (disconnected c) (l ++ [first] ++ cleanup_effects c) =
       (r, c2, l ++ [first] ++ cleanup_effects c ++ sent) /\
     StartTask.connect_attempts sent = 1 /\
     invocations sent = [] /\
     match r with
     | Raise e =>
         Client.call_tool E name arguments c l =
           (Raise e, c2, l ++ [first] ++ cleanup_effects c ++ sent) /\
         exc_class e = ConnectionError /\
         invocations (l ++ [first] ++ cleanup_effects c ++ sent) =
           invocations l ++ [first]
     | Ok _ =>
         exists s2,
           let l2 := l ++ [first] ++ cleanup_effects c ++ sent
                       ++ [session_call_tool s2 name arguments] in
           Client.session c2 = Some s2 /\
           Client.call_tool E name arguments c l = (env_call_tool E l2, c2, l2) /\
           invocations l2 =
             invocations l ++ [first; session_call_tool s2 name arguments]
     end).
Proof.
  intros Hc Hs Ht Hfail first. subst first.
  pose proof (call_tool_first_attempt E c l name arguments s Hc Hs Ht) as Hcall.
  rewrite Hfail in Hcall.
  split; intros Hcls; rewrite Hcls in Hcall; [exact Hcall|].
  unfold bind at 1 in Hcall. rewrite Client_cleanup_run in Hcall.
  unfold bind at 1 in Hcall.
  rewrite ensure_connected_disconnected in Hcall by reflexivity.
  destruct (start_locked_spec E (disconnected c)
              ((l ++ [session_call_tool s name arguments]) ++ cleanup_effects c))
    as (r & c2 & sent & Hrun & Hatt & Hinv & _ & Hr).
  rewrite Hrun in Hcall.
  exists r, c2, sent. rewrite !app_assoc. rewrite Hrun.
  repeat split; try assumption.
  destruct r as [[]|e].
  - destruct Hr as ((s2 & Hs2) & _). exists s2. cbv zeta. rewrite !app_assoc.
    repeat split; [assumption| |].
    + rewrite Hcall. unfold Client.session_call, bind at 1, get. rewrite Hs2.
      unfold bind, emit, history, of_res. reflexivity.
    + unfold invocations in *. rewrite !filter_app, Hinv.
      rewrite cleanup_effects_quiet by reflexivity. cbn.
      now rewrite !app_nil_r, <- app_assoc.
  - destruct Hr as (He & _). repeat split; [assumption|assumption|].
    unfold invocations in *. rewrite !filter_app, Hinv.
    rewrite cleanup_effects_quiet by reflexivity. cbn.
    now rewrite !app_nil_r.
Qed.

(** On the weather client, with a server whose first answer is a broken pipe:
    the second invocation, after the reconnection, returns the result. *)
Lemma call_tool_recovery_witness :
  Client.call_tool Scenario2.flaky "forecast" Scenario.boston
                   Scenario.started_client Scenario.started_log =
  (Ok Scenario.sunny, Scenario2.restarted_client,
   Scenario.started_log
     ++ [session_call_tool 1 "forecast" Scenario.boston;
         ClientSession_aexit 1; stdio_client_exit 0;
         stdio_client_enter "python" ["server.py"] [("PATH", "/usr/bin")];
         ClientSession_aenter 7; session_initialize 8; session_list_tools 8;
         session_call_tool 8 "forecast" Scenario.boston]).
Proof.
  destruct (call_tool_recovery Scenario2.flaky Scenario.started_client
              Scenario.started_log "forecast" Scenario.boston 1
              Scenario.broken_pipe eq_refl eq_refl eq_refl eq_refl)
    as [_ Hrec].
  destruct (Hrec eq_refl) as (r & c2 & sent & Hrun & _ & _ & Hout).
  vm_compute in Hrun. injection Hrun as <- <- <-.
  destruct Hout as (s2 & Hs2 & Hcall & _).
  injection Hs2 as <-. rewrite Hcall. vm_compute. reflexivity.
Defined.

(** C4, as stated, fails when the reconnection fails: the server dies, the
    invocation raises [BrokenPipeError], the transport cannot be reopened,
    and [call_tool] raises the [ConnectionError] of [start] after a single
    invocation. *)
Lemma retry_once_refuted :
  ~ retry_once_as_stated Scenario.dying Scenario.started_client
      Scenario.started_log "forecast" Scenario.boston.
Proof.
  intros H.
  destruct (H 1 Scenario.broken_pipe eq_refl eq_refl eq_refl eq_refl eq_refl)
    as (r & c' & l' & Hrun & Hlen & _).
  vm_compute in Hrun. injection Hrun as <- <- <-.
  vm_compute in Hlen. discriminate Hlen.
Qed.

Example call_tool_dying :
  Client.call_tool Scenario.dying "forecast" Scenario.boston
                   Scenario.started_client Scenario.started_log =
  (Raise (mkExc ConnectionError
            "Failed to initialize session with server weather: Failed to connect to server: No such file"),
   disconnected Scenario.started_client,
   Scenario.started_log
     ++ [session_call_tool 1 "forecast" Scenario.boston;
         ClientSession_aexit 1; stdio_client_exit 0;
         stdio_client_enter "python" ["server.py"] [("PATH", "/usr/bin")]]).
Proof. vm_compute. reflexivity. Qed.

(** ** What a tool call sends *)

Lemma session_call_run (E : Env) (name : string) (arguments : PyObj)
      (c : Client.t) (l : Log) :
  Client.session_call E name arguments c l =
  match Client.session c with
  | None => (Raise (mkExc AttributeError
                      "'NoneType' object has no attribute 'call_tool'"), c, l)
  | Some s => (env_call_tool E (l ++ [session_call_tool s name arguments]), c,
               l ++ [session_call_tool s name arguments])
  end.
Proof.
  unfold Client.session_call, bind at 1, get.
  destruct (Client.session c); reflexivity.
Qed.

Lemma call_tool_sent (E : Env) (name : string) (arguments : PyObj)
      (c : Client.t) (l : Log) :
  exists r c' sent,
    Client.call_tool E name arguments c l = (r, c', l ++ sent) /\
    invokes_only name arguments sent.
Proof.
  unfold Client.call_tool. unfold bind at 1.
  destruct (ensure_connected_spec E c l) as (r0 & c0 & sent0 & -> & _ & Hi0 & Hc0 & _).
  destruct r0 as [[]|e0].
  2:{ exists (Raise e0), c0, sent0. split; [reflexivity|].
      unfold invokes_only. rewrite Hi0. cbn. repeat split; auto; try lia; try tauto. }
  unfold bind at 1, get.
  destruct (negb (Client.has_tool c0 name)).
  { do 3 eexists. split; [reflexivity|].
    unfold invokes_only. rewrite Hi0. cbn. repeat split; auto; try lia; try tauto. }
  unfold try_except. rewrite session_call_run.
  destruct (Client.session c0) as [s|].
  2:{ cbn. do 3 eexists. split; [reflexivity|].
      unfold invokes_only. rewrite Hi0. cbn. repeat split; auto; try lia; try tauto. }
  destruct (env_call_tool E _) as [result|e].
  { do 3 eexists. rewrite <- app_assoc. split; [reflexivity|].
    unfold invokes_only, invocations in *. rewrite !filter_app, Hi0, Hc0. cbn.
    repeat split; auto. intros e [<-|[]]. eauto. }
  destruct (isinstance_ConnectionError e).
  2:{ do 3 eexists. rewrite <- app_assoc. split; [reflexivity|].
      unfold invokes_only, invocations in *. rewrite !filter_app, Hi0, Hc0. cbn.
      repeat split; auto. intros e' [<-|[]]. eauto. }
  unfold bind at 1. rewrite Client_cleanup_run. unfold bind at 1.
  destruct (ensure_connected_spec E (disconnected c0)
              (((l ++ sent0) ++ [session_call_tool s name arguments])
                 ++ cleanup_effects c0))
    as (r1 & c1 & sent1 & -> & _ & Hi1 & Hc1 & _).
  destruct r1 as [[]|e1].
  2:{ do 3 eexists. rewrite <- !app_assoc. split; [reflexivity|].
      unfold invokes_only, invocations in *.
      rewrite !filter_app, Hi0, Hc0, Hi1, Hc1.
      rewrite !cleanup_effects_quiet by reflexivity. cbn.
      repeat split; auto. intros e' [<-|[]]. eauto. }
  rewrite session_call_run.
  destruct (Client.session c1) as [s1|].
  - do 3 eexists. rewrite <- !app_assoc. split; [reflexivity|].
    unfold invokes_only, invocations in *.
    rewrite !filter_app, Hi0, Hc0, Hi1, Hc1.
    rewrite !cleanup_effects_quiet by reflexivity. cbn.
    repeat split; auto. intros e' [<-|[<-|[]]]; eauto.
  - do 3 eexists. rewrite <- !app_assoc. split; [reflexivity|].
    unfold invokes_only, invocations in *.
    rewrite !filter_app, Hi0, Hc0, Hi1, Hc1.
    rewrite !cleanup_effects_quiet by reflexivity. cbn.
    repeat split; auto. intros e' [<-|[]]. eauto.
Qed.

(** ** The registry *)

Lemma start_raises_ConnectionError
      (E : Env) (c : Client.t) (l : Log) (e : Exc) (c' : Client.t) (l' : Log) :
  Client.start E c l = (Raise e, c', l') -> exc_class e = ConnectionError.
Proof.
  unfold Client.start, bind, get.
  destruct (Client.is_connected c); [discriminate|].
  destruct (start_locked_spec E c l) as (r & c2 & sent & -> & _ & _ & _ & Hr).
  intros H. injection H as -> _ _. apply Hr.
Qed.

(** C6: [add_connection] under a name that is registered raises the
    [ValueError] "Connection to ... already exists" and leaves the registry
    and the log as they were; under a new name, when [start] of the new
    client fails, the [ConnectionError] of [start] propagates and the
    registry is as it was, without an entry for the name; when [start]
    succeeds the connection is stored under the name. *)
Theorem add_connection_atomic
        (E : Env) (cm : ConnectionManager.t) (l : Log)
        (server_name command : string) (args : list string)
        (env : option (list (string * string))) :
  let client := Client.__init__ server_name (Transport.__init__ E command args env) in
  (Dict.contains server_name (ConnectionManager.connections cm) = true ->
   ConnectionManager.add_connection E server_name command args env cm l =
     (Raise (ConnectionManager.already_exists server_name), cm, l)) /\
  (Dict.contains server_name (ConnectionManager.connections cm) = false ->
   forall e c' l',
     Client.start E client l = (Raise e, c', l') ->
     ConnectionManager.add_connection E server_name command args env cm l =
       (Raise e, cm, l') /\
     exc_class e = ConnectionError /\
     Dict.get server_name (ConnectionManager.connections cm) = None) /\
  (Dict.contains server_name (ConnectionManager.connections cm) = false ->
   forall c' l',
     Client.start E client l = (Ok tt, c', l') ->
     ConnectionManager.add_connection E server_name command args env cm l =
       (Ok tt,
        ConnectionManager.mk
          (ConnectionManager.connections cm
             ++ [(server_name,
                  McpConnection.mk (Server.mk server_name command args) c')]),
        l')).
Proof.
  intros client.
  split; [|split]; intros Hin;
    unfold ConnectionManager.add_connection; unfold bind at 1, get;
    rewrite Hin.
  - reflexivity.
  - intros e c' l' Hstart.
    unfold bind, ConnectionManager.on_new. fold client. rewrite Hstart.
    repeat split.
    + eapply start_raises_ConnectionError; eassumption.
    + unfold Dict.contains in Hin.
      destruct (Dict.get server_name (ConnectionManager.connections cm));
        [discriminate|reflexivity].
  - intros c' l' Hstart.
    unfold bind, ConnectionManager.on_new. fold client. rewrite Hstart.
    unfold modify. do 2 f_equal.
    destruct cm as [conns]. cbn in *. f_equal.
    unfold Dict.contains in Hin.
    induction conns as [|[k v] conns IH]; cbn in *; [reflexivity|].
    destruct (String.eqb k server_name); [discriminate|].
    now rewrite IH.
Qed.

(** Adding "weather" a second time, and adding "news" when its server cannot
    be started. *)
Lemma add_connection_atomic_witness :
  ConnectionManager.add_connection Scenario.healthy "weather" "python"
    ["other.py"] None Scenario.registry Scenario.started_log =
    (Raise (ConnectionManager.already_exists "weather"), Scenario.registry,
     Scenario.started_log) /\
  ConnectionManager.add_connection Scenario.dying "news" "python" ["news.py"]
    None Scenario.registry Scenario.started_log =
    (Raise (mkExc ConnectionError
              "Failed to initialize session with server news: Failed to connect to server: No such file"),
     Scenario.registry,
     Scenario.started_log
       ++ [stdio_client_enter "python" ["news.py"] [("PATH", "/usr/bin")]]).
Proof.
  split.
  - apply (proj1 (add_connection_atomic Scenario.healthy Scenario.registry
                    Scenario.started_log "weather" "python" ["other.py"] None)).
    reflexivity.
  - apply (proj1 (proj2 (add_connection_atomic Scenario.dying Scenario.registry
                           Scenario.started_log "news" "python" ["news.py"] None))
             eq_refl _
             (disconnected
                (Client.__init__ "news"
                   (Transport.__init__ Scenario.dying "python" ["news.py"] None)))).
    vm_compute. reflexivity.
Defined.

(** ** The event loop *)

(** The inner loop takes the text deltas of the continuation and nothing
    else. *)
Lemma continuation_run (evs : list StreamEvent) (f : LLMManager.Frame) (l : Log) :
  for_each LLMManager.next_event_body evs f l =
  (Ok tt,
   LLMManager.set_current_text (LLMManager.current_text f ++ text_of evs) f, l).
Proof.
  revert f. induction evs as [|ev evs IH]; intros f; cbn [for_each text_of].
  - unfold ret. destruct f as [cm ms rs ft ct]. cbn.
    now rewrite append_nil_r.
  - unfold bind.
    destruct ev as [| |[text|k]| | | |]; cbn [LLMManager.next_event_body];
      unfold ret, modify; rewrite IH; try reflexivity.
    destruct f as [cm ms rs ft ct]. cbn.
    now rewrite append_assoc.
Qed.

Lemma flush_run (f : LLMManager.Frame) (l : Log) :
  LLMManager.flush f l = (Ok tt, flushed f, l).
Proof.
  unfold LLMManager.flush, flushed, bind, get.
  destruct (LLMManager.nonempty (LLMManager.current_text f)); reflexivity.
Qed.

(** [invoke] touches the connection manager only. *)
Lemma invoke_frame (E : Env) (server_name tool_name : string) (parameters : PyObj)
      (f : LLMManager.Frame) (l : Log) r f1 l1 :
  LLMManager.invoke E server_name tool_name parameters f l = (r, f1, l1) ->
  f1 = LLMManager.set_connection_manager (LLMManager.connection_manager f1) f.
Proof.
  unfold LLMManager.invoke, zoom.
  destruct (ConnectionManager.on_client _ _ _ _) as [[r0 cm'] l0].
  intros H. injection H as _ <- _. reflexivity.
Qed.

(** The [tool_use] branch, once the name has been split, on the outcome of
    the invocation and on the answer of the model. *)
Lemma dispatch_run (E : Env) (server_name tool_name : string) (parameters : PyObj)
      (f : LLMManager.Frame) (l : Log) :
  LLMManager.dispatch E server_name tool_name parameters f l =
  match LLMManager.invoke E server_name tool_name parameters f l with
  | (Raise e, f1, l1) => (Ok tt, annotated f1 server_name tool_name e, l1)
  | (Ok result, f1, l1) =>
      let fa := frame_after f1 server_name tool_name parameters result in
      let response := env_messages_create E l1 (LLMManager.messages fa) None in
      let l2 := l1 ++ [messages_create (LLMManager.messages fa) None response] in
      match response with
      | Raise e => (Ok tt, annotated fa server_name tool_name e, l2)
      | Ok stream =>
          let fb := LLMManager.set_current_text
                      (LLMManager.current_text fa ++ text_of (events stream)) fa in
          match stream_error stream with
          | Some e => (Ok tt, annotated fb server_name tool_name e, l2)
          | None => (Ok tt, flushed fb, l2)
          end
      end
  end.
Proof.
  unfold LLMManager.dispatch, try_except. unfold bind at 1.
  destruct (LLMManager.invoke E server_name tool_name parameters f l)
    as [[[result|e] f1] l1]; [|reflexivity].
  unfold LLMManager.after_result, LLMManager.tool_results_append,
    LLMManager.final_text_append, LLMManager.messages_append, LLMManager.create.
  cbv zeta.
  destruct f1 as [cm ms rs ft ct].
  unfold frame_after, turns_after, annotated.
  destruct ct as [|a ct]; cbn -[for_each LLMManager.flush text_of String.append];
    unfold bind, modify, get, history, emit, of_res, ret;
    cbn -[for_each LLMManager.flush text_of String.append];
    rewrite <- ?app_assoc; cbn -[for_each LLMManager.flush text_of String.append];
    match goal with
    | |- context [env_messages_create E ?l ?m None] =>
        destruct (env_messages_create E l m None) as [[evs [err|]]|e]
    end;
    cbn -[for_each LLMManager.flush text_of String.append];
    rewrite ?continuation_run; cbn -[LLMManager.flush text_of String.append];
    rewrite ?flush_run; reflexivity.
Qed.

Lemma invoke_sent (E : Env) (server_name tool_name : string) (parameters : PyObj)
      (f : LLMManager.Frame) (l : Log) :
  exists r f1 sent,
    LLMManager.invoke E server_name tool_name parameters f l = (r, f1, l ++ sent) /\
    invokes_only tool_name parameters sent.
Proof.
  unfold LLMManager.invoke, zoom, ConnectionManager.on_client.
  destruct (Dict.get server_name _) as [conn|].
  - destruct (call_tool_sent E tool_name parameters (McpConnection.client conn) l)
      as (r & c' & sent & -> & Hsent).
    do 3 eexists. split; [reflexivity|exact Hsent].
  - exists (Raise (ConnectionManager.does_not_exist server_name)), f, [].
    rewrite app_nil_r. split.
    + destruct f as [[conns] ms rs ft ct]. reflexivity.
    + unfold invokes_only. cbn. repeat split; auto; try lia; tauto.
Qed.

Lemma streams_opened_app (l1 l2 : Log) :
  streams_opened (l1 ++ l2) = streams_opened l1 + streams_opened l2.
Proof. unfold streams_opened. now rewrite filter_app, length_app. Qed.

Lemma invokes_only_streams (name : string) (arguments : PyObj) (sent : Log) :
  invokes_only name arguments sent -> streams_opened sent = 0.
Proof. intros (H & _). unfold streams_opened. now rewrite H. Qed.

(** The [tool_use] branch never raises; it opens one stream when the
    invocation has succeeded and none when it has failed. *)
Lemma dispatch_sent (E : Env) (server_name tool_name : string) (parameters : PyObj)
      (f : LLMManager.Frame) (l : Log) :
  exists f' sent,
    LLMManager.dispatch E server_name tool_name parameters f l = (Ok tt, f', l ++ sent) /\
    streams_opened sent
      = match LLMManager.invoke E server_name tool_name parameters f l with
        | (Ok _, _, _) => 1
        | (Raise _, _, _) => 0
        end /\
    forall e, In e (invocations sent) -> exists s, e = session_call_tool s tool_name parameters.
Proof.
  rewrite dispatch_run.
  destruct (invoke_sent E server_name tool_name parameters f l)
    as (r & f1 & sent & -> & Hsent).
  pose proof (invokes_only_streams _ _ _ Hsent) as H0.
  destruct Hsent as (_ & _ & Hinv).
  destruct r as [result|e].
  - cbv zeta.
    destruct (env_messages_create E _ _ None) as [[evs [err|]]|e];
      cbn [stream_error events]; do 2 eexists; rewrite <- app_assoc;
      (split; [reflexivity|]); rewrite streams_opened_app, H0;
      (split; [reflexivity|]); unfold invocations in *;
      rewrite filter_app; cbn; rewrite app_nil_r; exact Hinv.
  - do 2 eexists. split; [reflexivity|]. split; assumption.
Qed.

(** One event of the first stream opens at most one stream, and only when it
    is a [tool_use] event. *)
Lemma event_body_sent (E : Env) (ev : StreamEvent) (f : LLMManager.Frame) (l : Log) :
  exists r f' sent,
    LLMManager.event_body E ev f l = (r, f', l ++ sent) /\
    streams_opened sent <= (if is_tool_use ev then 1 else 0).
Proof.
  destruct ev as [| |[text|k]| | |tcs|k]; cbn [LLMManager.event_body is_tool_use];
    try (do 3 eexists; rewrite app_nil_r; split; [reflexivity|cbn; lia]);
    try (rewrite flush_run; do 3 eexists; rewrite app_nil_r; split;
         [reflexivity|cbn; lia]).
  destruct tcs as [|tc rest].
  - do 3 eexists. rewrite app_nil_r. split; [reflexivity|cbn; lia].
  - unfold bind, of_res.
    destruct (unpack2 _) as [[server_name tool_name]|e].
    + destruct (dispatch_sent E server_name tool_name (tc_parameters tc) f l)
        as (f' & sent & Hrun & Hstreams & _).
      cbn [fst snd]. rewrite Hrun. do 3 eexists. split; [reflexivity|].
      rewrite Hstreams.
      destruct (LLMManager.invoke _ _ _ _ _ _) as [[[]]]; lia.
    + do 3 eexists. rewrite app_nil_r. split; [reflexivity|cbn; lia].
Qed.

Lemma loop_sent (E : Env) (evs : list StreamEvent) (f : LLMManager.Frame) (l : Log) :
  exists r f' sent,
    for_each (LLMManager.event_body E) evs f l = (r, f', l ++ sent) /\
    streams_opened sent <= count_tool_use evs.
Proof.
  revert f l. induction evs as [|ev evs IH]; intros f l; cbn [for_each].
  - exists (Ok tt), f, []. rewrite app_nil_r. split; [reflexivity|cbn; lia].
  - unfold bind.
    destruct (event_body_sent E ev f l) as (r & f1 & sent1 & -> & H1).
    assert (Hcount : count_tool_use (ev :: evs)
                     = (if is_tool_use ev then 1 else 0) + count_tool_use evs).
    { unfold count_tool_use. cbn. destruct (is_tool_use ev); reflexivity. }
    destruct r as [[]|e].
    + destruct (IH f1 (l ++ sent1)) as (r2 & f2 & sent2 & -> & H2).
      exists r2, f2, (sent1 ++ sent2). rewrite app_assoc. split; [reflexivity|].
      rewrite streams_opened_app. lia.
    + exists (Raise e), f1, sent1. split; [reflexivity|]. lia.
Qed.

(** ** [app.py] runs the same loop *)

Lemma same_but_results_fields (f g : LLMManager.Frame) :
  same_but_results f g ->
  LLMManager.connection_manager f = LLMManager.connection_manager g /\
  LLMManager.messages f = LLMManager.messages g /\
  LLMManager.final_text f = LLMManager.final_text g /\
  LLMManager.current_text f = LLMManager.current_text g.
Proof.
  destruct f, g. unfold same_but_results. cbn. intros H.
  injection H as -> -> -> ->. repeat split.
Qed.

Lemma same_but_results_intro (f g : LLMManager.Frame) :
  LLMManager.connection_manager f = LLMManager.connection_manager g ->
  LLMManager.messages f = LLMManager.messages g ->
  LLMManager.final_text f = LLMManager.final_text g ->
  LLMManager.current_text f = LLMManager.current_text g ->
  same_but_results f g.
Proof.
  destruct f, g. unfold same_but_results. cbn. now intros -> -> -> ->.
Qed.

Lemma App_dispatch_run (E : Env) (server_name tool_name : string) (parameters : PyObj)
      (f : LLMManager.Frame) (l : Log) :
  App.dispatch E server_name tool_name parameters f l =
  match LLMManager.invoke E server_name tool_name parameters f l with
  | (Raise e, f1, l1) => (Ok tt, annotated f1 server_name tool_name e, l1)
  | (Ok result, f1, l1) =>
      let fa := LLMManager.set_tool_results (LLMManager.tool_results f1)
                  (frame_after f1 server_name tool_name parameters result) in
      let response := env_messages_create E l1 (LLMManager.messages fa) None in
      let l2 := l1 ++ [messages_create (LLMManager.messages fa) None response] in
      match response with
      | Raise e => (Ok tt, annotated fa server_name tool_name e, l2)
      | Ok stream =>
          let fb := LLMManager.set_current_text
                      (LLMManager.current_text fa ++ text_of (events stream)) fa in
          match stream_error stream with
          | Some e => (Ok tt, annotated fb server_name tool_name e, l2)
          | None => (Ok tt, flushed fb, l2)
          end
      end
  end.
Proof.
  unfold App.dispatch, try_except. unfold bind at 1.
  destruct (LLMManager.invoke E server_name tool_name parameters f l)
    as [[[result|e] f1] l1]; [|reflexivity].
  unfold App.after_result, LLMManager.final_text_append,
    LLMManager.messages_append, LLMManager.create.
  cbv zeta.
  destruct f1 as [cm ms rs ft ct].
  unfold frame_after, turns_after, annotated.
  destruct ct as [|a ct]; cbn -[for_each LLMManager.flush text_of String.append];
    unfold bind, modify, get, history, emit, of_res, ret;
    cbn -[for_each LLMManager.flush text_of String.append];
    rewrite <- ?app_assoc; cbn -[for_each LLMManager.flush text_of String.append];
    match goal with
    | |- context [env_messages_create E ?l ?m None] =>
        destruct (env_messages_create E l m None) as [[evs [err|]]|e]
    end;
    cbn -[for_each LLMManager.flush text_of String.append];
    rewrite ?continuation_run; cbn -[LLMManager.flush text_of String.append];
    rewrite ?flush_run; reflexivity.
Qed.

Lemma invoke_same (E : Env) (server_name tool_name : string) (parameters : PyObj)
      (f g : LLMManager.Frame) (l : Log) :
  same_but_results f g ->
  exists r cm' l',
    LLMManager.invoke E server_name tool_name parameters f l
      = (r, LLMManager.set_connection_manager cm' f, l') /\
    LLMManager.invoke E server_name tool_name parameters g l
      = (r, LLMManager.set_connection_manager cm' g, l').
Proof.
  intros H. apply same_but_results_fields in H as (Hcm & _).
  unfold LLMManager.invoke, zoom. rewrite <- Hcm.
  destruct (ConnectionManager.on_client _ _ _ _) as [[r cm'] l'].
  exists r, cm', l'. split; reflexivity.
Qed.

(** One event leaves the two loops with the same outcome, the same log and
    frames that differ at most in the tool results. *)
Lemma App_event_body_agrees (E : Env) (ev : StreamEvent) (f g : LLMManager.Frame)
      (l : Log) :
  same_but_results f g ->
  exists r f' g' l',
    LLMManager.event_body E ev f l = (r, f', l') /\
    App.event_body E ev g l = (r, g', l') /\
    same_but_results f' g'.
Proof.
  intros H. pose proof (same_but_results_fields _ _ H) as (Hcm & Hms & Hft & Hct).
  destruct ev as [| |[text|k]| | |tcs|k];
    cbn [LLMManager.event_body App.event_body];
    rewrite ?flush_run; unfold ret, modify;
    try (do 4 eexists; split; [reflexivity|]; split; [reflexivity|];
         unfold flushed; rewrite ?Hct;
         try destruct (LLMManager.nonempty (LLMManager.current_text g));
         apply same_but_results_intro; cbn; congruence).
  destruct tcs as [|tc rest].
  { do 4 eexists. split; [reflexivity|]. split; [reflexivity|exact H]. }
  unfold bind, of_res.
  destruct (unpack2 _) as [[server_name tool_name]|e].
  2:{ do 4 eexists. split; [reflexivity|]. split; [reflexivity|exact H]. }
  cbn [fst snd]. rewrite dispatch_run, App_dispatch_run.
  destruct (invoke_same E server_name tool_name (tc_parameters tc) f g l H)
    as (r & cm' & l' & -> & ->).
  destruct f as [cmf msf rsf ftf ctf], g as [cmg msg rsg ftg ctg].
  cbn in Hcm, Hms, Hft, Hct. subst cmg msg ftg ctg.
  destruct r as [result|e].
  - cbv zeta. unfold frame_after, turns_after.
    cbn -[text_of String.append].
    destruct (env_messages_create E l' _ None) as [[evs [err|]]|e];
      cbn -[text_of String.append];
      do 4 eexists; (split; [reflexivity|]); (split; [reflexivity|]);
      unfold flushed, annotated; cbn -[text_of String.append];
      try destruct (LLMManager.nonempty _);
      apply same_but_results_intro; reflexivity.
  - do 4 eexists. split; [reflexivity|]. split; [reflexivity|].
    apply same_but_results_intro; reflexivity.
Qed.

Lemma App_loop_agrees (E : Env) (evs : list StreamEvent) (f g : LLMManager.Frame)
      (l : Log) :
  same_but_results f g ->
  exists r f' g' l',
    for_each (LLMManager.event_body E) evs f l = (r, f', l') /\
    for_each (App.event_body E) evs g l = (r, g', l') /\
    same_but_results f' g'.
Proof.
  revert f g l. induction evs as [|ev evs IH]; intros f g l H; cbn [for_each].
  - exists (Ok tt), f, g, l. repeat split; assumption.
  - unfold bind.
    destruct (App_event_body_agrees E ev f g l H) as (r & f1 & g1 & l1 & -> & -> & H1).
    destruct r as [[]|e].
    + apply IH, H1.
    + exists (Raise e), f1, g1, l1. repeat split; assumption.
Qed.

(** [process_stream] of [app.py] and [process_query] of [mcp-host.py] return
    the same text, leave the same registry and make the same calls. *)
Lemma App_process_stream_agrees (E : Env) (query : string) (cm : ConnectionManager.t)
      (l : Log) :
  App.process_stream E query cm l = LLMManager.process_query E query cm l.
Proof.
  unfold App.process_stream, LLMManager.process_query, App.stream_body,
    LLMManager.query_body.
  cbv beta iota zeta delta [bind modify get].
  cbn [LLMManager.connection_manager LLMManager.set_messages LLMManager.messages
       LLMManager.tool_results LLMManager.final_text LLMManager.current_text].
  match goal with
  | |- context [LLMManager.create E ?t ?f0 ?l0] =>
      destruct (LLMManager.create E t f0 l0) as [[[stream|e] f1] l1]
  end; [|reflexivity].
  destruct (App_loop_agrees E (events stream) f1 f1 l1 eq_refl)
    as (r & f' & g' & l' & -> & -> & H').
  apply same_but_results_fields in H' as (Hcm & _ & Hft & _).
  destruct r as [[]|e]; [|now rewrite Hcm].
  unfold of_failure.
  destruct (stream_error stream) as [e|]; unfold raise, ret, App.full_response;
    now rewrite Hcm, ?Hft.
Qed.

(** ** The query as a whole *)

Example Scenario_query :
  LLMManager.process_query Scenario.healthy "Boston?" Scenario.registry
                           Scenario.started_log =
  (Ok (nl ++ "[Called weather.forecast with args {'city': 'Boston'}]" ++ nl
          ++ nl ++ "AB")%string,
   Scenario.registry,
   Scenario.started_log
     ++ [messages_create [mkMessage user "Boston?"]
           (Some [mkToolDict "weather_forecast" "[weather] Get the forecast" (mkPyObj "{}");
                  mkToolDict "weather_alerts" "[weather] Get the alerts" (mkPyObj "{}")])
           (Ok Scenario.first_stream);
         session_call_tool 1 "forecast" Scenario.boston;
         messages_create [mkMessage user "Boston?"; mkMessage assistant "A";
                          mkMessage user "sunny"]
           None (Ok Scenario.continuation)]).
Proof. vm_compute. reflexivity. Qed.

(** C1, as stated, fails: the continuation delivered after the forecast call
    carries a [tool_use] event for the alerts, which is neither invoked nor
    followed by a further stream; two streams are opened for two [tool_use]
    events. *)
Lemma reopens_refuted :
  ~ reopens_as_stated Scenario.healthy "Boston?" Scenario.registry
      Scenario.started_log.
Proof.
  intros H. specialize (H _ _ _ Scenario_query).
  vm_compute in H. discriminate H.
Qed.

(** Nor is a stream opened after a call that has failed. *)
Example Scenario_query_fails :
  let '(r, _, l') :=
    LLMManager.process_query Scenario.failing "Boston?" Scenario.registry
                             Scenario.started_log in
  r = Ok (nl ++ "Error calling weather.forecast: city not found" ++ nl ++ "A")%string /\
  streams_opened (skipn (length Scenario.started_log) l') = 1 /\
  tool_use_delivered (skipn (length Scenario.started_log) l') = 1.
Proof. vm_compute. repeat split. Qed.

(** C1, as the code has it: the inner loop takes the text deltas of the
    continuation and ignores every other event, [tool_use] included, without
    sending anything; a [tool_use] event of the first stream is followed by
    exactly one request for a continuation, without a tool list and for the
    extended turn sequence, when its invocation has succeeded, and by none
    when it has failed; a query opens its first stream with the tool list and
    then at most one stream per [tool_use] event of that first stream, and
    returns when the first stream is exhausted; [process_stream] of [app.py]
    does the same. *)
Theorem continuation_only_after_success :
  (forall evs f l,
      for_each LLMManager.next_event_body evs f l =
      (Ok tt,
       LLMManager.set_current_text (LLMManager.current_text f ++ text_of evs) f, l)) /\
  (forall E server_name tool_name parameters f l,
      exists f',
        match LLMManager.invoke E server_name tool_name parameters f l with
        | (Ok result, f1, l1) =>
            let turns := LLMManager.messages f ++ turns_after f result in
            LLMManager.dispatch E server_name tool_name parameters f l =
              (Ok tt, f',
               l1 ++ [messages_create turns None (env_messages_create E l1 turns None)]) /\
            streams_opened l1 = streams_opened l
        | (Raise _, _, l1) =>
            LLMManager.dispatch E server_name tool_name parameters f l = (Ok tt, f', l1) /\
            streams_opened l1 = streams_opened l
        end) /\
  (forall E query cm l,
      exists r cm' first sent,
        LLMManager.process_query E query cm l =
          (r, cm',
           l ++ [messages_create
                   [mkMessage user query]
                   (Some (LLMManager._format_tools_for_llm
                            (ConnectionManager.get_all_tools cm)))
                   first] ++ sent) /\
        App.process_stream E query cm l = LLMManager.process_query E query cm l /\
        match first with
        | Ok stream => streams_opened sent <= count_tool_use (events stream)
        | Raise e => sent = [] /\ r = Raise e
        end).
Proof.
  split; [exact continuation_run|]. split.
  - intros E server_name tool_name parameters f l.
    rewrite dispatch_run.
    destruct (invoke_sent E server_name tool_name parameters f l)
      as (r & f1 & sent & Hinv & Hsent).
    pose proof (invokes_only_streams _ _ _ Hsent) as H0.
    pose proof (invoke_frame _ _ _ _ _ _ _ _ _ Hinv) as Hf.
    rewrite Hinv. destruct r as [result|e].
    + cbv zeta. rewrite streams_opened_app, H0, Nat.add_0_r.
      assert (Hturns : LLMManager.messages
                         (frame_after f1 server_name tool_name parameters result)
                       = LLMManager.messages f ++ turns_after f result).
      { rewrite Hf. reflexivity. }
      rewrite Hturns.
      destruct (env_messages_create E _ _ None) as [[evs [err|]]|e];
        cbn [stream_error events]; eexists; split; reflexivity.
    + eexists. split; [reflexivity|].
      now rewrite streams_opened_app, H0, Nat.add_0_r.
  - intros E query cm l. rewrite App_process_stream_agrees.
    unfold LLMManager.process_query, LLMManager.query_body.
    unfold bind at 1, modify. unfold bind at 1, get.
    cbn [LLMManager.connection_manager LLMManager.set_messages].
    unfold bind at 1, LLMManager.create at 1.
    unfold bind at 1, get. unfold bind at 1, history. cbv zeta.
    unfold bind at 1, emit, of_res.
    cbn [LLMManager.messages].
    match goal with
    | |- context [env_messages_create E l ?m ?t] =>
        destruct (env_messages_create E l m t) as [stream|e]
    end.
    + unfold bind at 1.
      match goal with
      | |- context [for_each (LLMManager.event_body E) ?evs ?f0 ?l0] =>
          destruct (loop_sent E evs f0 l0) as (r & f' & sent & Hloop & Hle)
      end.
      rewrite Hloop.
      destruct r as [[]|e].
      * unfold bind at 1.
        destruct (stream_error stream) as [e|]; cbn [of_failure];
          unfold raise, ret, bind, get; do 4 eexists;
          rewrite <- app_assoc; (split; [reflexivity|split; [reflexivity|exact Hle]]).
      * do 4 eexists. rewrite <- app_assoc.
        split; [reflexivity|split; [reflexivity|exact Hle]].
    + do 4 eexists. split; [rewrite app_nil_r; reflexivity|].
      split; [reflexivity|]. split; reflexivity.
Qed.

(** ** Buffered text and tool calls *)

Example Scenario_invoke :
  LLMManager.invoke Scenario.healthy "weather" "forecast" Scenario.boston
                    Scenario3.frame_A Scenario.started_log =
  (Ok Scenario.sunny, Scenario3.frame_A,
   Scenario.started_log ++ [session_call_tool 1 "forecast" Scenario.boston]).
Proof. vm_compute. reflexivity. Qed.

Example Scenario_invoke_fails :
  LLMManager.invoke Scenario.failing "weather" "forecast" Scenario.boston
                    Scenario3.frame_A Scenario.started_log =
  (Raise Scenario.tool_failed, Scenario3.frame_A,
   Scenario.started_log ++ [session_call_tool 1 "forecast" Scenario.boston]).
Proof. vm_compute. reflexivity. Qed.

(** With "A" buffered, a successful forecast call appends the turn "A", and
    the segment put out after the continuation "B" is "AB": the buffer was
    not emptied when the turn was appended. *)
Example Scenario_tool_use_success :
  let '(r, f', l') :=
    LLMManager.event_body Scenario.healthy (tool_use [Scenario3.forecast_call])
                          Scenario3.frame_A Scenario.started_log in
  r = Ok tt /\
  l' = Scenario.started_log
         ++ [session_call_tool 1 "forecast" Scenario.boston;
             messages_create [mkMessage user "Boston?"; mkMessage assistant "A";
                              mkMessage user "sunny"]
               None (Ok Scenario.continuation)] /\
  LLMManager.messages f' =
    [mkMessage user "Boston?"; mkMessage assistant "A"; mkMessage user "sunny"] /\
  LLMManager.final_text f' =
    [LLMManager.called_text "weather" "forecast" Scenario.boston; "AB"] /\
  LLMManager.current_text f' = "".
Proof. vm_compute. repeat split. Qed.

(** When the request for the continuation fails, the text stays in the
    buffer although it has been appended as a turn, and the next successful
    call appends it as a turn once more. *)
Example Scenario_turn_twice :
  let '(r, f', _) :=
    for_each (LLMManager.event_body Scenario4.overloaded_once)
             (events Scenario4.first_stream)
             (LLMManager.mkFrame Scenario.registry [mkMessage user "Boston?"] [] [] "")
             (Scenario.started_log
                ++ [messages_create [mkMessage user "Boston?"] (Some [])
                      (Ok Scenario4.first_stream)]) in
  r = Ok tt /\
  LLMManager.messages f' =
    [mkMessage user "Boston?";
     mkMessage assistant "A"; mkMessage user "sunny";
     mkMessage assistant "A"; mkMessage user "sunny"] /\
  LLMManager.final_text f' =
    [LLMManager.called_text "weather" "forecast" Scenario.boston;
     LLMManager.error_msg "weather" "forecast" Scenario4.overloaded;
     LLMManager.called_text "weather" "forecast" Scenario.boston;
     "AB"].
Proof. vm_compute. repeat split. Qed.

(** C2, as stated, fails: with "A" buffered, a forecast call that the server
    answers with an error leaves the turn sequence without the assistant turn
    "A", and "A" stays in the buffer. *)
Lemma flush_refuted :
  ~ flush_as_stated Scenario.failing [Scenario3.forecast_call] Scenario3.frame_A
      Scenario.started_log.
Proof.
  intros H.
  destruct (H eq_refl
              (Ok tt)
              (annotated Scenario3.frame_A "weather" "forecast" Scenario.tool_failed)
              (Scenario.started_log ++ [session_call_tool 1 "forecast" Scenario.boston]))
    as [_ Hbuf].
  - vm_compute. reflexivity.
  - vm_compute in Hbuf. discriminate Hbuf.
Qed.

(** C2, as the code has it: when the invocation has succeeded, the buffered
    text, if any, is appended as an assistant turn right before the user turn
    that carries the result; the text stays in the buffer, the text of the
    continuation is added to it, and the whole is put out as one segment
    after the annotation, which empties the buffer.  When the invocation has
    failed, no turn is appended and the buffer is left as it was. *)
Theorem assistant_turn_on_success
        (E : Env) (server_name tool_name : string) (parameters : PyObj)
        (f : LLMManager.Frame) (l : Log) :
  (forall result f1 l1 stream,
      LLMManager.invoke E server_name tool_name parameters f l = (Ok result, f1, l1) ->
      env_messages_create E l1 (LLMManager.messages f ++ turns_after f result) None
        = Ok stream ->
      stream_error stream = None ->
      exists f' l',
        LLMManager.dispatch E server_name tool_name parameters f l = (Ok tt, f', l') /\
        LLMManager.messages f' =
          LLMManager.messages f
            ++ (if LLMManager.nonempty (LLMManager.current_text f)
                then [mkMessage assistant (LLMManager.current_text f)] else [])
            ++ [mkMessage user (py_str (content result))] /\
        LLMManager.final_text f' =
          LLMManager.final_text f
            ++ [LLMManager.called_text server_name tool_name parameters]
            ++ (let segment := (LLMManager.current_text f ++ text_of (events stream))%string in
                if LLMManager.nonempty segment then [segment] else []) /\
        LLMManager.current_text f' = "") /\
  (forall e f1 l1,
      LLMManager.invoke E server_name tool_name parameters f l = (Raise e, f1, l1) ->
      exists f',
        LLMManager.dispatch E server_name tool_name parameters f l = (Ok tt, f', l1) /\
        LLMManager.messages f' = LLMManager.messages f /\
        LLMManager.current_text f' = LLMManager.current_text f).
Proof.
  split.
  - intros result f1 l1 stream Hinv Hresp Herr.
    pose proof (invoke_frame _ _ _ _ _ _ _ _ _ Hinv) as Hf.
    rewrite dispatch_run, Hinv. cbv zeta.
    assert (Hturns : LLMManager.messages
                       (frame_after f1 server_name tool_name parameters result)
                     = LLMManager.messages f ++ turns_after f result).
    { rewrite Hf. reflexivity. }
    rewrite Hturns, Hresp, Herr. do 2 eexists. split; [reflexivity|].
    rewrite Hf. unfold flushed, frame_after, turns_after.
    cbn -[text_of String.append].
    destruct (LLMManager.current_text f ++ text_of (events stream))%string;
      cbn; rewrite <- ?app_assoc; repeat split; reflexivity.
  - intros e f1 l1 Hinv.
    pose proof (invoke_frame _ _ _ _ _ _ _ _ _ Hinv) as Hf.
    rewrite dispatch_run, Hinv. eexists. split; [reflexivity|].
    rewrite Hf. split; reflexivity.
Qed.

(** With "A" buffered and the continuation "B". *)
Lemma assistant_turn_on_success_witness :
  exists f' l',
    LLMManager.dispatch Scenario.healthy "weather" "forecast" Scenario.boston
                        Scenario3.frame_A Scenario.started_log = (Ok tt, f', l') /\
    LLMManager.messages f' =
      [mkMessage user "Boston?"] ++ [mkMessage assistant "A"] ++ [mkMessage user "sunny"] /\
    LLMManager.final_text f' =
      [] ++ [LLMManager.called_text "weather" "forecast" Scenario.boston] ++ ["AB"] /\
    LLMManager.current_text f' = "".
Proof.
  exact (proj1 (assistant_turn_on_success Scenario.healthy "weather" "forecast"
                  Scenario.boston Scenario3.frame_A Scenario.started_log)
           Scenario.sunny Scenario3.frame_A
           (Scenario.started_log ++ [session_call_tool 1 "forecast" Scenario.boston])
           Scenario.continuation eq_refl eq_refl eq_refl).
Defined.

(** C8: when the invocation of the first tool call of a [tool_use] event
    raises, be it that the server is not registered or that [call_tool]
    fails, the event is handled without raising: the segment
    "\nError calling <server>.<tool>: <message>" is appended to the output,
    the turn sequence and the buffer are as before, no request is sent to the
    model, and the loop goes on with the next event; the loop of [app.py]
    handles the event in the same way. *)
Theorem tool_failure_is_annotated
        (E : Env) (tool_call : ToolCall) (rest : list ToolCall)
        (server_name tool_name : string) (f : LLMManager.Frame) (l : Log)
        (e : Exc) (f1 : LLMManager.Frame) (l1 : Log) :
  unpack2 (split_1 (tc_name tool_call) underscore) = Ok (server_name, tool_name) ->
  LLMManager.invoke E server_name tool_name (tc_parameters tool_call) f l
    = (Raise e, f1, l1) ->
  let f' := annotated f1 server_name tool_name e in
  LLMManager.event_body E (tool_use (tool_call :: rest)) f l = (Ok tt, f', l1) /\
  App.event_body E (tool_use (tool_call :: rest)) f l = (Ok tt, f', l1) /\
  LLMManager.final_text f' =
    LLMManager.final_text f
      ++ [(nl ++ "Error calling " ++ server_name ++ "." ++ tool_name ++ ": "
              ++ exc_str e)%string] /\
  LLMManager.messages f' = LLMManager.messages f /\
  LLMManager.current_text f' = LLMManager.current_text f /\
  streams_opened l1 = streams_opened l /\
  (forall evs,
      for_each (LLMManager.event_body E) (tool_use (tool_call :: rest) :: evs) f l =
      for_each (LLMManager.event_body E) evs f' l1).
Proof.
  intros Hsplit Hinv f'.
  pose proof (invoke_frame _ _ _ _ _ _ _ _ _ Hinv) as Hf.
  assert (Hev : LLMManager.event_body E (tool_use (tool_call :: rest)) f l
                = (Ok tt, f', l1)).
  { cbn [LLMManager.event_body]. unfold bind, of_res. rewrite Hsplit. cbn [fst snd].
    now rewrite dispatch_run, Hinv. }
  split; [exact Hev|].
  split.
  { cbn [App.event_body]. unfold bind, of_res. rewrite Hsplit. cbn [fst snd].
    now rewrite App_dispatch_run, Hinv. }
  split; [subst f'; rewrite Hf; reflexivity|].
  split; [subst f'; rewrite Hf; reflexivity|].
  split; [subst f'; rewrite Hf; reflexivity|].
  split.
  - destruct (invoke_sent E server_name tool_name (tc_parameters tool_call) f l)
      as (r & f2 & sent & Hrun & Hsent).
    rewrite Hinv in Hrun. injection Hrun as _ _ ->.
    rewrite streams_opened_app, (invokes_only_streams _ _ _ Hsent). lia.
  - intros evs. cbn [for_each]. unfold bind at 1. now rewrite Hev.
Qed.

(** With a server that answers the forecast call with an error. *)
Lemma tool_failure_is_annotated_witness :
  let f' := annotated Scenario3.frame_A "weather" "forecast" Scenario.tool_failed in
  LLMManager.event_body Scenario.failing
    (tool_use [Scenario3.forecast_call; mkToolCall "weather_alerts" Scenario.boston])
    Scenario3.frame_A Scenario.started_log =
    (Ok tt, f',
     Scenario.started_log ++ [session_call_tool 1 "forecast" Scenario.boston]) /\
  LLMManager.final_text f' =
    [] ++ [(nl ++ "Error calling " ++ "weather" ++ "." ++ "forecast" ++ ": "
               ++ "city not found")%string].
Proof.
  intros f'.
  destruct (tool_failure_is_annotated Scenario.failing Scenario3.forecast_call
              [mkToolCall "weather_alerts" Scenario.boston] "weather" "forecast"
              Scenario3.frame_A Scenario.started_log Scenario.tool_failed
              Scenario3.frame_A
              (Scenario.started_log ++ [session_call_tool 1 "forecast" Scenario.boston])
              eq_refl eq_refl)
    as (H1 & _ & H2 & _).
  split; [exact H1|exact H2].
Defined.

(** A name without underscore cannot be unpacked; the [ValueError] is raised
    outside the [try] and ends the query. *)
Example tool_use_without_underscore :
  LLMManager.event_body Scenario.healthy
    (tool_use [mkToolCall "forecast" Scenario.boston])
    Scenario3.frame_A Scenario.started_log =
  (Raise (mkExc ValueError "not enough values to unpack (expected 2, got 1)"),
   Scenario3.frame_A, Scenario.started_log).
Proof. reflexivity. Qed.

(** What [call_tool] sends on a connected session that lists the tool: the
    invocation goes out first, and a result ends the call. *)
Lemma call_tool_first_sent (E : Env) (c : Client.t) (l : Log) (name : string)
      (arguments : PyObj) (s : nat) :
  Client.is_connected c = true ->
  Client.session c = Some s ->
  Client.has_tool c name = true ->
  exists r c' sent,
    Client.call_tool E name arguments c l =
      (r, c', l ++ session_call_tool s name arguments :: sent) /\
    (forall result,
        env_call_tool E (l ++ [session_call_tool s name arguments]) = Ok result ->
        r = Ok result /\ c' = c /\ sent = []).
Proof.
  intros Hc Hs Ht. rewrite (call_tool_first_attempt E c l name arguments s Hc Hs Ht).
  destruct (env_call_tool E (l ++ [session_call_tool s name arguments]))
    as [result|e].
  - exists (Ok result), c, []. split; [reflexivity|].
    intros result' H. injection H as <-. repeat split.
  - destruct (isinstance_ConnectionError e).
    + unfold bind at 1. rewrite Client_cleanup_run. unfold bind at 1.
      destruct (ensure_connected_spec E (disconnected c)
                  ((l ++ [session_call_tool s name arguments]) ++ cleanup_effects c))
        as (r1 & c1 & sent1 & -> & _).
      destruct r1 as [[]|e1].
      * rewrite session_call_run. destruct (Client.session c1) as [s1|];
          do 3 eexists; (split; [|intros result H; discriminate H]);
          rewrite <- !app_assoc; cbn [app]; reflexivity.
      * do 3 eexists. split; [|intros result H; discriminate H].
        rewrite <- !app_assoc. cbn [app]. reflexivity.
    + exists (Raise e), c, []. split; [reflexivity|]. intros result H. discriminate H.
Qed.

(** C10: a [tool_use] event is handled through the first element of its list
    of tool calls alone.  Whatever follows the first element changes neither
    the outcome, nor the frame, nor the log, in [mcp-host.py] as in [app.py];
    the event is handled as the dispatch of the first call, or raises what
    the split of its name raises; and every invocation sent carries the
    parameters of the first call.  The first call is resolved and invoked:
    when its name splits into a server that is registered, with a connected
    session that lists the tool, the first thing sent is the invocation of
    that tool on that session with the parameters of the first call, and the
    event is handled without raising; when the server answers with a result,
    no other invocation is sent, one tool result is recorded, for the first
    call, the turns appended are those of that result, and the output gains
    the annotation of the first call followed by what the continuation
    gives, its text or the report of its failure; [app.py] sends the same
    and ends with the same turns and output. *)
Theorem tool_use_first_call_only
        (E : Env) (tool_call : ToolCall) (rest : list ToolCall)
        (f : LLMManager.Frame) (l : Log) :
  (forall rest',
      LLMManager.event_body E (tool_use (tool_call :: rest)) f l =
      LLMManager.event_body E (tool_use (tool_call :: rest')) f l) /\
  (forall rest',
      App.event_body E (tool_use (tool_call :: rest)) f l =
      App.event_body E (tool_use (tool_call :: rest')) f l) /\
  LLMManager.event_body E (tool_use (tool_call :: rest)) f l =
    match unpack2 (split_1 (tc_name tool_call) underscore) with
    | Ok (server_name, tool_name) =>
        LLMManager.dispatch E server_name tool_name (tc_parameters tool_call) f l
    | Raise e => (Raise e, f, l)
    end /\
  (exists r f' sent,
    LLMManager.event_body E (tool_use (tool_call :: rest)) f l = (r, f', l ++ sent) /\
    length (invocations sent) <= 2 /\
    forall s name arguments,
      In (session_call_tool s name arguments) sent ->
      arguments = tc_parameters tool_call /\
      exists server_name,
        unpack2 (split_1 (tc_name tool_call) underscore) = Ok (server_name, name)) /\
  (forall server_name tool_name conn s,
      unpack2 (split_1 (tc_name tool_call) underscore) = Ok (server_name, tool_name) ->
      Dict.get server_name
               (ConnectionManager.connections (LLMManager.connection_manager f))
        = Some conn ->
      Client.is_connected (McpConnection.client conn) = true ->
      Client.session (McpConnection.client conn) = Some s ->
      Client.has_tool (McpConnection.client conn) tool_name = true ->
      let first := session_call_tool s tool_name (tc_parameters tool_call) in
      exists f' g' sent,
        LLMManager.event_body E (tool_use (tool_call :: rest)) f l
          = (Ok tt, f', l ++ first :: sent) /\
        App.event_body E (tool_use (tool_call :: rest)) f l
          = (Ok tt, g', l ++ first :: sent) /\
        same_but_results f' g' /\
        (forall result,
            env_call_tool E (l ++ [first]) = Ok result ->
            invocations sent = [] /\
            LLMManager.tool_results f' =
              LLMManager.tool_results f ++ [(server_name, tool_name, result)] /\
            LLMManager.messages f' = LLMManager.messages f ++ turns_after f result /\
            LLMManager.final_text f' =
              LLMManager.final_text f
                ++ LLMManager.called_text server_name tool_name
                     (tc_parameters tool_call)
                :: match env_messages_create E (l ++ [first])
                           (LLMManager.messages f ++ turns_after f result) None with
                   | Raise e => [LLMManager.error_msg server_name tool_name e]
                   | Ok stream =>
                       match stream_error stream with
                       | Some e => [LLMManager.error_msg server_name tool_name e]
                       | None =>
                           let segment :=
                             (LLMManager.current_text f ++ text_of (events stream))%string in
                           if LLMManager.nonempty segment then [segment] else []
                       end
                   end)).
Proof.
  split; [reflexivity|]. split; [reflexivity|].
  assert (Hrun : LLMManager.event_body E (tool_use (tool_call :: rest)) f l =
                 match unpack2 (split_1 (tc_name tool_call) underscore) with
                 | Ok (server_name, tool_name) =>
                     LLMManager.dispatch E server_name tool_name
                                         (tc_parameters tool_call) f l
                 | Raise e => (Raise e, f, l)
                 end).
  { cbn [LLMManager.event_body]. unfold bind, of_res.
    destruct (unpack2 _) as [[server_name tool_name]|e]; reflexivity. }
  split; [exact Hrun|]. split.
  - rewrite Hrun.
    destruct (unpack2 (split_1 (tc_name tool_call) underscore))
      as [[server_name tool_name]|e].
    + rewrite dispatch_run.
      destruct (invoke_sent E server_name tool_name (tc_parameters tool_call) f l)
        as (r & f1 & sent & -> & _ & Hlen & Hinv).
      assert (Hin : forall s name arguments,
                 In (session_call_tool s name arguments) sent ->
                 arguments = tc_parameters tool_call /\
                 exists server_name0,
                   Ok (server_name, tool_name) = Ok (server_name0, name)).
      { intros s name arguments Hin.
        destruct (Hinv (session_call_tool s name arguments)) as (s' & Heq).
        - unfold invocations. apply filter_In. split; [exact Hin|reflexivity].
        - injection Heq as _ -> ->. eauto. }
      destruct r as [result|e].
      * cbv zeta.
        destruct (env_messages_create E _ _ None) as [[evs [err|]]|e];
          cbn [stream_error events]; do 3 eexists; rewrite <- app_assoc;
          (split; [reflexivity|]);
          (split; [unfold invocations in *; rewrite filter_app; cbn;
                   rewrite app_nil_r; exact Hlen|]);
          intros s name arguments Hs; apply in_app_or in Hs;
          (destruct Hs as [Hs|[Hs|[]]]; [eauto|discriminate Hs]).
      * do 3 eexists. split; [reflexivity|]. split; [exact Hlen|exact Hin].
    + exists (Raise e), f, []. rewrite app_nil_r. split; [reflexivity|].
      split; [cbn; lia|]. intros s name arguments [].
  - intros server_name tool_name conn s Hsplit Hget Hc Hs Ht first.
    destruct (App_event_body_agrees E (tool_use (tool_call :: rest)) f f l eq_refl)
      as (r & f' & g' & l' & Hhost & Happ & Hsame).
    rewrite Happ, Hhost. rewrite Hrun, Hsplit, dispatch_run in Hhost.
    destruct (call_tool_first_sent E (McpConnection.client conn) l tool_name
                (tc_parameters tool_call) s Hc Hs Ht)
      as (r1 & c1 & sent1 & Hcall & Hresult).
    fold first in Hcall, Hresult.
    assert (Hinv : LLMManager.invoke E server_name tool_name
                     (tc_parameters tool_call) f l =
                   (r1,
                    LLMManager.set_connection_manager
                      (ConnectionManager.mk
                         (Dict.set server_name (McpConnection.set_client c1 conn)
                            (ConnectionManager.connections
                               (LLMManager.connection_manager f)))) f,
                    l ++ first :: sent1)).
    { unfold LLMManager.invoke, zoom, ConnectionManager.on_client.
      rewrite Hget, Hcall. reflexivity. }
    rewrite Hinv in Hhost.
    destruct r1 as [result|e].
    + cbv zeta in Hhost.
      match type of Hhost with
      | context [env_messages_create E ?l0 ?ms None] =>
          destruct (env_messages_create E l0 ms None) as [[evs [err|]]|e] eqn:Hcreate
      end;
        cbn [stream_error events] in Hhost; injection Hhost as <- <- <-;
        eexists; exists g'; eexists;
        (split; [rewrite <- app_assoc; cbn [app]; reflexivity|]);
        (split; [rewrite <- app_assoc; cbn [app]; reflexivity|]);
        (split; [exact Hsame|]);
        intros result' Hfirst; destruct (Hresult result' Hfirst) as (Hr & _ & ->);
        injection Hr as <-;
        (split; [reflexivity|]); destruct f as [cm ms rs ft ct];
        unfold frame_after, turns_after in Hcreate;
        cbn -[text_of String.append] in Hcreate;
        unfold annotated, flushed, frame_after, turns_after;
        cbn -[text_of String.append];
        change (l ++ [first]) with (l ++ first :: []); rewrite Hcreate;
        cbn -[text_of String.append].
      * rewrite <- app_assoc. repeat split.
      * destruct (LLMManager.nonempty (ct ++ text_of evs));
          cbn -[text_of String.append]; rewrite <- ?app_assoc; repeat split.
      * rewrite <- app_assoc. repeat split.
    + injection Hhost as <- <- <-. eexists. exists g', sent1.
      split; [reflexivity|]. split; [reflexivity|]. split; [exact Hsame|].
      intros result Hfirst. destruct (Hresult result Hfirst) as (Hr & _).
      discriminate Hr.
Qed.

(** The model asks for the forecast and, in the same event, for the alerts:
    the forecast is invoked on the session of the weather server. *)
Lemma tool_use_first_call_only_witness :
  exists f' g' sent,
    LLMManager.event_body Scenario.healthy
      (tool_use [Scenario3.forecast_call; mkToolCall "weather_alerts" Scenario.boston])
      Scenario3.frame_A Scenario.started_log
      = (Ok tt, f', Scenario.started_log
                      ++ session_call_tool 1 "forecast" Scenario.boston :: sent) /\
    App.event_body Scenario.healthy
      (tool_use [Scenario3.forecast_call; mkToolCall "weather_alerts" Scenario.boston])
      Scenario3.frame_A Scenario.started_log
      = (Ok tt, g', Scenario.started_log
                      ++ session_call_tool 1 "forecast" Scenario.boston :: sent) /\
    invocations sent = [] /\
    LLMManager.tool_results f' = [] ++ [("weather", "forecast", Scenario.sunny)].
Proof.
  destruct (proj2 (proj2 (proj2 (proj2
              (tool_use_first_call_only Scenario.healthy Scenario3.forecast_call
                 [mkToolCall "weather_alerts" Scenario.boston]
                 Scenario3.frame_A Scenario.started_log))))
              "weather" "forecast"
              (McpConnection.mk (Server.mk "weather" "python" ["server.py"])
                                Scenario.started_client)
              1 eq_refl eq_refl eq_refl eq_refl eq_refl)
    as (f' & g' & sent & Hhost & Happ & _ & Hresult).
  destruct (Hresult Scenario.sunny eq_refl) as (Hinv & Hresults & _).
  exists f', g', sent. repeat split; assumption.
Defined.


(** ** Composite keys *)

Lemma partition_first_append (sep : ascii) (a b : string) :
  contains_char sep a = false ->
  partition_first sep (a ++ String sep b) = Some (a, b).
Proof.
  induction a as [|c a IH]; cbn; intros H.
  - now rewrite Ascii.eqb_refl.
  - apply orb_false_elim in H as [Hc Ha]. now rewrite Hc, (IH Ha).
Qed.

Lemma partition_first_inv (sep : ascii) (s a b : string) :
  partition_first sep s = Some (a, b) ->
  s = (a ++ String sep b)%string /\ contains_char sep a = false.
Proof.
  revert a. induction s as [|c s IH]; cbn; intros a H; [discriminate|].
  destruct (Ascii.eqb c sep) eqn:Hc.
  - apply Ascii.eqb_eq in Hc. injection H as <- <-. subst c. split; reflexivity.
  - destruct (partition_first sep s) as [[a' b']|]; [|discriminate].
    injection H as <- <-. destruct (IH a' eq_refl) as [-> Ha'].
    cbn. now rewrite Hc.
Qed.

Lemma unpack2_split_1_inv (key a b : string) :
  unpack2 (split_1 key underscore) = Ok (a, b) ->
  partition_first underscore key = Some (a, b).
Proof.
  unfold split_1. destruct (partition_first underscore key) as [[a' b']|]; cbn.
  - intros H. now injection H as <- <-.
  - discriminate.
Qed.

(** C5: for a server whose name has no underscore, every tool it lists is
    offered to the model under the key <server>_<tool>, with the server named
    in the description; splitting that key gives the server and the tool
    back, and a [tool_use] event under that key is dispatched to that server
    and tool: [call_tool] for the tool is run on the client registered under
    the server name.  Every key that can be split is split at its first underscore.
    The key "weather_forecast" gives "weather" and "forecast". *)
Theorem composite_key_round_trip
        (server_tools : Dict.t (list Tool)) (server_name : string)
        (tools : list Tool) (tool : Tool) :
  In (server_name, tools) server_tools ->
  In tool tools ->
  contains_char underscore server_name = false ->
  let key := (server_name ++ "_" ++ tool_name tool)%string in
  In (mkToolDict key
        ("[" ++ server_name ++ "] " ++ str_opt (tool_description tool))
        (tool_inputSchema tool))
     (LLMManager._format_tools_for_llm server_tools) /\
  unpack2 (split_1 key underscore) = Ok (server_name, tool_name tool) /\
  (forall E parameters rest f l,
      LLMManager.event_body E (tool_use (mkToolCall key parameters :: rest)) f l =
      LLMManager.dispatch E server_name (tool_name tool) parameters f l) /\
  (forall E parameters f l conn,
      Dict.get server_name
               (ConnectionManager.connections (LLMManager.connection_manager f))
        = Some conn ->
      exists r client' l',
        Client.call_tool E (tool_name tool) parameters (McpConnection.client conn) l
          = (r, client', l') /\
        LLMManager.invoke E server_name (tool_name tool) parameters f l =
          (r,
           LLMManager.set_connection_manager
             (ConnectionManager.mk
                (Dict.set server_name (McpConnection.set_client client' conn)
                   (ConnectionManager.connections (LLMManager.connection_manager f))))
             f,
           l')) /\
  (forall other a b,
      unpack2 (split_1 other underscore) = Ok (a, b) ->
      other = (a ++ "_" ++ b)%string /\ contains_char underscore a = false) /\
  unpack2 (split_1 "weather_forecast" underscore) = Ok ("weather", "forecast").
Proof.
  intros Hserver Htool Hname key.
  assert (Hsplit : unpack2 (split_1 key underscore) = Ok (server_name, tool_name tool)).
  { unfold split_1, key. cbn [String.append].
    change ("_" ++ tool_name tool)%string with (String underscore (tool_name tool)).
    now rewrite partition_first_append. }
  repeat split.
  - unfold LLMManager._format_tools_for_llm. apply in_flat_map.
    exists (server_name, tools). split; [assumption|].
    cbn [fst snd]. apply in_map_iff. exists tool. split; [reflexivity|assumption].
  - exact Hsplit.
  - intros E parameters rest f l. cbn [LLMManager.event_body tc_name tc_parameters].
    unfold bind, of_res. now rewrite Hsplit.
  - intros E parameters f l conn Hconn.
    unfold LLMManager.invoke, zoom, ConnectionManager.on_client. rewrite Hconn.
    destruct (Client.call_tool E (tool_name tool) parameters
                (McpConnection.client conn) l) as [[r client'] l'].
    exists r, client', l'. split; reflexivity.
  - apply unpack2_split_1_inv, partition_first_inv in H. apply H.
  - apply unpack2_split_1_inv, partition_first_inv in H. apply H.
Qed.

(** For the weather server and its forecast tool. *)
Lemma composite_key_round_trip_witness :
  In (mkToolDict "weather_forecast" "[weather] Get the forecast" (mkPyObj "{}"))
     (LLMManager._format_tools_for_llm
        (ConnectionManager.get_all_tools Scenario.registry)) /\
  unpack2 (split_1 "weather_forecast" underscore) = Ok ("weather", "forecast").
Proof.
  destruct (composite_key_round_trip
              (ConnectionManager.get_all_tools Scenario.registry)
              "weather" [Scenario.forecast; Scenario.alerts] Scenario.forecast)
    as (H1 & H2 & _).
  - left. reflexivity.
  - left. reflexivity.
  - reflexivity.
  - split; [exact H1|exact H2].
Defined.

(** * Further properties *)

(** ** Dictionaries *)

Lemma Dict_get_set_same {V} (k : string) (v : V) (d : Dict.t V) :
  Dict.get k (Dict.set k v d) = Some v.
Proof.
  induction d as [|[k' v'] d IH]; cbn.
  - now rewrite String.eqb_refl.
  - destruct (String.eqb k' k) eqn:Hk; cbn; rewrite Hk; [reflexivity|exact IH].
Qed.

Lemma Dict_get_set_other {V} (k k' : string) (v : V) (d : Dict.t V) :
  k <> k' -> Dict.get k' (Dict.set k v d) = Dict.get k' d.
Proof.
  intros Hne. induction d as [|[k0 v0] d IH]; cbn.
  - destruct (String.eqb k k') eqn:Hk; [apply String.eqb_eq in Hk; contradiction|reflexivity].
  - destruct (String.eqb k0 k) eqn:Hk; cbn.
    + apply String.eqb_eq in Hk. subst k0.
      destruct (String.eqb k k') eqn:Hk'; [apply String.eqb_eq in Hk'; contradiction|reflexivity].
    + destruct (String.eqb k0 k'); [reflexivity|exact IH].
Qed.

Lemma Dict_get_In {V} (k : string) (d : Dict.t V) :
  In k (map fst d) <-> Dict.get k d <> None.
Proof.
  induction d as [|[k' v'] d IH]; cbn; [tauto|].
  destruct (String.eqb k' k) eqn:Hk.
  - apply String.eqb_eq in Hk. split; [discriminate|auto].
  - apply String.eqb_neq in Hk. rewrite <- IH. tauto.
Qed.

Lemma Dict_set_keys_present {V} (k : string) (v : V) (d : Dict.t V) :
  Dict.get k d <> None -> map fst (Dict.set k v d) = map fst d.
Proof.
  induction d as [|[k' v'] d IH]; cbn; [congruence|].
  destruct (String.eqb k' k); cbn; [reflexivity|]. intros H. now rewrite IH.
Qed.

Lemma Dict_set_keys_absent {V} (k : string) (v : V) (d : Dict.t V) :
  Dict.get k d = None -> Dict.set k v d = d ++ [(k, v)].
Proof.
  induction d as [|[k' v'] d IH]; cbn; [reflexivity|].
  destruct (String.eqb k' k); [discriminate|]. intros H. now rewrite IH.
Qed.

Lemma Dict_get_del_same {V} (k : string) (d : Dict.t V) :
  NoDup (map fst d) -> Dict.get k (Dict.del k d) = None.
Proof.
  induction d as [|[k' v'] d IH]; cbn; [reflexivity|]. intros Hnd.
  inversion Hnd as [|? ? Hnotin Hnd']; subst.
  destruct (String.eqb k' k) eqn:Hk.
  - apply String.eqb_eq in Hk. subst k'.
    destruct (Dict.get k d) eqn:Hg; [|reflexivity].
    exfalso. apply Hnotin. apply Dict_get_In. congruence.
  - cbn. rewrite Hk. apply IH, Hnd'.
Qed.

Lemma Dict_get_del_other {V} (k k' : string) (d : Dict.t V) :
  k <> k' -> Dict.get k' (Dict.del k d) = Dict.get k' d.
Proof.
  intros Hne. induction d as [|[k0 v0] d IH]; cbn; [reflexivity|].
  destruct (String.eqb k0 k) eqn:Hk.
  - apply String.eqb_eq in Hk. subst k0.
    destruct (String.eqb k k') eqn:Hk'; [apply String.eqb_eq in Hk'; contradiction|reflexivity].
  - cbn. destruct (String.eqb k0 k'); [reflexivity|exact IH].
Qed.

Lemma Dict_del_keys {V} (k : string) (d : Dict.t V) :
  NoDup (map fst d) -> NoDup (map fst (Dict.del k d)) /\
  forall k', In k' (map fst (Dict.del k d)) -> In k' (map fst d).
Proof.
  induction d as [|[k' v'] d IH]; cbn; [auto|]. intros Hnd.
  inversion Hnd as [|? ? Hnotin Hnd']; subst.
  destruct (String.eqb k' k); [auto|]. cbn.
  destruct (IH Hnd') as [IH1 IH2]. split.
  - constructor; [|exact IH1]. intros Hin. apply Hnotin, IH2, Hin.
  - intros k0 [->|Hin]; auto.
Qed.

(** ** Transport and client, beyond the claims *)

(** X1: when the server cannot be spawned, [connect] raises the
    [ConnectionError] "Failed to connect to server: <cause>"; the transport
    is left without streams and with nothing to release, the handles it held
    before having been released. *)
Theorem connect_failure_releases (E : Env) (tr : Transport.t) (l : Log) (cause : Exc) :
  let request := stdio_client_enter (Transport.command tr) (Transport.args tr)
                                    (Transport.env tr) in
  env_stdio_client E (l ++ [request]) = Some cause ->
  exists tr',
    Transport.connect E tr l =
      (Raise (mkExc ConnectionError ("Failed to connect to server: " ++ exc_str cause)),
       tr', l ++ [request] ++ map stdio_client_exit (Transport.exit_stack tr)) /\
    Transport.stdio tr' = None /\ Transport.write tr' = None /\
    Transport.exit_stack tr' = [] /\
    Transport.command tr' = Transport.command tr /\
    Transport.args tr' = Transport.args tr /\
    Transport.env tr' = Transport.env tr.
Proof.
  intros request Hfail. exists (released tr).
  rewrite Transport_connect_run. fold request. rewrite Hfail.
  rewrite <- app_assoc. repeat split.
Qed.

(** At a server that cannot be started. *)
Lemma connect_failure_releases_witness :
  exists tr',
    Transport.connect Scenario.dying
      (Transport.__init__ Scenario.dying "python" ["news.py"] None)
      Scenario.started_log =
      (Raise (mkExc ConnectionError "Failed to connect to server: No such file"),
       tr',
       Scenario.started_log
         ++ [stdio_client_enter "python" ["news.py"] [("PATH", "/usr/bin")]] ++ []) /\
    Transport.stdio tr' = None.
Proof.
  destruct (connect_failure_releases Scenario.dying
              (Transport.__init__ Scenario.dying "python" ["news.py"] None)
              Scenario.started_log Scenario.no_such_file eq_refl)
    as (tr' & H1 & H2 & _).
  exists tr'. split; [exact H1|exact H2].
Defined.

(** X2: a [connect] that succeeds hands out the two streams of the new
    handle and puts the handle on top of the exit stack; the [cleanup] that
    follows releases that handle first, then the older ones, and leaves the
    transport as it is after any cleanup. *)
Theorem connect_then_cleanup (E : Env) (tr : Transport.t) (l : Log) :
  let request := stdio_client_enter (Transport.command tr) (Transport.args tr)
                                    (Transport.env tr) in
  let h := length l in
  env_stdio_client E (l ++ [request]) = None ->
  exists tr1,
    Transport.connect E tr l = (Ok (h, h), tr1, l ++ [request]) /\
    Transport.stdio tr1 = Some h /\ Transport.write tr1 = Some h /\
    Transport.exit_stack tr1 = h :: Transport.exit_stack tr /\
    Transport.cleanup tr1 (l ++ [request]) =
      (Ok tt, released tr,
       l ++ [request] ++ stdio_client_exit h
         :: map stdio_client_exit (Transport.exit_stack tr)).
Proof.
  intros request h Hok. exists (opened h tr).
  rewrite Transport_connect_run. fold request. rewrite Hok.
  repeat split. rewrite Transport_cleanup_run. cbn. now rewrite <- app_assoc.
Qed.

(** At the weather server. *)
Lemma connect_then_cleanup_witness :
  exists tr1,
    Transport.connect Scenario.healthy
      (Transport.__init__ Scenario.healthy "python" ["server.py"] None) [] =
      (Ok (0, 0), tr1,
       [] ++ [stdio_client_enter "python" ["server.py"] [("PATH", "/usr/bin")]]) /\
    Transport.stdio tr1 = Some 0.
Proof.
  destruct (connect_then_cleanup Scenario.healthy
              (Transport.__init__ Scenario.healthy "python" ["server.py"] None)
              [] eq_refl)
    as (tr1 & H1 & H2 & _).
  exists tr1. split; [exact H1|exact H2].
Defined.

(** X3: [start] on a connected client does nothing.  Otherwise it makes
    exactly one attempt to connect and either succeeds, leaving a session,
    the flag [_is_stopping] and the name as they were, or raises
    "Failed to initialize session with server <name>: <cause>" as a
    [ConnectionError] and leaves the client cleaned up: no session, no tools,
    no stream, nothing to release. *)
Theorem start_outcome (E : Env) (c : Client.t) (l : Log) :
  (Client.is_connected c = true -> Client.start E c l = (Ok tt, c, l)) /\
  (Client.is_connected c = false ->
   exists r c' sent,
     Client.start E c l = (r, c', l ++ sent) /\
     StartTask.connect_attempts sent = 1 /\
     invocations sent = [] /\
     match r with
     | Ok _ =>
         (exists s, Client.session c' = Some s) /\
         Client.is_connected c' = negb (Client._is_stopping c) /\
         Client.server_name c' = Client.server_name c
     | Raise e =>
         exc_class e = ConnectionError /\
         (exists cause, e = Client.start_failed c cause) /\
         Client.is_connected c' = false /\
         Client.session c' = None /\
         Client._available_tools c' = [] /\
         Transport.stdio (Client.transport c') = None /\
         Transport.exit_stack (Client.transport c') = []
     end).
Proof.
  split; intros Hc; unfold Client.start, bind, get; rewrite Hc; [reflexivity|].
  destruct (start_locked_spec E c l) as (r & c' & sent & Hrun & Hatt & Hinv & _ & Hr).
  exists r, c', sent. repeat split; try assumption.
  destruct r as [[]|e].
  - destruct Hr as ((s & Hs) & Hstop & Hname). repeat split; eauto.
    unfold Client.is_connected. now rewrite Hs, Hstop.
  - destruct Hr as (Hcls & ->). repeat split; try assumption; try reflexivity.
    revert Hrun. rewrite start_locked_run. cbv zeta.
    repeat
      match goal with
      | |- context [match ?o with Some _ => _ | None => _ end] => destruct o
      | |- context [match ?o with Ok _ => _ | Raise _ => _ end] => destruct o
      end; intros H; try discriminate H; injection H as <- _; eauto.
Qed.

(** At the weather server: a first start, then a start that does nothing. *)
Lemma start_outcome_witness :
  Client.start Scenario.healthy Scenario.started_client Scenario.started_log =
    (Ok tt, Scenario.started_client, Scenario.started_log) /\
  exists r c' sent,
    Client.start Scenario.healthy (Scenario.fresh_client Scenario.healthy) [] =
      (r, c', [] ++ sent) /\
    StartTask.connect_attempts sent = 1.
Proof.
  destruct (start_outcome Scenario.healthy Scenario.started_client
              Scenario.started_log) as [H1 _].
  destruct (start_outcome Scenario.healthy (Scenario.fresh_client Scenario.healthy) [])
    as [_ H2].
  split; [exact (H1 eq_refl)|].
  destruct (H2 eq_refl) as (r & c' & sent & Hrun & Hatt & _).
  exists r, c', sent. split; assumption.
Defined.

(** X4: a [start] that fails on a client without session and with nothing to
    release gives back what it has acquired: the server that was spawned is
    released, the session that was entered and kept is exited, and in all
    cases the client holds nothing afterwards. *)
Theorem start_failure_releases (E : Env) (c : Client.t) (l : Log)
        (e : Exc) (c' : Client.t) (l' : Log) :
  Client.session c = None ->
  Transport.exit_stack (Client.transport c) = [] ->
  Client.start E c l = (Raise e, c', l') ->
  let l1 := l ++ [connect_request c] in
  let l2 := l1 ++ [ClientSession_aenter (length l)] in
  let l3 := l2 ++ [session_initialize (length l1)] in
  match env_stdio_client E l1 with
  | Some _ => l' = l1
  | None =>
      match env_ClientSession_aenter E l2 with
      | Some _ => l' = l2 ++ [stdio_client_exit (length l)]
      | None =>
          match env_initialize E l3 with
          | Some _ =>
              l' = l3 ++ [ClientSession_aexit (length l1); stdio_client_exit (length l)]
          | None =>
              l' = l3 ++ [session_list_tools (length l1);
                          ClientSession_aexit (length l1);
                          stdio_client_exit (length l)]
          end
      end
  end /\
  Client.session c' = None /\
  Transport.exit_stack (Client.transport c') = [].
Proof.
  intros Hs Hstack. unfold Client.start, bind, get, Client.is_connected.
  rewrite Hs. rewrite start_locked_run. cbv zeta.
  unfold cleanup_effects. cbn [Client.session Client.set_session Client.set_transport
    Client.transport opened released Transport.exit_stack].
  rewrite Hs, Hstack.
  repeat
    match goal with
    | |- context [match ?o with Some _ => _ | None => _ end] => destruct o
    | |- context [match ?o with Ok _ => _ | Raise _ => _ end] => destruct o
    end; intros H; try discriminate H; injection H as _ <- <-; cbn;
    rewrite <- ?app_assoc, ?app_nil_r; repeat split.
Qed.

(** At a server that is spawned but does not answer the handshake. *)
Lemma start_failure_releases_witness :
  let E := mkEnv [] (fun _ => None) (fun _ => None)
                 (fun _ => Some (mkExc (OtherException "TimeoutError") "timed out"))
                 (fun _ => Ok []) (fun _ => Ok Scenario.sunny) Scenario.model in
  snd (Client.start E (Scenario.fresh_client E) []) =
    [stdio_client_enter "python" ["server.py"] []; ClientSession_aenter 0;
     session_initialize 1; ClientSession_aexit 1; stdio_client_exit 0].
Proof.
  intros E.
  destruct (Client.start E (Scenario.fresh_client E) []) as [[r c'] l'] eqn:Hrun.
  destruct r as [[]|e]; [vm_compute in Hrun; discriminate Hrun|].
  destruct (start_failure_releases E (Scenario.fresh_client E) [] e c' l'
              eq_refl eq_refl Hrun) as (Hlog & _).
  exact Hlog.
Defined.

(** X5: [stop] never raises.  It exits the session, if there is one, then
    releases the transport, and leaves the client disconnected with the flag
    [_is_stopping] cleared; a client that has been stopped is not closed for
    good: the next [ensure_connected] makes an attempt to connect. *)
Theorem stop_then_reconnect (E : Env) (c : Client.t) (l : Log) :
  Client.stop c l = (Ok tt, stopped c, l ++ cleanup_effects c) /\
  Client.is_connected (stopped c) = false /\
  Client._is_stopping (stopped c) = false /\
  Client.stop (stopped c) (l ++ cleanup_effects c)
    = (Ok tt, stopped c, l ++ cleanup_effects c) /\
  exists r c' sent,
    Client.ensure_connected E (stopped c) (l ++ cleanup_effects c)
      = (r, c', (l ++ cleanup_effects c) ++ sent) /\
    StartTask.connect_attempts sent = 1.
Proof.
  assert (Hstop : forall c0 l0,
             Client.stop c0 l0 = (Ok tt, stopped c0, l0 ++ cleanup_effects c0)).
  { intros c0 l0. unfold Client.stop, bind, modify.
    rewrite Client_cleanup_run. unfold cleanup_effects.
    destruct c0 as [name tr s tools stopping]. reflexivity. }
  split; [apply Hstop|]. split; [reflexivity|]. split; [reflexivity|]. split.
  - rewrite Hstop. unfold cleanup_effects at 2. cbn. now rewrite app_nil_r.
  - rewrite ensure_connected_disconnected by reflexivity.
    destruct (start_locked_spec E (stopped c) (l ++ cleanup_effects c))
      as (r & c' & sent & Hrun & Hatt & _).
    exists r, c', sent. split; assumption.
Qed.

(** X6: [Client.cleanup] never raises and is idempotent: it exits the
    session, if there is one, then releases each server handle of the exit
    stack, innermost first, and leaves the client without session, tools,
    streams or handles; a second cleanup makes no call and changes
    nothing. *)
Theorem Client_cleanup_idempotent (c : Client.t) (l : Log) :
  let exits :=
    match Client.session c with Some s => [ClientSession_aexit s] | None => [] end
    ++ map stdio_client_exit (Transport.exit_stack (Client.transport c)) in
  exists c1,
    Client.cleanup c l = (Ok tt, c1, l ++ exits) /\
    Client.cleanup c1 (l ++ exits) = (Ok tt, c1, l ++ exits) /\
    (Client.cleanup ;; Client.cleanup) c l = Client.cleanup c l /\
    Client.session c1 = None /\
    Client._available_tools c1 = [] /\
    Client.is_connected c1 = false /\
    Transport.exit_stack (Client.transport c1) = [] /\
    Transport.stdio (Client.transport c1) = None /\
    Transport.write (Client.transport c1) = None /\
    Client.server_name c1 = Client.server_name c /\
    Client._is_stopping c1 = Client._is_stopping c.
Proof.
  intros exits. exists (disconnected c).
  change exits with (cleanup_effects c).
  assert (H2 : Client.cleanup (disconnected c) (l ++ cleanup_effects c)
               = (Ok tt, disconnected c, l ++ cleanup_effects c)).
  { rewrite Client_cleanup_run. unfold cleanup_effects at 2. cbn.
    now rewrite app_nil_r. }
  split; [apply Client_cleanup_run|]. split; [exact H2|].
  split; [unfold bind; now rewrite Client_cleanup_run, H2|].
  repeat split.
Qed.

(** X7: on a connected session that lists the tool, [call_tool] sends one
    invocation with the name and the arguments given; when the server
    answers with a result, that result is returned and the client is left as
    it was. *)
Theorem call_tool_success (E : Env) (c : Client.t) (l : Log) (name : string)
        (arguments : PyObj) (s : nat) (result : CallToolResult) :
  Client.is_connected c = true ->
  Client.session c = Some s ->
  Client.has_tool c name = true ->
  env_call_tool E (l ++ [session_call_tool s name arguments]) = Ok result ->
  Client.call_tool E name arguments c l =
    (Ok result, c, l ++ [session_call_tool s name arguments]).
Proof.
  intros Hc Hs Ht Hok.
  rewrite (call_tool_first_attempt E c l name arguments s Hc Hs Ht).
  now rewrite Hok.
Qed.

(** The forecast, from the started weather client. *)
Lemma call_tool_success_witness :
  Client.call_tool Scenario.healthy "forecast" Scenario.boston
                   Scenario.started_client Scenario.started_log =
    (Ok Scenario.sunny, Scenario.started_client,
     Scenario.started_log ++ [session_call_tool 1 "forecast" Scenario.boston]).
Proof.
  exact (call_tool_success Scenario.healthy Scenario.started_client
           Scenario.started_log "forecast" Scenario.boston 1 Scenario.sunny
           eq_refl eq_refl eq_refl eq_refl).
Defined.

Lemma connect_attempts_app (l1 l2 : Log) :
  StartTask.connect_attempts (l1 ++ l2)
  = StartTask.connect_attempts l1 + StartTask.connect_attempts l2.
Proof. unfold StartTask.connect_attempts. now rewrite filter_app, length_app. Qed.

Lemma cleanup_effects_no_attempt (c : Client.t) :
  StartTask.connect_attempts (cleanup_effects c) = 0.
Proof.
  unfold StartTask.connect_attempts.
  now rewrite cleanup_effects_quiet by reflexivity.
Qed.

Lemma call_tool_attempts (E : Env) (name : string) (arguments : PyObj)
      (c : Client.t) (l : Log) :
  exists r c' sent,
    Client.call_tool E name arguments c l = (r, c', l ++ sent) /\
    StartTask.connect_attempts sent <= 2.
Proof.
  unfold Client.call_tool. unfold bind at 1.
  destruct (ensure_connected_spec E c l) as (r0 & c0 & sent0 & -> & Ha0 & _).
  destruct r0 as [[]|e0].
  2:{ exists (Raise e0), c0, sent0. split; [reflexivity|lia]. }
  unfold bind at 1, get.
  destruct (negb (Client.has_tool c0 name)).
  { do 3 eexists. split; [reflexivity|lia]. }
  unfold try_except. rewrite session_call_run.
  destruct (Client.session c0) as [s|].
  2:{ cbn. do 3 eexists. split; [reflexivity|lia]. }
  destruct (env_call_tool E _) as [result|e].
  { do 3 eexists. rewrite <- app_assoc. split; [reflexivity|].
    rewrite connect_attempts_app. cbn. lia. }
  destruct (isinstance_ConnectionError e).
  2:{ do 3 eexists. rewrite <- app_assoc. split; [reflexivity|].
      rewrite connect_attempts_app. cbn. lia. }
  unfold bind at 1. rewrite Client_cleanup_run. unfold bind at 1.
  destruct (ensure_connected_spec E (disconnected c0)
              (((l ++ sent0) ++ [session_call_tool s name arguments])
                 ++ cleanup_effects c0))
    as (r1 & c1 & sent1 & -> & Ha1 & _).
  destruct r1 as [[]|e1].
  2:{ do 3 eexists. rewrite <- !app_assoc. split; [reflexivity|].
      rewrite !connect_attempts_app, cleanup_effects_no_attempt. cbn. lia. }
  rewrite session_call_run.
  destruct (Client.session c1) as [s1|];
    do 3 eexists; rewrite <- !app_assoc; (split; [reflexivity|]);
    rewrite !connect_attempts_app, cleanup_effects_no_attempt; cbn; lia.
Qed.

(** X8: whatever the servers answer, one [call_tool] only adds to the log;
    it sends at most two invocations, all of them for the tool and the
    arguments it was called with, makes at most two attempts to connect, and
    sends nothing to the model. *)
Theorem call_tool_footprint (E : Env) (name : string) (arguments : PyObj)
        (c : Client.t) (l : Log) :
  exists r c' sent,
    Client.call_tool E name arguments c l = (r, c', l ++ sent) /\
    length (invocations sent) <= 2 /\
    (forall e, In e (invocations sent) ->
               exists s, e = session_call_tool s name arguments) /\
    StartTask.connect_attempts sent <= 2 /\
    streams_opened sent = 0.
Proof.
  destruct (call_tool_sent E name arguments c l) as (r & c' & sent & Hrun & Hsent).
  destruct (call_tool_attempts E name arguments c l) as (r2 & c2 & sent2 & Hrun2 & Hatt).
  rewrite Hrun in Hrun2. injection Hrun2 as _ _ Heq.
  apply app_inv_head in Heq. subst sent2.
  exists r, c', sent. split; [exact Hrun|].
  pose proof (invokes_only_streams _ _ _ Hsent) as H0.
  destruct Hsent as (_ & Hlen & Hall). repeat split; assumption.
Qed.

(** ** Tasks in [start], beyond the claim *)

(** X9: whatever the schedule and the answers of the server, at most one of
    the tasks that called [start] is inside the block guarded by
    [_reconnect_lock]. *)
Theorem start_one_task_in_guarded_block
        (E : Env) (schedule : list nat) (c : Client.t) (l : Log) (n : nat)
        (lp : StartTask.Loop) :
  StartTask.run E schedule (StartTask.spawn c l n) = Some lp ->
  holders (StartTask.tasks lp) <= 1 /\
  (StartTask.locked (StartTask.shared lp) = true <-> holders (StartTask.tasks lp) = 1).
Proof.
  intros Hrun.
  assert (H0 : forall k, holders (repeat StartTask.Called k) = 0).
  { induction k as [|k IH]; [reflexivity|exact IH]. }
  pose proof (lock_serialises_attempts E schedule (StartTask.spawn c l n) lp
                (H0 n) Hrun) as Hinv.
  destruct (StartTask.locked (StartTask.shared lp)); rewrite Hinv; split;
    try lia; split; intros H; try reflexivity; discriminate H.
Qed.

(** Two callers, the first suspended in [connect], the second waiting. *)
Lemma start_one_task_in_guarded_block_witness :
  holders [StartTask.AwaitStdioClient 0; StartTask.WaitLock] <= 1.
Proof.
  exact (proj1 (start_one_task_in_guarded_block Scenario.healthy [0; 1]
                  (Scenario.fresh_client Scenario.healthy) [] 2
                  (StartTask.mkLoop
                     (StartTask.mkShared (Scenario.fresh_client Scenario.healthy) true
                        [stdio_client_enter "python" ["server.py"] [("PATH", "/usr/bin")]])
                     [StartTask.AwaitStdioClient 0; StartTask.WaitLock])
                  eq_refl)).
Defined.

(** X10: [self.session] is set before the handshake: once the server is
    spawned and the session entered, a second caller of [start] returns at
    once, while the first is still waiting for [initialize] and the list of
    tools has not been fetched. *)
Theorem start_returns_before_handshake (E : Env) (c : Client.t) (l : Log) :
  let l1 := l ++ [connect_request c] in
  let l2 := l1 ++ [ClientSession_aenter (length l)] in
  let l3 := l2 ++ [session_initialize (length l1)] in
  Client.is_connected c = false ->
  Client._is_stopping c = false ->
  env_stdio_client E l1 = None ->
  env_ClientSession_aenter E l2 = None ->
  exists c',
    StartTask.run E [0; 0; 0; 1] (StartTask.spawn c l 2) =
      Some (StartTask.mkLoop
              (StartTask.mkShared c' true l3)
              [StartTask.AwaitInitialize (length l1); StartTask.Returned (Ok tt)]) /\
    Client.is_connected c' = true /\
    Client._available_tools c' = Client._available_tools c.
Proof.
  intros l1 l2 l3 Hc Hstop Hspawn Henter. subst l1 l2 l3.
  destruct c as [name [cmd args env stack sio wr] [s|] tools stopping];
    cbn in Hc, Hstop; subst; [discriminate Hc|].
  unfold connect_request in *. cbn [Client.transport Transport.command
    Transport.args Transport.env] in *.
  eexists. split; [|split].
  - unfold StartTask.run, StartTask.run_task, StartTask.spawn.
    repeat
      (task_eval;
       cbv beta iota zeta delta
         [Client.is_connected Client.session Client._is_stopping Client.transport
          Client.set_transport Client.set_session Transport.command Transport.args
          Transport.env Transport.exit_stack Transport.stdio Transport.write
          Transport.set_exit_stack Transport.set_streams negb repeat
          nth_error StartTask.tasks StartTask.shared StartTask.replace_nth];
       rewrite ?Hspawn, ?Henter).
    reflexivity.
  - reflexivity.
  - reflexivity.
Qed.

(** On a new client for the weather server. *)
Lemma start_returns_before_handshake_witness :
  exists c',
    StartTask.run Scenario.healthy [0; 0; 0; 1]
      (StartTask.spawn (Scenario.fresh_client Scenario.healthy) [] 2) =
      Some (StartTask.mkLoop
              (StartTask.mkShared c' true
                 [stdio_client_enter "python" ["server.py"] [("PATH", "/usr/bin")];
                  ClientSession_aenter 0; session_initialize 1])
              [StartTask.AwaitInitialize 1; StartTask.Returned (Ok tt)]) /\
    Client.is_connected c' = true /\
    Client._available_tools c' = [].
Proof.
  exact (start_returns_before_handshake Scenario.healthy
           (Scenario.fresh_client Scenario.healthy) []
           eq_refl eq_refl eq_refl eq_refl).
Defined.

(** ** The registry, beyond the claim *)

Lemma stop_run (c : Client.t) (l : Log) :
  Client.stop c l = (Ok tt, stopped c, l ++ cleanup_effects c).
Proof.
  unfold Client.stop, bind, modify. rewrite Client_cleanup_run.
  unfold cleanup_effects. destruct c as [name tr s tools stopping]. reflexivity.
Qed.

Lemma on_client_stop_run (server_name : string) (cm : ConnectionManager.t) (l : Log) :
  ConnectionManager.on_client server_name Client.stop cm l =
  match Dict.get server_name (ConnectionManager.connections cm) with
  | None => (Raise (ConnectionManager.does_not_exist server_name), cm, l)
  | Some conn =>
      (Ok tt,
       ConnectionManager.mk
         (Dict.set server_name
            (McpConnection.set_client (stopped (McpConnection.client conn)) conn)
            (ConnectionManager.connections cm)),
       l ++ cleanup_effects (McpConnection.client conn))
  end.
Proof.
  unfold ConnectionManager.on_client.
  destruct (Dict.get server_name (ConnectionManager.connections cm)); [|reflexivity].
  now rewrite stop_run.
Qed.

(** X11: [remove_connection] of a name that is not registered raises the
    [ValueError] "Connection to <name> does not exist" and changes nothing;
    of a registered name, it stops the client of that connection and takes
    the entry out: the name can no longer be looked up, and the other
    connections are as they were. *)
Theorem remove_connection_outcome
        (server_name : string) (cm : ConnectionManager.t) (l : Log) :
  (Dict.get server_name (ConnectionManager.connections cm) = None ->
   ConnectionManager.remove_connection server_name cm l =
     (Raise (ConnectionManager.does_not_exist server_name), cm, l)) /\
  (forall conn,
      NoDup (server_names cm) ->
      Dict.get server_name (ConnectionManager.connections cm) = Some conn ->
      exists cm',
        ConnectionManager.remove_connection server_name cm l =
          (Ok tt, cm', l ++ cleanup_effects (McpConnection.client conn)) /\
        ConnectionManager.get_client server_name cm' =
          Raise (ConnectionManager.does_not_exist server_name) /\
        (forall other, other <> server_name ->
                       ConnectionManager.get_client other cm' =
                       ConnectionManager.get_client other cm) /\
        NoDup (server_names cm') /\
        (forall other, In other (server_names cm') -> In other (server_names cm))).
Proof.
  unfold ConnectionManager.remove_connection, bind.
  rewrite on_client_stop_run. split.
  - intros ->. reflexivity.
  - intros conn Hnd Hget. rewrite Hget. unfold modify. eexists.
    split; [reflexivity|].
    unfold ConnectionManager.get_client, server_names in *.
    cbn [ConnectionManager.connections].
    assert (Hkeys : map fst (Dict.set server_name
                               (McpConnection.set_client
                                  (stopped (McpConnection.client conn)) conn)
                               (ConnectionManager.connections cm))
                    = map fst (ConnectionManager.connections cm)).
    { apply Dict_set_keys_present. congruence. }
    split; [|split; [|split]].
    + rewrite Dict_get_del_same; [reflexivity|]. now rewrite Hkeys.
    + intros other Hne.
      rewrite Dict_get_del_other by congruence.
      rewrite Dict_get_set_other by congruence. reflexivity.
    + apply Dict_del_keys. now rewrite Hkeys.
    + intros other Hin. rewrite <- Hkeys.
      eapply Dict_del_keys; [|exact Hin]. now rewrite Hkeys.
Qed.

(** Removing "news", which is not registered, and "weather", which is. *)
Lemma remove_connection_outcome_witness :
  ConnectionManager.remove_connection "news" Scenario.registry Scenario.started_log =
    (Raise (ConnectionManager.does_not_exist "news"), Scenario.registry,
     Scenario.started_log) /\
  exists cm',
    ConnectionManager.remove_connection "weather" Scenario.registry
                                        Scenario.started_log =
      (Ok tt, cm',
       Scenario.started_log ++ cleanup_effects Scenario.started_client) /\
    ConnectionManager.get_client "weather" cm' =
      Raise (ConnectionManager.does_not_exist "weather").
Proof.
  split.
  - exact (proj1 (remove_connection_outcome "news" Scenario.registry
                    Scenario.started_log) eq_refl).
  - destruct (proj2 (remove_connection_outcome "weather" Scenario.registry
                       Scenario.started_log)
                (McpConnection.mk (Server.mk "weather" "python" ["server.py"])
                                  Scenario.started_client))
      as (cm' & H1 & H2 & _).
    + repeat constructor. intros [].
    + reflexivity.
    + exists cm'. split; assumption.
Defined.

(** X12: after an [add_connection] that succeeds, [get_client] under the new
    name gives the client that was started, which is connected; the names
    registered before are followed by the new one, and their clients are the
    same as before. *)
Theorem add_connection_then_get_client
        (E : Env) (cm : ConnectionManager.t) (l : Log)
        (server_name command : string) (args : list string)
        (env : option (list (string * string))) (cm' : ConnectionManager.t) (l' : Log) :
  ConnectionManager.add_connection E server_name command args env cm l
    = (Ok tt, cm', l') ->
  Dict.contains server_name (ConnectionManager.connections cm) = false /\
  (exists client,
      ConnectionManager.get_client server_name cm' = Ok client /\
      Client.is_connected client = true /\
      Client.server_name client = server_name /\
      Client.start E (Client.__init__ server_name
                        (Transport.__init__ E command args env)) l
        = (Ok tt, client, l')) /\
  server_names cm' = server_names cm ++ [server_name] /\
  (forall other, other <> server_name ->
                 ConnectionManager.get_client other cm' =
                 ConnectionManager.get_client other cm).
Proof.
  unfold ConnectionManager.add_connection. unfold bind at 1, get.
  destruct (Dict.contains server_name (ConnectionManager.connections cm)) eqn:Hin;
    [discriminate|].
  unfold bind, ConnectionManager.on_new.
  destruct (Client.start E (Client.__init__ server_name
                              (Transport.__init__ E command args env)) l)
    as [[[[]|e] c1] l1] eqn:Hstart; [|discriminate].
  unfold modify. intros Hadd. injection Hadd as <- <-.
  split; [reflexivity|].
  assert (Hnone : Dict.get server_name (ConnectionManager.connections cm) = None).
  { unfold Dict.contains in Hin.
    destruct (Dict.get server_name (ConnectionManager.connections cm));
      [discriminate|reflexivity]. }
  split; [|split].
  - exists c1. unfold ConnectionManager.get_client. cbn [ConnectionManager.connections].
    rewrite Dict_get_set_same. cbn [McpConnection.client].
    split; [reflexivity|].
    destruct (start_locked_spec E (Client.__init__ server_name
                                     (Transport.__init__ E command args env)) l)
      as (r & c2 & sent & Hrun & _ & _ & _ & Hr).
    revert Hstart. unfold Client.start, bind, get.
    change (Client.is_connected
              (Client.__init__ server_name (Transport.__init__ E command args env)))
      with false.
    cbv iota. rewrite Hrun. intros Hstart. injection Hstart as -> <- _.
    destruct Hr as ((s & Hs) & Hstop & Hname).
    unfold Client.is_connected. rewrite Hs, Hstop. repeat split; assumption.
  - unfold server_names. cbn [ConnectionManager.connections].
    rewrite Dict_set_keys_absent by exact Hnone. now rewrite map_app.
  - intros other Hne. unfold ConnectionManager.get_client.
    cbn [ConnectionManager.connections].
    rewrite Dict_get_set_other by congruence. reflexivity.
Qed.

(** Adding the weather server to an empty registry. *)
Lemma add_connection_then_get_client_witness :
  server_names Scenario.registry = server_names ConnectionManager.__init__ ++ ["weather"].
Proof.
  exact (proj1 (proj2 (proj2 (add_connection_then_get_client Scenario.healthy
                  ConnectionManager.__init__ [] "weather" "python" ["server.py"] None
                  Scenario.registry Scenario.started_log eq_refl)))).
Defined.

Lemma cleanup_loop_run (todo : Dict.t McpConnection.t) (cm : ConnectionManager.t)
      (l : Log) :
  NoDup (map fst todo) ->
  (forall k conn, In (k, conn) todo ->
                  Dict.get k (ConnectionManager.connections cm) = Some conn) ->
  exists cm',
    for_each (fun kv => ConnectionManager.on_client (fst kv) Client.stop ;; ret tt)
             todo cm l =
    (Ok tt, cm',
     l ++ concat (map (fun kv => cleanup_effects (McpConnection.client (snd kv))) todo)).
Proof.
  set (body := fun kv : string * McpConnection.t =>
                 ConnectionManager.on_client (fst kv) Client.stop ;; ret tt).
  revert cm l. induction todo as [|[k conn] todo IH]; intros cm l Hnd Hget;
    cbn [for_each map concat].
  - exists cm. now rewrite app_nil_r.
  - unfold bind at 1. unfold body at 1. unfold bind at 1.
    cbn [fst snd]. rewrite on_client_stop_run.
    rewrite (Hget k conn) by (left; reflexivity).
    unfold ret at 1.
    inversion Hnd as [|? ? Hnotin Hnd']; subst.
    destruct (IH (ConnectionManager.mk
                    (Dict.set k (McpConnection.set_client
                                   (stopped (McpConnection.client conn)) conn)
                              (ConnectionManager.connections cm)))
                 (l ++ cleanup_effects (McpConnection.client conn)) Hnd')
      as (cm' & Hrun).
    + intros k' conn' Hin. cbn [ConnectionManager.connections].
      rewrite Dict_get_set_other.
      * apply Hget. right. exact Hin.
      * intros ->. apply Hnotin. apply in_map_iff. exists (k', conn'). split; auto.
    + exists cm'. rewrite Hrun. now rewrite <- app_assoc.
Qed.

Lemma Dict_get_of_In {V} (k : string) (v : V) (d : Dict.t V) :
  NoDup (map fst d) -> In (k, v) d -> Dict.get k d = Some v.
Proof.
  induction d as [|[k' v'] d IH]; cbn; [tauto|]. intros Hnd [Heq|Hin].
  - injection Heq as -> ->. now rewrite String.eqb_refl.
  - inversion Hnd as [|? ? Hnotin Hnd']; subst.
    destruct (String.eqb k' k) eqn:Hk.
    + apply String.eqb_eq in Hk. subst k'. exfalso. apply Hnotin.
      apply in_map_iff. exists (k, v). split; auto.
    + apply IH; assumption.
Qed.

(** X13: [ConnectionManager.cleanup] never raises: it stops the client of
    every connection, in the order of registration, each session being
    exited and each transport released, and leaves the registry empty. *)
Theorem registry_cleanup_stops_all (cm : ConnectionManager.t) (l : Log) :
  NoDup (server_names cm) ->
  ConnectionManager.cleanup cm l =
    (Ok tt, ConnectionManager.__init__,
     l ++ concat (map cleanup_effects (clients cm))).
Proof.
  intros Hnd. unfold ConnectionManager.cleanup, bind at 1, get. unfold bind at 1.
  destruct (cleanup_loop_run (ConnectionManager.connections cm) cm l Hnd)
    as (cm' & Hrun).
  { intros k conn Hin. apply Dict_get_of_In; assumption. }
  rewrite Hrun. unfold modify, clients. now rewrite map_map.
Qed.

(** The registry of the weather server. *)
Lemma registry_cleanup_stops_all_witness :
  ConnectionManager.cleanup Scenario.registry Scenario.started_log =
    (Ok tt, ConnectionManager.__init__,
     Scenario.started_log
       ++ concat (map cleanup_effects (clients Scenario.registry))).
Proof.
  apply registry_cleanup_stops_all. repeat constructor. intros [].
Defined.

(** ** The catalog and its keys, beyond the claim *)

Lemma partition_first_app (sep : ascii) (s t a b : string) :
  partition_first sep s = Some (a, b) ->
  partition_first sep (s ++ t) = Some (a, (b ++ t)%string).
Proof.
  revert a. induction s as [|c s IH]; cbn; intros a H; [discriminate|].
  destruct (Ascii.eqb c sep).
  - now injection H as <- <-.
  - destruct (partition_first sep s) as [[a' b']|]; [|discriminate].
    injection H as <- <-. now rewrite (IH a' eq_refl).
Qed.

Lemma partition_first_some (sep : ascii) (s : string) :
  contains_char sep s = true -> exists a b, partition_first sep s = Some (a, b).
Proof.
  induction s as [|c s IH]; cbn; [discriminate|].
  destruct (Ascii.eqb c sep); cbn; [eauto|].
  intros H. destruct (IH H) as (a & b & ->). eauto.
Qed.

Lemma catalog_length (server_tools : Dict.t (list Tool)) :
  length (LLMManager._format_tools_for_llm server_tools)
  = list_sum (map (fun kv => length (snd kv)) server_tools).
Proof.
  unfold LLMManager._format_tools_for_llm.
  induction server_tools as [|[name tools] st IH]; [reflexivity|].
  cbn [flat_map map fst snd]. rewrite length_app, length_map.
  change (list_sum (length tools :: ?x)) with (length tools + list_sum x).
  rewrite IH. reflexivity.
Qed.

(** X14: the catalog holds exactly one entry for each tool of each server,
    servers in the order of registration and tools in the order listed: the
    entry of the i-th tool of a server stands i places after the entries of
    the servers before it, and there are as many entries as tools.  Every
    entry has the key <server>_<tool>, the description
    "[<server>] <description>" and the input schema of the tool as it is.
    The listing the catalog is built from names the registered servers in
    order, each with the tools its client holds. *)
Theorem catalog_entries (server_tools : Dict.t (list Tool)) (cm : ConnectionManager.t) :
  length (LLMManager._format_tools_for_llm server_tools)
    = list_sum (map (fun kv => length (snd kv)) server_tools) /\
  (forall before server_name tools after i tool,
      server_tools = before ++ (server_name, tools) :: after ->
      nth_error tools i = Some tool ->
      nth_error (LLMManager._format_tools_for_llm server_tools)
                (list_sum (map (fun kv => length (snd kv)) before) + i)
      = Some (mkToolDict
                (server_name ++ "_" ++ tool_name tool)
                ("[" ++ server_name ++ "] " ++ str_opt (tool_description tool))
                (tool_inputSchema tool))) /\
  (forall entry,
      In entry (LLMManager._format_tools_for_llm server_tools) ->
      exists server_name tools tool,
        In (server_name, tools) server_tools /\ In tool tools /\
        td_name entry = (server_name ++ "_" ++ tool_name tool)%string /\
        td_description entry
          = ("[" ++ server_name ++ "] " ++ str_opt (tool_description tool))%string /\
        td_input_schema entry = tool_inputSchema tool) /\
  (forall st1 st2,
      LLMManager._format_tools_for_llm (st1 ++ st2) =
      LLMManager._format_tools_for_llm st1 ++ LLMManager._format_tools_for_llm st2) /\
  map fst (ConnectionManager.get_all_tools cm) = server_names cm /\
  map snd (ConnectionManager.get_all_tools cm) = map Client.available_tools (clients cm).
Proof.
  split; [apply catalog_length|]. split; [|split; [|split; [|split]]].
  - intros before server_name tools after i tool -> Hi.
    rewrite <- catalog_length. unfold LLMManager._format_tools_for_llm.
    rewrite flat_map_app. cbn [flat_map fst snd].
    rewrite nth_error_app2 by lia.
    replace (_ + i - _) with i by lia.
    rewrite nth_error_app1
      by (rewrite length_map; apply nth_error_Some; congruence).
    now rewrite nth_error_map, Hi.
  - unfold LLMManager._format_tools_for_llm.
    intros entry Hin. apply in_flat_map in Hin as ([name tools] & Hst & Hin).
    cbn [fst snd] in Hin. apply in_map_iff in Hin as (tool & <- & Htool).
    exists name, tools, tool. repeat split; assumption.
  - intros st1 st2. apply flat_map_app.
  - unfold ConnectionManager.get_all_tools, server_names. rewrite map_map.
    apply map_ext. reflexivity.
  - unfold ConnectionManager.get_all_tools, clients. rewrite !map_map.
    apply map_ext. reflexivity.
Qed.

(** The second entry of the catalog of the weather server is that of its
    second tool. *)
Lemma catalog_entries_witness :
  nth_error (LLMManager._format_tools_for_llm
               (ConnectionManager.get_all_tools Scenario.registry))
            (list_sum (map (fun kv : string * list Tool => length (snd kv)) []) + 1)
  = Some (mkToolDict ("weather" ++ "_" ++ tool_name Scenario.alerts)
            ("[" ++ "weather" ++ "] " ++ str_opt (tool_description Scenario.alerts))
            (tool_inputSchema Scenario.alerts)).
Proof.
  exact (proj1 (proj2 (catalog_entries
                         (ConnectionManager.get_all_tools Scenario.registry)
                         Scenario.registry))
           [] "weather" [Scenario.forecast; Scenario.alerts] [] 1 Scenario.alerts
           eq_refl eq_refl).
Defined.

(** X15: a server name with an underscore breaks the round trip of the keys.
    The key of any of its tools is split at the first underscore of the
    server name, so that a [tool_use] event under that key is dispatched to
    another server name, one without underscore; and the key is also the key
    of another server and tool. *)
Theorem composite_key_misroutes (server_name tool_name : string) :
  contains_char underscore server_name = true ->
  let key := (server_name ++ "_" ++ tool_name)%string in
  exists a b,
    unpack2 (split_1 key underscore) = Ok (a, b) /\
    a <> server_name /\
    contains_char underscore a = false /\
    key = (a ++ "_" ++ b)%string /\
    (forall E parameters rest f l,
        LLMManager.event_body E (tool_use (mkToolCall key parameters :: rest)) f l =
        LLMManager.dispatch E a b parameters f l).
Proof.
  intros Hus key.
  destruct (partition_first_some underscore server_name Hus) as (a & b & Hpart).
  pose proof (partition_first_app underscore server_name ("_" ++ tool_name) a b Hpart)
    as Hkey.
  fold key in Hkey.
  destruct (partition_first_inv underscore server_name a b Hpart) as [Heq Ha].
  exists a, (b ++ "_" ++ tool_name)%string.
  assert (Hsplit : unpack2 (split_1 key underscore)
                   = Ok (a, (b ++ "_" ++ tool_name)%string)).
  { unfold split_1. now rewrite Hkey. }
  split; [exact Hsplit|]. split; [|split; [exact Ha|split]].
  - intros ->. congruence.
  - unfold key. rewrite Heq at 1. rewrite append_assoc. reflexivity.
  - intros E parameters rest f l.
    cbn [LLMManager.event_body tc_name tc_parameters].
    unfold bind, of_res. now rewrite Hsplit.
Qed.

(** The tool "forecast" of a server named "my_weather". *)
Lemma composite_key_misroutes_witness :
  exists a b,
    unpack2 (split_1 "my_weather_forecast" underscore) = Ok (a, b) /\
    a <> "my_weather".
Proof.
  destruct (composite_key_misroutes "my_weather" "forecast" eq_refl)
    as (a & b & H1 & H2 & _).
  exists a, b. split; assumption.
Defined.

(** X16: between servers whose names have no underscore the keys do not
    clash: the key determines the server and the tool. *)
Theorem composite_key_injective (server1 tool1 server2 tool2 : string) :
  contains_char underscore server1 = false ->
  contains_char underscore server2 = false ->
  (server1 ++ "_" ++ tool1)%string = (server2 ++ "_" ++ tool2)%string ->
  server1 = server2 /\ tool1 = tool2.
Proof.
  intros H1 H2 Heq.
  pose proof (partition_first_append underscore server1 tool1 H1) as P1.
  pose proof (partition_first_append underscore server2 tool2 H2) as P2.
  change (String underscore tool1) with ("_" ++ tool1)%string in P1.
  change (String underscore tool2) with ("_" ++ tool2)%string in P2.
  rewrite Heq in P1. rewrite P1 in P2. injection P2 as -> ->. split; reflexivity.
Qed.

(** Two keys of the weather server. *)
Lemma composite_key_injective_witness :
  "weather" = "weather" /\ "forecast" = "forecast".
Proof.
  exact (composite_key_injective "weather" "forecast" "weather" "forecast"
           eq_refl eq_refl eq_refl).
Defined.

(** ** The event loop, beyond the claims *)

Lemma Dict_set_descriptors (k : string) (conn conn' : McpConnection.t)
      (d : Dict.t McpConnection.t) :
  Dict.get k d = Some conn ->
  McpConnection.server conn' = McpConnection.server conn ->
  map (fun kv => (fst kv, McpConnection.server (snd kv))) (Dict.set k conn' d)
  = map (fun kv => (fst kv, McpConnection.server (snd kv))) d.
Proof.
  intros Hget Hsrv. induction d as [|[k0 v0] d IH]; cbn in *; [discriminate|].
  destruct (String.eqb k0 k); cbn.
  - injection Hget as ->. now rewrite Hsrv.
  - now rewrite IH.
Qed.

Lemma on_client_descriptors {A} (server_name : string) (m : Py Client.t A)
      (cm : ConnectionManager.t) (l : Log) r cm' l' :
  ConnectionManager.on_client server_name m cm l = (r, cm', l') ->
  descriptors cm' = descriptors cm.
Proof.
  unfold ConnectionManager.on_client.
  destruct (Dict.get server_name (ConnectionManager.connections cm)) as [conn|] eqn:Hg.
  - destruct (m (McpConnection.client conn) l) as [[r0 c0] l0].
    intros H. injection H as _ <- _. unfold descriptors. cbn.
    eapply Dict_set_descriptors; [exact Hg|reflexivity].
  - intros H. now injection H as _ <- _.
Qed.

Lemma descriptors_names (cm : ConnectionManager.t) :
  map fst (descriptors cm) = server_names cm.
Proof. unfold descriptors, server_names. rewrite map_map. reflexivity. Qed.

Lemma event_body_descriptors (E : Env) (ev : StreamEvent) (f : LLMManager.Frame)
      (l : Log) r f' l' :
  LLMManager.event_body E ev f l = (r, f', l') ->
  descriptors (LLMManager.connection_manager f')
  = descriptors (LLMManager.connection_manager f).
Proof.
  destruct ev as [| |[text|k]| | |tcs|k]; cbn [LLMManager.event_body];
    rewrite ?flush_run; unfold ret, modify, raise;
    try (intros H; injection H as _ <- _; unfold flushed;
         try destruct (LLMManager.nonempty _); reflexivity).
  destruct tcs as [|tc rest]; [intros H; now injection H as _ <- _|].
  unfold bind, of_res.
  destruct (unpack2 _) as [[server_name tool_name]|e];
    [|intros H; now injection H as _ <- _].
  cbn [fst snd]. rewrite dispatch_run.
  destruct (LLMManager.invoke E server_name tool_name (tc_parameters tc) f l)
    as [[r0 f1] l1] eqn:Hinv.
  assert (Hd : descriptors (LLMManager.connection_manager f1)
               = descriptors (LLMManager.connection_manager f)).
  { revert Hinv. unfold LLMManager.invoke, zoom.
    destruct (ConnectionManager.on_client _ _ _ _) as [[r1 cm1] l2] eqn:Hoc.
    intros H. injection H as _ <- _. cbn.
    eapply on_client_descriptors. exact Hoc. }
  destruct r0 as [result|e].
  - cbv zeta.
    destruct (env_messages_create E _ _ None) as [[evs [err|]]|e];
      cbn [stream_error events]; intros H; injection H as _ <- _;
      unfold flushed; try destruct (LLMManager.nonempty _); exact Hd.
  - intros H. injection H as _ <- _. exact Hd.
Qed.

Lemma loop_descriptors (E : Env) (evs : list StreamEvent) (f : LLMManager.Frame)
      (l : Log) r f' l' :
  for_each (LLMManager.event_body E) evs f l = (r, f', l') ->
  descriptors (LLMManager.connection_manager f')
  = descriptors (LLMManager.connection_manager f).
Proof.
  revert f l. induction evs as [|ev evs IH]; intros f l; cbn [for_each].
  - intros H. now injection H as _ <- _.
  - unfold bind.
    destruct (LLMManager.event_body E ev f l) as [[[[]|e] f1] l1] eqn:Hev.
    + intros H. rewrite (IH _ _ H). eapply event_body_descriptors; exact Hev.
    + intros H. injection H as _ <- _. eapply event_body_descriptors; exact Hev.
Qed.

Lemma process_query_descriptors
      (E : Env) (query : string) (cm : ConnectionManager.t) (l : Log)
      (r : res string) (cm' : ConnectionManager.t) (l' : Log) :
  LLMManager.process_query E query cm l = (r, cm', l') ->
  descriptors cm' = descriptors cm.
Proof.
  intros Hrun.
  revert Hrun. unfold LLMManager.process_query, LLMManager.query_body.
    cbv beta iota zeta delta [bind modify get].
    cbn [LLMManager.connection_manager LLMManager.set_messages LLMManager.messages
         LLMManager.tool_results LLMManager.final_text LLMManager.current_text].
    match goal with
    | |- context [LLMManager.create E ?t ?f0 ?l0] =>
        destruct (LLMManager.create E t f0 l0) as [[[stream|e] f1] l1] eqn:Hcreate
    end.
    2:{ revert Hcreate. unfold LLMManager.create, bind, get, history, emit, of_res.
        destruct (env_messages_create E _ _ _); intros H1 H2;
          injection H1 as _ <- _; now injection H2 as _ <- _. }
    assert (Hf1 : LLMManager.connection_manager f1 = cm).
    { revert Hcreate. unfold LLMManager.create, bind, get, history, emit, of_res.
      destruct (env_messages_create E _ _ _); intros H1;
        now injection H1 as _ <- _. }
    destruct (for_each (LLMManager.event_body E) (events stream) f1 l1)
      as [[r2 f2] l2] eqn:Hloop.
    apply loop_descriptors in Hloop. rewrite Hf1 in Hloop.
    destruct r2 as [[]|e]; [|intros H; now injection H as _ <- _].
    unfold of_failure. destruct (stream_error stream); unfold raise, ret;
      intros H; now injection H as _ <- _.
Qed.

(** X17: a query never changes which servers are registered: after
    [process_query], whatever its outcome, the registry holds the same server
    names with the same launch descriptions, in the same order. *)
Theorem process_query_keeps_servers
        (E : Env) (query : string) (cm : ConnectionManager.t) (l : Log)
        (r : res string) (cm' : ConnectionManager.t) (l' : Log) :
  LLMManager.process_query E query cm l = (r, cm', l') ->
  descriptors cm' = descriptors cm /\
  server_names cm' = server_names cm.
Proof.
  intros Hrun.
  pose proof (process_query_descriptors _ _ _ _ _ _ _ Hrun) as Hd.
  split; [exact Hd|]. now rewrite <- !descriptors_names, Hd.
Qed.

(** The query of the weather scenario. *)
Lemma process_query_keeps_servers_witness :
  server_names Scenario.registry = server_names Scenario.registry.
Proof.
  exact (proj2 (process_query_keeps_servers Scenario.healthy "Boston?"
                  Scenario.registry Scenario.started_log _ _ _
                  Scenario_query)).
Defined.

Lemma unpack2_split_1_raise (name : string) (e : Exc) :
  unpack2 (split_1 name underscore) = Raise e ->
  contains_char underscore name = false /\
  e = mkExc ValueError "not enough values to unpack (expected 2, got 1)".
Proof.
  unfold split_1.
  destruct (partition_first underscore name) as [[a b]|] eqn:Hp; cbn;
    [discriminate|].
  intros H. injection H as <-. split; [|reflexivity].
  destruct (contains_char underscore name) eqn:Hc; [|reflexivity].
  destruct (partition_first_some underscore name Hc) as (a & b & Hab). congruence.
Qed.

(** What can stop the loop over the events of a stream. *)
Lemma loop_raise (E : Env) (evs : list StreamEvent) (f : LLMManager.Frame) (l : Log)
      (e : Exc) f' l' :
  for_each (LLMManager.event_body E) evs f l = (Raise e, f', l') ->
  exists tool_calls,
    In (tool_use tool_calls) evs /\
    match tool_calls with
    | [] => e = mkExc IndexError "list index out of range"
    | tool_call :: _ =>
        contains_char underscore (tc_name tool_call) = false /\
        e = mkExc ValueError "not enough values to unpack (expected 2, got 1)"
    end.
Proof.
  revert f l. induction evs as [|ev evs IH]; intros f l; cbn [for_each].
  - discriminate.
  - unfold bind.
    destruct (LLMManager.event_body E ev f l) as [[[[]|e0] f1] l1] eqn:Hev.
    + intros H. destruct (IH _ _ H) as (tcs & Hin & Htcs).
      exists tcs. split; [right; exact Hin|exact Htcs].
    + intros H. injection H as <- _ _.
      destruct ev as [| |[text|k]| | |tcs|k]; cbn [LLMManager.event_body] in Hev;
        rewrite ?flush_run in Hev; try discriminate Hev.
      exists tcs. split; [left; reflexivity|].
      destruct tcs as [|tc rest].
      * now injection Hev as <- _ _.
      * unfold bind, of_res in Hev.
        destruct (unpack2 (split_1 (tc_name tc) underscore))
          as [[server_name tool_name]|e1] eqn:Hsplit.
        -- cbn [fst snd] in Hev.
           destruct (dispatch_sent E server_name tool_name (tc_parameters tc) f l)
             as (f2 & sent & Hrun & _).
           rewrite Hrun in Hev. discriminate Hev.
        -- injection Hev as <- _ _. apply unpack2_split_1_raise. exact Hsplit.
Qed.

(** X18: a query is ended by an exception in three cases only: the first
    request to the model fails, the first stream breaks off with an error,
    or a [tool_use] event of the first stream is malformed, with an empty
    list of calls or a name without underscore.  No failure of a tool, of a
    server or of a continuation ends the query. *)
Theorem process_query_raises_only
        (E : Env) (query : string) (cm : ConnectionManager.t) (l : Log)
        (e : Exc) (cm' : ConnectionManager.t) (l' : Log) :
  LLMManager.process_query E query cm l = (Raise e, cm', l') ->
  let tools := Some (LLMManager._format_tools_for_llm
                       (ConnectionManager.get_all_tools cm)) in
  match env_messages_create E l [mkMessage user query] tools with
  | Raise e0 => e = e0
  | Ok stream =>
      stream_error stream = Some e \/
      exists tool_calls,
        In (tool_use tool_calls) (events stream) /\
        match tool_calls with
        | [] => e = mkExc IndexError "list index out of range"
        | tool_call :: _ =>
            contains_char underscore (tc_name tool_call) = false /\
            e = mkExc ValueError "not enough values to unpack (expected 2, got 1)"
        end
  end.
Proof.
  unfold LLMManager.process_query, LLMManager.query_body.
  cbv beta iota zeta delta [bind modify get LLMManager.create history emit of_res].
  cbn [LLMManager.connection_manager LLMManager.set_messages LLMManager.messages
       LLMManager.tool_results LLMManager.final_text LLMManager.current_text].
  destruct (env_messages_create E l [mkMessage user query] _) as [stream|e0].
  2:{ intros H. now injection H as <- _ _. }
  match goal with
  | |- context [for_each (LLMManager.event_body E) ?evs ?f0 ?l0] =>
      destruct (for_each (LLMManager.event_body E) evs f0 l0)
        as [[[[]|e1] f1] l1] eqn:Hloop
  end.
  - unfold of_failure. destruct (stream_error stream) as [e2|]; unfold raise, ret.
    + intros H. injection H as <- _ _. left. reflexivity.
    + discriminate.
  - intros H. injection H as <- _ _. right. eapply loop_raise. exact Hloop.
Qed.

(** A model whose first answer names a tool without server. *)
Lemma process_query_raises_only_witness :
  let E := mkEnv [] (fun _ => None) (fun _ => None) (fun _ => None)
                 (fun _ => Ok []) (fun _ => Ok Scenario.sunny)
                 (fun _ _ _ => Ok (mkStream [tool_use [mkToolCall "forecast" Scenario.boston]]
                                            None)) in
  exists tool_calls,
    In (tool_use tool_calls) [tool_use [mkToolCall "forecast" Scenario.boston]].
Proof.
  intros E.
  destruct (process_query_raises_only E "Boston?" Scenario.registry
              Scenario.started_log
              (mkExc ValueError "not enough values to unpack (expected 2, got 1)")
              Scenario.registry
              (Scenario.started_log
                 ++ [messages_create [mkMessage user "Boston?"]
                       (Some (LLMManager._format_tools_for_llm
                                (ConnectionManager.get_all_tools Scenario.registry)))
                       (Ok (mkStream [tool_use [mkToolCall "forecast" Scenario.boston]]
                                     None))])
              eq_refl) as [H|H].
  - discriminate H.
  - destruct H as (tool_calls & Hin & _). exists tool_calls. exact Hin.
Defined.

Lemma segments_loop (E : Env) (evs : list StreamEvent) (f : LLMManager.Frame) (l : Log) :
  count_tool_use evs = 0 ->
  for_each (LLMManager.event_body E) evs f l =
  (Ok tt,
   LLMManager.set_current_text
     (snd (segments (LLMManager.current_text f) evs))
     (LLMManager.set_final_text
        (LLMManager.final_text f ++ fst (segments (LLMManager.current_text f) evs)) f),
   l).
Proof.
  revert f. induction evs as [|ev evs IH]; intros f Hno; cbn [for_each segments].
  - unfold ret. destruct f. cbn. now rewrite app_nil_r.
  - assert (Hrest : count_tool_use evs = 0).
    { unfold count_tool_use in *. cbn in Hno. destruct (is_tool_use ev);
        [discriminate Hno|exact Hno]. }
    unfold bind.
    destruct ev as [| |[text|k]| | |tcs|k]; cbn [LLMManager.event_body];
      rewrite ?flush_run; unfold ret, modify;
      try (rewrite (IH _ Hrest); destruct f; reflexivity).
    + rewrite (IH _ Hrest). unfold flushed. destruct f as [cm ms rs ft [|a ct]];
        cbn; [reflexivity|]. now rewrite <- app_assoc.
    + rewrite (IH _ Hrest). unfold flushed. destruct f as [cm ms rs ft [|a ct]];
        cbn; [reflexivity|]. now rewrite <- app_assoc.
    + discriminate Hno.
Qed.

Lemma segments_without_stop (buffer : string) (evs : list StreamEvent) :
  forallb (fun ev => negb (is_stop ev)) evs = true ->
  fst (segments buffer evs) = [].
Proof.
  revert buffer. induction evs as [|ev evs IH]; intros buffer H; [reflexivity|].
  cbn in H. apply andb_true_iff in H as [Hev Hrest].
  destruct ev as [| |[text|k]| | |tcs|k]; cbn [segments is_stop negb] in *;
    try discriminate Hev; apply IH; exact Hrest.
Qed.

(** X19: when the first stream carries no [tool_use] event and ends without
    error, the query sends nothing but its one request to the model and
    leaves the registry untouched; it returns the text deltas cut into
    segments at every [content_block_stop] and [message_stop] and joined by
    line feeds.  Text that no such event follows is not returned: a stream
    without any of them gives the empty string. *)
Theorem process_query_without_tool_use
        (E : Env) (query : string) (cm : ConnectionManager.t) (l : Log)
        (stream : Stream) :
  let tools := Some (LLMManager._format_tools_for_llm
                       (ConnectionManager.get_all_tools cm)) in
  env_messages_create E l [mkMessage user query] tools = Ok stream ->
  count_tool_use (events stream) = 0 ->
  stream_error stream = None ->
  LLMManager.process_query E query cm l =
    (Ok (String.concat nl (fst (segments "" (events stream)))), cm,
     l ++ [messages_create [mkMessage user query] tools (Ok stream)]) /\
  (forallb (fun ev => negb (is_stop ev)) (events stream) = true ->
   LLMManager.process_query E query cm l =
     (Ok "", cm, l ++ [messages_create [mkMessage user query] tools (Ok stream)])).
Proof.
  intros tools Hcreate Hno Herr.
  assert (Hrun : LLMManager.process_query E query cm l =
                 (Ok (String.concat nl (fst (segments "" (events stream)))), cm,
                  l ++ [messages_create [mkMessage user query] tools (Ok stream)])).
  { unfold LLMManager.process_query, LLMManager.query_body.
    cbv beta iota zeta delta [bind modify get LLMManager.create history emit of_res].
    cbn [LLMManager.connection_manager LLMManager.set_messages LLMManager.messages
         LLMManager.tool_results LLMManager.final_text LLMManager.current_text].
    fold tools. rewrite Hcreate.
    rewrite segments_loop by exact Hno. rewrite Herr. reflexivity. }
  split; [exact Hrun|].
  intros Hstop. rewrite Hrun. now rewrite segments_without_stop.
Qed.

(** A model that answers "Sun" and "ny." in one block, then "Bye" without
    closing the block. *)
Lemma process_query_without_tool_use_witness :
  let stream := mkStream [message_start; content_block_start;
                          content_block_delta (text_delta "Sun");
                          content_block_delta (text_delta "ny.");
                          content_block_stop;
                          content_block_delta (text_delta "Bye")] None in
  let E := mkEnv [] (fun _ => None) (fun _ => None) (fun _ => None)
                 (fun _ => Ok []) (fun _ => Ok Scenario.sunny)
                 (fun _ _ _ => Ok stream) in
  fst (fst (LLMManager.process_query E "Boston?" Scenario.registry Scenario.started_log))
  = Ok "Sunny.".
Proof.
  intros stream E.
  rewrite (proj1 (process_query_without_tool_use E "Boston?" Scenario.registry
                    Scenario.started_log stream eq_refl eq_refl eq_refl)).
  reflexivity.
Defined.

(** X20: when the tool has answered but the request for the continuation is
    refused, the query goes on: the failure of the model is put out as
    "Error calling <server>.<tool>: <message>" after the annotation of the
    call, the turns of the call stay in the turn sequence, and the buffer is
    left as it was. *)
Theorem continuation_failure_is_annotated
        (E : Env) (server_name tool_name : string) (parameters : PyObj)
        (f : LLMManager.Frame) (l : Log)
        (result : CallToolResult) (f1 : LLMManager.Frame) (l1 : Log) (e : Exc) :
  LLMManager.invoke E server_name tool_name parameters f l = (Ok result, f1, l1) ->
  env_messages_create E l1 (LLMManager.messages f ++ turns_after f result) None
    = Raise e ->
  exists f',
    LLMManager.dispatch E server_name tool_name parameters f l =
      (Ok tt, f',
       l1 ++ [messages_create (LLMManager.messages f ++ turns_after f result) None
                (Raise e)]) /\
    LLMManager.final_text f' =
      LLMManager.final_text f
        ++ [LLMManager.called_text server_name tool_name parameters;
            LLMManager.error_msg server_name tool_name e] /\
    LLMManager.messages f' = LLMManager.messages f ++ turns_after f result /\
    LLMManager.current_text f' = LLMManager.current_text f.
Proof.
  intros Hinv Hcreate.
  pose proof (invoke_frame _ _ _ _ _ _ _ _ _ Hinv) as Hf.
  rewrite dispatch_run, Hinv. cbv zeta.
  assert (Hturns : LLMManager.messages
                     (frame_after f1 server_name tool_name parameters result)
                   = LLMManager.messages f ++ turns_after f result).
  { rewrite Hf. reflexivity. }
  rewrite Hturns, Hcreate. eexists. split; [reflexivity|].
  rewrite Hf. unfold annotated, frame_after. cbn.
  rewrite <- app_assoc. repeat split.
Qed.

(** The forecast is given, and the model is overloaded. *)
Lemma continuation_failure_is_annotated_witness :
  exists f',
    LLMManager.dispatch Scenario4.overloaded_once "weather" "forecast" Scenario.boston
      Scenario3.frame_A
      (Scenario.started_log
         ++ [messages_create [mkMessage user "Boston?"] (Some [])
               (Ok Scenario4.first_stream)]) =
      (Ok tt, f',
       (Scenario.started_log
          ++ [messages_create [mkMessage user "Boston?"] (Some [])
                (Ok Scenario4.first_stream)]
          ++ [session_call_tool 1 "forecast" Scenario.boston])
         ++ [messages_create
               (LLMManager.messages Scenario3.frame_A
                  ++ turns_after Scenario3.frame_A Scenario.sunny)
               None (Raise Scenario4.overloaded)]) /\
    LLMManager.final_text f' =
      [] ++ [LLMManager.called_text "weather" "forecast" Scenario.boston;
             LLMManager.error_msg "weather" "forecast" Scenario4.overloaded].
Proof.
  destruct (continuation_failure_is_annotated Scenario4.overloaded_once
              "weather" "forecast" Scenario.boston Scenario3.frame_A
              (Scenario.started_log
                 ++ [messages_create [mkMessage user "Boston?"] (Some [])
                       (Ok Scenario4.first_stream)])
              Scenario.sunny Scenario3.frame_A
              (Scenario.started_log
                 ++ [messages_create [mkMessage user "Boston?"] (Some [])
                       (Ok Scenario4.first_stream)]
                 ++ [session_call_tool 1 "forecast" Scenario.boston])
              Scenario4.overloaded eq_refl eq_refl)
    as (f' & H1 & H2 & _).
  exists f'. split; assumption.
Defined.

(** X21: a [tool_use] event for a server that is not registered is answered
    on the spot: "Error calling <server>.<tool>: Connection to <server> does
    not exist" is put out, nothing is sent to any server or to the model, and
    the loop goes on. *)
Theorem unknown_server_is_annotated
        (E : Env) (tool_call : ToolCall) (rest : list ToolCall)
        (server_name tool_name : string) (f : LLMManager.Frame) (l : Log) :
  unpack2 (split_1 (tc_name tool_call) underscore) = Ok (server_name, tool_name) ->
  Dict.get server_name
           (ConnectionManager.connections (LLMManager.connection_manager f)) = None ->
  LLMManager.event_body E (tool_use (tool_call :: rest)) f l =
    (Ok tt,
     LLMManager.set_final_text
       (LLMManager.final_text f
          ++ [(nl ++ "Error calling " ++ server_name ++ "." ++ tool_name
                  ++ ": Connection to " ++ server_name ++ " does not exist")%string])
       f,
     l).
Proof.
  intros Hsplit Hnone. cbn [LLMManager.event_body]. unfold bind, of_res.
  rewrite Hsplit. cbn [fst snd]. rewrite dispatch_run.
  unfold LLMManager.invoke, zoom, ConnectionManager.on_client. rewrite Hnone.
  unfold annotated. destruct f as [[conns] ms rs ft ct]. reflexivity.
Qed.

(** The model asks for the headlines of a news server. *)
Lemma unknown_server_is_annotated_witness :
  LLMManager.event_body Scenario.healthy
    (tool_use [mkToolCall "news_headlines" Scenario.boston])
    Scenario3.frame_A Scenario.started_log =
    (Ok tt,
     LLMManager.set_final_text
       ([] ++ [(nl ++ "Error calling " ++ "news" ++ "." ++ "headlines"
                   ++ ": Connection to " ++ "news" ++ " does not exist")%string])
       Scenario3.frame_A,
     Scenario.started_log).
Proof.
  exact (unknown_server_is_annotated Scenario.healthy
           (mkToolCall "news_headlines" Scenario.boston) [] "news" "headlines"
           Scenario3.frame_A Scenario.started_log eq_refl eq_refl).
Defined.

(** ** The command line *)

Lemma parse_env_run (env : Dict.t string) (rest : list string) :
  exists env' rest',
    Main.parse_env env rest = Ok (env', rest') /\
    length rest' <= length rest /\
    match rest' with
    | [] => True
    | arg :: _ => contains_char Main.equals_sign arg = false
    end.
Proof.
  revert env. induction rest as [|arg rest IH]; intros env; cbn [Main.parse_env].
  - exists env, []. repeat split. apply Nat.le_refl.
  - destruct (contains_char Main.equals_sign arg) eqn:Hc.
    + destruct (partition_first_some _ _ Hc) as (key & value & Hp).
      unfold split_1. rewrite Hp. cbn [unpack2].
      destruct (IH (Dict.set key value env)) as (env' & rest' & -> & Hlen & Hhd).
      exists env', rest'. repeat split; [|exact Hhd]. cbn [length]. lia.
    + exists env, (arg :: rest). repeat split; [apply Nat.le_refl|exact Hc].
Qed.

(** Turns that are left over do not change what is parsed. *)
Lemma parse_configs_fuel (fuel fuel' : nat) (default : Dict.t string)
      (rest : list string) :
  length rest <= fuel -> length rest <= fuel' ->
  Main.parse_configs fuel default rest = Main.parse_configs fuel' default rest.
Proof.
  revert fuel' rest. induction fuel as [|fuel IH]; intros fuel' rest H H'.
  - destruct rest; [|cbn in H; lia]. destruct fuel'; reflexivity.
  - destruct fuel' as [|fuel'].
    + destruct rest; [reflexivity|cbn in H'; lia].
    + cbn [Main.parse_configs]. destruct rest as [|server_name [|script_path rest]];
        try reflexivity.
      destruct (parse_env_run default rest) as (env & rest' & -> & Hlen & _).
      cbn [length] in H, H'. rewrite (IH fuel' rest') by lia. reflexivity.
Qed.

Lemma parse_configs_run (fuel : nat) (default : Dict.t string) (rest : list string) :
  exists configs, Main.parse_configs fuel default rest = Ok configs.
Proof.
  revert rest. induction fuel as [|fuel IH]; intros rest; cbn [Main.parse_configs];
    [eauto|].
  destruct rest as [|server_name [|script_path rest]]; eauto.
  destruct (parse_env_run default rest) as (env & rest' & -> & _).
  destruct (IH rest') as (configs & ->). eauto.
Qed.

Lemma parse_env_assignments (vars : list (string * string)) (env : Dict.t string)
      (rest : list string) :
  Forall (fun kv => contains_char Main.equals_sign (fst kv) = false) vars ->
  match rest with
  | [] => True
  | arg :: _ => contains_char Main.equals_sign arg = false
  end ->
  Main.parse_env env (map assignment vars ++ rest) =
    Ok (fold_left (fun env kv => Dict.set (fst kv) (snd kv) env) vars env, rest).
Proof.
  intros Hvars Hrest. revert env.
  induction Hvars as [|[key value] vars Hkey _ IH]; intros env; cbn [map app fold_left].
  - destruct rest as [|arg rest]; cbn [Main.parse_env]; [reflexivity|].
    now rewrite Hrest.
  - cbn [Main.parse_env]. unfold assignment at 1 2. cbn [fst snd] in *.
    assert (Hc : contains_char Main.equals_sign
                   (key ++ String Main.equals_sign value) = true).
    { clear. induction key as [|c key IH]; cbn.
      - reflexivity.
      - rewrite IH. apply orb_true_r. }
    rewrite Hc. unfold split_1. rewrite (partition_first_append _ _ _ Hkey).
    cbn [unpack2]. apply IH.
Qed.

Lemma parse_configs_cons (fuel : nat) (default : Dict.t string)
      (server_name script_path : string) (rest : list string)
      (env : Dict.t string) (rest' : list string) :
  Main.parse_env default rest = Ok (env, rest') ->
  Main.parse_configs (S fuel) default (server_name :: script_path :: rest) =
    match Main.parse_configs fuel default rest' with
    | Raise e => Raise e
    | Ok configs => Ok ((server_name, script_path, env) :: configs)
    end.
Proof.
  intros H. cbn [Main.parse_configs]. now rewrite H.
Qed.

(** X22: the command line is parsed without error, whatever it holds: an
    argument is split at [=] only when it has one.  A server name and a
    script path, followed by assignments [KEY=value] whose keys have no [=],
    give one configuration, with the default environment updated by the
    assignments in their order, a later one replacing an earlier one of the
    same key; what follows is parsed in the same way.  A last argument left
    alone is dropped. *)
Theorem server_configs_parse (E : Env) (program : string) :
  (forall argv, exists configs, Main.server_configs E argv = Ok configs) /\
  (forall server_name script_path vars rest,
      Forall (fun kv => contains_char Main.equals_sign (fst kv) = false) vars ->
      match rest with
      | [] => True
      | arg :: _ => contains_char Main.equals_sign arg = false
      end ->
      exists configs,
        Main.server_configs E (program :: rest) = Ok configs /\
        Main.server_configs E
          (program :: server_name :: script_path :: map assignment vars ++ rest) =
        Ok ((server_name, script_path,
             fold_left (fun env kv => Dict.set (fst kv) (snd kv) env) vars
                       (get_default_environment E)) :: configs)) /\
  (forall alone, Main.server_configs E [program; alone] = Ok []).
Proof.
  split; [|split].
  - intros argv. apply parse_configs_run.
  - intros server_name script_path vars rest Hvars Hrest.
    destruct (parse_configs_run (length (program :: rest)) (get_default_environment E)
                rest) as (configs & Hconfigs).
    exists configs. split; [exact Hconfigs|].
    unfold Main.server_configs. cbn [tl length].
    rewrite (parse_configs_cons _ _ _ _ _ _ _
               (parse_env_assignments vars _ rest Hvars Hrest)).
    rewrite (parse_configs_fuel _ (length (program :: rest))), Hconfigs;
      [reflexivity| |]; rewrite ?length_app; cbn [length]; lia.
  - reflexivity.
Qed.

(** Two servers, the first with a token given twice, and an argument left
    over. *)
Lemma server_configs_parse_witness :
  Main.server_configs Scenario.healthy
    ("client.py" :: "weather" :: "server.py"
       :: map assignment [("TOKEN", "a=b"); ("TOKEN", "c")]
       ++ ["news"; "news.js"; "alone"]) =
  Ok [("weather", "server.py", [("PATH", "/usr/bin"); ("TOKEN", "c")]);
      ("news", "news.js", [("PATH", "/usr/bin")])].
Proof.
  destruct (proj1 (proj2 (server_configs_parse Scenario.healthy "client.py"))
              "weather" "server.py" [("TOKEN", "a=b"); ("TOKEN", "c")]
              ["news"; "news.js"; "alone"])
    as (configs & Hrest & Hrun).
  - repeat constructor.
  - reflexivity.
  - rewrite Hrun. vm_compute in Hrest. injection Hrest as <-. reflexivity.
Defined.

(** ** The chat loop and [main] *)

Lemma add_connection_nodup (E : Env) (server_name command : string)
      (args : list string) (env : option (list (string * string)))
      (cm : ConnectionManager.t) (l : Log) r cm' l' :
  ConnectionManager.add_connection E server_name command args env cm l = (r, cm', l') ->
  NoDup (server_names cm) -> NoDup (server_names cm').
Proof.
  unfold ConnectionManager.add_connection. unfold bind at 1, get.
  destruct (Dict.contains server_name (ConnectionManager.connections cm)) eqn:Hin.
  - unfold raise. intros H. now injection H as _ <- _.
  - unfold bind, ConnectionManager.on_new.
    destruct (Client.start E _ l) as [[[[]|e] c1] l1].
    + unfold modify. intros H Hnd. injection H as _ <- _.
      assert (Hnone : Dict.get server_name (ConnectionManager.connections cm) = None).
      { unfold Dict.contains in Hin.
        destruct (Dict.get server_name (ConnectionManager.connections cm));
          [discriminate|reflexivity]. }
      unfold server_names in *. cbn [ConnectionManager.connections].
      rewrite Dict_set_keys_absent by exact Hnone. rewrite map_app. cbn [map fst].
      apply NoDup_app; [exact Hnd|repeat constructor; intros []|].
      intros k Hk [<-|[]]. apply Dict_get_In in Hk. congruence.
    + intros H. now injection H as _ <- _.
Qed.

Lemma add_server_nodup (E : Env) (server_name script_path : string)
      (env : option (list (string * string))) (h : Host.t) (l : Log) r h' l' :
  Host.add_server E server_name script_path env h l = (r, h', l') ->
  Host.printed h' = Host.printed h /\
  (NoDup (server_names (Host.connection_manager h)) ->
   NoDup (server_names (Host.connection_manager h'))).
Proof.
  unfold Host.add_server, Host.on_connection_manager, zoom.
  destruct (endswith script_path ".py"); [|destruct (endswith script_path ".js")];
    match goal with
    | |- context [ConnectionManager.add_connection E ?n ?c ?a ?e ?cm ?l] =>
        destruct (ConnectionManager.add_connection E n c a e cm l)
          as [[r1 cm1] l1] eqn:Hadd
    end;
    intros H; injection H as _ <- _; cbn [Host.printed Host.connection_manager];
    (split; [reflexivity|]); eapply add_connection_nodup; exact Hadd.
Qed.

Lemma connect_all_nodup (E : Env) (configs : list Main.ServerConfig)
      (h : Host.t) (l : Log) r h' l' :
  Main.connect_all E configs h l = (r, h', l') ->
  Host.printed h' = Host.printed h /\
  (NoDup (server_names (Host.connection_manager h)) ->
   NoDup (server_names (Host.connection_manager h'))).
Proof.
  unfold Main.connect_all.
  set (body := fun config : Main.ServerConfig =>
                 let '(server_name, script_path, env) := config in
                 Host.add_server E server_name script_path (Some env)).
  revert h l. induction configs as [|[[server_name script_path] env] configs IH];
    intros h l; cbn [for_each].
  - unfold ret. intros H. injection H as _ <- _. tauto.
  - unfold bind. unfold body at 1.
    destruct (Host.add_server E server_name script_path (Some env) h l)
      as [[[[]|e] h1] l1] eqn:Hadd;
      apply add_server_nodup in Hadd as [Hp Hnd].
    + intros H. apply IH in H as [Hp' Hnd']. split; [congruence|tauto].
    + intros H. injection H as _ <- _. tauto.
Qed.

Lemma chat_round_run (E : Env) (line : res string) (h : Host.t) (l : Log) :
  exists h' l',
    Host.chat_round E line h l = (Ok (negb (is_quit line)), h', l') /\
    server_names (Host.connection_manager h')
    = server_names (Host.connection_manager h).
Proof.
  unfold Host.chat_round, try_except, bind, of_res, is_quit.
  destruct line as [typed|e].
  - destruct (String.eqb (lower (strip typed)) "quit"); [unfold ret; eauto|].
    unfold Host.on_connection_manager, zoom.
    destruct (LLMManager.process_query E (strip typed) (Host.connection_manager h) l)
      as [[[response|e] cm'] l'] eqn:Hq;
      apply process_query_descriptors in Hq;
      unfold Host.print, modify, ret; do 2 eexists; (split; [reflexivity|]);
      cbn [Host.connection_manager]; now rewrite <- !descriptors_names, Hq.
  - unfold Host.print, modify, ret. eauto.
Qed.

Lemma chat_rounds_run (E : Env) (console : list (res string)) (h : Host.t) (l : Log) :
  exists h' l',
    Host.chat_rounds E console h l = (Ok (existsb is_quit console), h', l') /\
    server_names (Host.connection_manager h')
    = server_names (Host.connection_manager h).
Proof.
  revert h l. induction console as [|line console IH]; intros h l;
    cbn [Host.chat_rounds existsb].
  - unfold ret. eauto.
  - unfold bind. destruct (chat_round_run E line h l) as (h1 & l1 & -> & Hn).
    destruct (is_quit line); cbn [negb orb].
    + unfold ret. eauto.
    + destruct (IH h1 l1) as (h2 & l2 & -> & Hn'). do 2 eexists.
      split; [reflexivity|congruence].
Qed.

Lemma chat_rounds_quit (E : Env) (before after : list (res string))
      (line : res string) (h : Host.t) (l : Log) :
  is_quit line = true ->
  Host.chat_rounds E (before ++ line :: after) h l
  = Host.chat_rounds E (before ++ [line]) h l.
Proof.
  intros Hquit. revert h l. induction before as [|first before IH]; intros h l;
    cbn [app Host.chat_rounds]; unfold bind.
  - destruct (chat_round_run E line h l) as (h1 & l1 & -> & _).
    now rewrite Hquit.
  - destruct (Host.chat_round E first h l) as [[[[]|e] h1] l1]; auto.
Qed.

(** X23: no exception leaves [chat_loop], and the loop does not change which
    servers are registered.  It is left at the first line that is [quit]
    once stripped and put in lower case, and only there; the lines after it
    are not read. *)
Theorem chat_loop_outcome (E : Env) (console : list (res string))
        (h : Host.t) (l : Log) :
  (exists h' l',
      Host.chat_loop E console h l = (Ok (existsb is_quit console), h', l') /\
      server_names (Host.connection_manager h')
      = server_names (Host.connection_manager h)) /\
  (forall before line after,
      console = before ++ line :: after ->
      is_quit line = true ->
      Host.chat_loop E console h l = Host.chat_loop E (before ++ [line]) h l).
Proof.
  split.
  - unfold Host.chat_loop, bind, Host.print, modify.
    match goal with
    | |- context [Host.chat_rounds E console ?h1 l] =>
        destruct (chat_rounds_run E console h1 l) as (h' & l' & -> & Hn)
    end.
    eauto.
  - intros before line after -> Hquit.
    unfold Host.chat_loop, bind, Host.print, modify.
    now rewrite chat_rounds_quit.
Qed.

(** X24: what a turn of the chat loop raises is printed and the loop goes
    on: when the query raises, "Error: <message>" is printed after a line
    feed and the next line is read, with the registry as the query left it;
    and a console that only raises, as a closed one does, gives one such
    line for every attempt to read and never ends the loop. *)
Theorem chat_loop_reports_errors (E : Env) (h : Host.t) (l : Log) :
  (forall typed console e cm' l',
      is_quit (Ok typed) = false ->
      LLMManager.process_query E (strip typed) (Host.connection_manager h) l
        = (Raise e, cm', l') ->
      Host.chat_rounds E (Ok typed :: console) h l =
      Host.chat_rounds E console
        (Host.mk cm' (Host.printed h ++ [error_line e])) l') /\
  (forall e n,
      Host.chat_rounds E (repeat (Raise e) n) h l =
      (Ok false,
       Host.mk (Host.connection_manager h)
               (Host.printed h ++ repeat (error_line e) n),
       l)).
Proof.
  split.
  - intros typed console e cm' l' Hquit Hq. cbn [Host.chat_rounds].
    unfold bind at 1. unfold Host.chat_round, try_except, bind, of_res.
    cbn [is_quit] in Hquit. rewrite Hquit.
    unfold Host.on_connection_manager, zoom. rewrite Hq. reflexivity.
  - intros e n. revert h. induction n as [|n IH]; intros h; cbn [repeat Host.chat_rounds].
    + unfold ret. destruct h. cbn. now rewrite app_nil_r.
    + unfold bind at 1. unfold Host.chat_round, try_except, bind, of_res,
        Host.print, modify, ret.
      rewrite IH. cbn [Host.connection_manager Host.printed].
      now rewrite <- app_assoc.
Qed.

(** The model is overloaded when asked. *)
Lemma chat_loop_reports_errors_witness :
  let E := mkEnv [] (fun _ => None) (fun _ => None) (fun _ => None)
                 (fun _ => Ok []) (fun _ => Ok Scenario.sunny)
                 (fun _ _ _ => Raise Scenario4.overloaded) in
  Host.chat_rounds E [Ok "Boston?"; Ok "quit"]
    (Host.mk Scenario.registry []) Scenario.started_log =
  Host.chat_rounds E [Ok "quit"]
    (Host.mk Scenario.registry ([] ++ [error_line Scenario4.overloaded]))
    (Scenario.started_log
       ++ [messages_create [mkMessage user "Boston?"]
             (Some (LLMManager._format_tools_for_llm
                      (ConnectionManager.get_all_tools Scenario.registry)))
             (Raise Scenario4.overloaded)]).
Proof.
  intros E.
  apply (proj1 (chat_loop_reports_errors E
                  (Host.mk Scenario.registry []) Scenario.started_log)).
  - reflexivity.
  - vm_compute. reflexivity.
Defined.

(** A question, then QUIT, then a line that is not read. *)
Lemma chat_loop_outcome_witness :
  Host.chat_loop Scenario.healthy [Ok "Boston?"; Ok " QUIT "; Ok "Paris?"]
    Host.__init__ [] =
  Host.chat_loop Scenario.healthy ([Ok "Boston?"] ++ [Ok " QUIT "]) Host.__init__ [].
Proof.
  apply (proj2 (chat_loop_outcome Scenario.healthy
                  [Ok "Boston?"; Ok " QUIT "; Ok "Paris?"] Host.__init__ [])
           [Ok "Boston?"] (Ok " QUIT ") [Ok "Paris?"]); reflexivity.
Defined.

Lemma Host_cleanup_run (h : Host.t) (l : Log) :
  NoDup (server_names (Host.connection_manager h)) ->
  Host.cleanup h l =
    (Ok tt, Host.mk ConnectionManager.__init__ (Host.printed h),
     l ++ concat (map cleanup_effects (clients (Host.connection_manager h)))).
Proof.
  intros Hnd. unfold Host.cleanup, Host.on_connection_manager, zoom.
  unfold ConnectionManager.cleanup, bind at 1, get. unfold bind at 1.
  destruct (cleanup_loop_run (ConnectionManager.connections (Host.connection_manager h))
              (Host.connection_manager h) l Hnd) as (cm' & Hrun).
  { intros k conn Hin. apply Dict_get_of_In; assumption. }
  rewrite Hrun. unfold modify, clients. now rewrite map_map.
Qed.

(** X25: with fewer than two arguments [main] prints the usage and exits
    with status 1, having started nothing.  Otherwise, however it ends, by
    [quit] or by an exception, every server that was connected has been
    stopped, the calls of their cleanup being the last ones made, and the
    registry is empty.  The only exceptions that leave
    [main] come from connecting the servers: the first server that cannot be
    added ends the program before the chat loop has printed anything. *)
Theorem main_stops_every_server (E : Env) (argv : list string)
        (console : list (res string)) :
  (length argv < 3 ->
   Main.main E argv console = (Main.Exit 1, Host.mk ConnectionManager.__init__ Main.usage, [])) /\
  (3 <= length argv ->
   exists ending h l,
     Main.main E argv console = (ending, h, l) /\
     Host.connection_manager h = ConnectionManager.__init__ /\
     match ending with
     | Main.Left by_quit => by_quit = existsb is_quit console
     | Main.Exit _ => False
     | Main.Uncaught e => Host.printed h = []
     end /\
     exists configs r0 h0 l0,
       Main.server_configs E argv = Ok configs /\
       (Main.connect_all E configs ;; Host.chat_loop E console) Host.__init__ []
         = (r0, h0, l0) /\
       l = l0 ++ concat (map cleanup_effects (clients (Host.connection_manager h0)))).
Proof.
  unfold Main.main. split; intros Hlen.
  - apply Nat.ltb_lt in Hlen. now rewrite Hlen.
  - apply Nat.ltb_ge in Hlen. rewrite Hlen.
    destruct (parse_configs_run (length argv) (get_default_environment E) (tl argv))
      as (configs & Hconfigs).
    unfold Main.server_configs. rewrite Hconfigs.
    unfold try_finally, bind.
    destruct (Main.connect_all E configs Host.__init__ [])
      as [[[[]|e] h1] l1] eqn:Hconnect;
      pose proof Hconnect as Hconnect';
      apply connect_all_nodup in Hconnect as [Hprinted Hnd];
      specialize (Hnd (NoDup_nil _)).
    + unfold Host.chat_loop, bind, Host.print, modify.
      match goal with
      | |- context [Host.chat_rounds E console ?h l1] =>
          destruct (chat_rounds_run E console h l1) as (h2 & l2 & Hrounds & Hn)
      end.
      rewrite Hrounds. cbn [Host.connection_manager] in Hn.
      rewrite Host_cleanup_run by (now rewrite Hn).
      do 3 eexists. split; [reflexivity|]. split; [reflexivity|].
      split; [reflexivity|].
      exists configs. do 3 eexists. rewrite Hconnect', Hrounds.
      repeat split.
    + rewrite Host_cleanup_run by exact Hnd.
      do 3 eexists. split; [reflexivity|]. split; [reflexivity|].
      split; [exact Hprinted|].
      exists configs. do 3 eexists. rewrite Hconnect'. repeat split.
Qed.

(** The weather server, one question, and [quit]. *)
Lemma main_stops_every_server_witness :
  exists ending h l,
    Main.main Scenario.healthy ["client.py"; "weather"; "server.py"]
              [Ok "Boston?"; Ok "quit"] = (ending, h, l) /\
    Host.connection_manager h = ConnectionManager.__init__ /\
    match ending with
    | Main.Left by_quit => by_quit = existsb is_quit [Ok "Boston?"; Ok "quit"]
    | Main.Exit _ => False
    | Main.Uncaught e => Host.printed h = []
    end.
Proof.
  destruct (proj2 (main_stops_every_server Scenario.healthy
                     ["client.py"; "weather"; "server.py"] [Ok "Boston?"; Ok "quit"]))
    as (ending & h & l & Hrun & Hcm & Hending & _).
  - cbn. lia.
  - exists ending, h, l. repeat split; assumption.
Defined.

(** ** The page *)

Lemma add_connection_raise (E : Env) (server_name command : string)
      (args : list string) (env : option (list (string * string)))
      (cm : ConnectionManager.t) (l : Log) e cm' l' :
  ConnectionManager.add_connection E server_name command args env cm l
    = (Raise e, cm', l') ->
  cm' = cm.
Proof.
  unfold ConnectionManager.add_connection. unfold bind at 1, get.
  destruct (Dict.contains server_name (ConnectionManager.connections cm)).
  - unfold raise. intros H. now injection H as _ <- _.
  - unfold bind, ConnectionManager.on_new.
    destruct (Client.start E _ l) as [[[[]|e1] c1] l1].
    + unfold modify. discriminate.
    + intros H. now injection H as _ <- _.
Qed.

Lemma add_server_raise (E : Env) (server_name script_path : string)
      (env : option (list (string * string))) (h : Host.t) (l : Log) e h' l' :
  Host.add_server E server_name script_path env h l = (Raise e, h', l') ->
  h' = h.
Proof.
  unfold Host.add_server, Host.on_connection_manager, zoom.
  destruct (endswith script_path ".py"); [|destruct (endswith script_path ".js")];
    match goal with
    | |- context [ConnectionManager.add_connection E ?n ?c ?a ?e ?cm ?l] =>
        destruct (ConnectionManager.add_connection E n c a e cm l)
          as [[[[]|e1] cm1] l1] eqn:Hadd
    end;
    intros H; try discriminate H; injection H as _ <- _;
    apply add_connection_raise in Hadd; subst cm1; now destruct h.
Qed.

(** X26: as long as the weather server could not be added, every run of the
    page tries again and ends with the exception, the session state being as
    it was and the input unread; once it is added, the flag is set, and a
    run with the flag set does not connect again: without input it does
    nothing at all. *)
Theorem page_initialises_once (E : Env) (user_input : option string)
        (st : Page.SessionState) (l : Log) :
  (Page.server_initialized st = false ->
   forall r h' l',
     Host.add_server E "weather" "../weather/src/weather/server.py" None
                     (Page.host st) l = (r, h', l') ->
     match r with
     | Raise e => Page.run E user_input st l = (Raise e, st, l')
     | Ok _ =>
         Page.run E user_input st l =
         Page.run E user_input (Page.mk h' (Page.messages st) true) l'
     end) /\
  (Page.server_initialized st = true -> Page.run E None st l = (Ok tt, st, l)).
Proof.
  split.
  - intros Hflag r h' l' Hadd.
    destruct st as [h ms flag]. cbn [Page.server_initialized Page.host] in Hflag, Hadd.
    subst flag.
    unfold Page.run, Page.init_server, bind, get, Page.on_host, zoom, modify, ret.
    cbn [Page.host Page.messages Page.server_initialized negb].
    rewrite Hadd. destruct r as [[]|e].
    + cbn [Page.host Page.messages Page.server_initialized negb]. reflexivity.
    + apply add_server_raise in Hadd. subst h'. reflexivity.
  - intros Hflag. unfold Page.run, bind, get. rewrite Hflag. reflexivity.
Qed.

(** The first run of the page, where the server cannot be launched. *)
Lemma page_initialises_once_witness :
  let E := mkEnv [] (fun _ => Some Scenario.no_such_file) (fun _ => None)
                 (fun _ => None) (fun _ => Ok []) (fun _ => Ok Scenario.sunny)
                 Scenario.model in
  exists e l',
    Page.run E (Some "Boston?") Page.first [] = (Raise e, Page.first, l').
Proof.
  intros E.
  destruct (Host.add_server E "weather" "../weather/src/weather/server.py" None
              (Page.host Page.first) []) as [[[[]|e] h'] l'] eqn:Hadd.
  - vm_compute in Hadd. discriminate Hadd.
  - exists e, l'.
    exact (proj1 (page_initialises_once E (Some "Boston?") Page.first []) eq_refl
             (Raise e) h' l' Hadd).
Defined.

(** X27: the page and the console answer alike.  On a page whose server is
    set up, a run with an input that is what the console strips its line to
    makes the calls of [process_query] on that text, the history of the page
    not being sent.  When the query returns, the question and the answer are
    added to the history, and the console prints that answer after a line
    feed; when it raises, the run of the page ends with the exception, the
    question staying in the history without an answer, where the console
    prints the error and reads on. *)
Theorem page_answers_as_console
        (E : Env) (typed : string) (st : Page.SessionState) (l : Log)
        (r : res string) (cm' : ConnectionManager.t) (l' : Log) :
  Page.server_initialized st = true ->
  strip typed <> "" ->
  is_quit (Ok typed) = false ->
  LLMManager.process_query E (strip typed)
    (Host.connection_manager (Page.host st)) l = (r, cm', l') ->
  let h' := Host.mk cm' (Host.printed (Page.host st)) in
  match r with
  | Ok response =>
      Page.run E (Some (strip typed)) st l =
        (Ok tt,
         Page.mk h' (Page.messages st ++ [mkMessage user (strip typed);
                                          mkMessage assistant response]) true,
         l') /\
      Host.chat_round E (Ok typed) (Page.host st) l =
        (Ok true, Host.mk cm' (Host.printed (Page.host st) ++ [(nl ++ response)%string]),
         l')
  | Raise e =>
      Page.run E (Some (strip typed)) st l =
        (Raise e,
         Page.mk h' (Page.messages st ++ [mkMessage user (strip typed)]) true,
         l') /\
      Host.chat_round E (Ok typed) (Page.host st) l =
        (Ok true, Host.mk cm' (Host.printed (Page.host st) ++ [error_line e]), l')
  end.
Proof.
  intros Hflag Hnonempty Hquit Hq h'. cbn [is_quit] in Hquit.
  assert (Hpage : Page.run E (Some (strip typed)) st l =
                  (match r with Ok _ => Ok tt | Raise e => Raise e end,
                   Page.mk h' (Page.messages st ++ mkMessage user (strip typed)
                                 :: match r with
                                    | Ok response => [mkMessage assistant response]
                                    | Raise _ => []
                                    end) true,
                   l')).
  { unfold Page.run. unfold bind at 1, get. rewrite Hflag. cbn [negb].
    unfold bind at 1. unfold ret at 1.
    destruct (strip typed) as [|a text] eqn:Hstrip; [congruence|].
    unfold bind, Page.messages_append, modify, Page.on_host,
      Host.on_connection_manager, zoom.
    cbn [Page.host Page.messages Page.server_initialized].
    rewrite App_process_stream_agrees, Hq.
    destruct r as [response|e]; cbn [Page.host Page.messages Page.server_initialized];
      rewrite Hflag; [now rewrite <- app_assoc|reflexivity]. }
  assert (Hconsole : Host.chat_round E (Ok typed) (Page.host st) l =
                     (Ok true,
                      Host.mk cm' (Host.printed (Page.host st)
                                     ++ [match r with
                                         | Ok response => (nl ++ response)%string
                                         | Raise e => error_line e
                                         end]),
                      l')).
  { unfold Host.chat_round, try_except, bind, of_res. rewrite Hquit.
    unfold Host.on_connection_manager, zoom. rewrite Hq.
    destruct r as [response|e]; reflexivity. }
  rewrite Hpage, Hconsole. destruct r; split; reflexivity.
Qed.

(** The question of the weather scenario, typed with blanks around it. *)
Lemma page_answers_as_console_witness :
  exists response h l,
    Page.run Scenario.healthy (Some (strip " Boston? "))
      (Page.mk (Host.mk Scenario.registry []) [] true) Scenario.started_log =
      (Ok tt,
       Page.mk h ([] ++ [mkMessage user (strip " Boston? ");
                         mkMessage assistant response]) true,
       l).
Proof.
  pose proof (page_answers_as_console Scenario.healthy " Boston? "
                (Page.mk (Host.mk Scenario.registry []) [] true) Scenario.started_log)
    as H.
  destruct (LLMManager.process_query Scenario.healthy (strip " Boston? ")
              Scenario.registry Scenario.started_log) as [[r cm'] l'] eqn:Hq.
  specialize (H r cm' l' eq_refl ltac:(discriminate) eq_refl Hq).
  destruct r as [response|e].
  - exists response, (Host.mk cm' []), l'. exact (proj1 H).
  - vm_compute in Hq. discriminate Hq.
Defined.

(** ** The launcher *)

Lemma endswith_app (stem suffix : string) : endswith (stem ++ suffix) suffix = true.
Proof.
  induction stem as [|c stem IH]; cbn [append endswith].
  - destruct suffix as [|a s]; [reflexivity|]. cbn [endswith].
    now rewrite String.eqb_refl.
  - rewrite IH. now destruct (String.eqb (String c (stem ++ suffix)) suffix).
Qed.

Lemma endswith_inv (s suffix : string) :
  endswith s suffix = true -> exists stem, s = (stem ++ suffix)%string.
Proof.
  induction s as [|c s IH]; cbn [endswith].
  - destruct (String.eqb "" suffix) eqn:He; [|discriminate].
    apply String.eqb_eq in He. subst suffix. now exists "".
  - destruct (String.eqb (String c s) suffix) eqn:He.
    + apply String.eqb_eq in He. subst suffix. now exists "".
    + intros H. destruct (IH H) as (stem & ->). now exists (String c stem).
Qed.

Lemma add_connection_launch (E : Env) (server_name command : string)
      (args : list string) (env : option (list (string * string)))
      (cm : ConnectionManager.t) (l : Log) cm' l' :
  ConnectionManager.add_connection E server_name command args env cm l
    = (Ok tt, cm', l') ->
  descriptors cm' = descriptors cm ++ [(server_name, Server.mk server_name command args)] /\
  exists sent,
    l' = l ++ stdio_client_enter command args
                (Transport.env (Transport.__init__ E command args env)) :: sent.
Proof.
  unfold ConnectionManager.add_connection. unfold bind at 1, get.
  destruct (Dict.contains server_name (ConnectionManager.connections cm)) eqn:Hin;
    [discriminate|].
  unfold bind, ConnectionManager.on_new.
  destruct (Client.start E (Client.__init__ server_name
                              (Transport.__init__ E command args env)) l)
    as [[[[]|e] c1] l1] eqn:Hstart; [|discriminate].
  unfold modify. intros Hadd. injection Hadd as <- <-.
  assert (Hnone : Dict.get server_name (ConnectionManager.connections cm) = None).
  { unfold Dict.contains in Hin.
    destruct (Dict.get server_name (ConnectionManager.connections cm));
      [discriminate|reflexivity]. }
  split.
  - unfold descriptors. cbn [ConnectionManager.connections].
    rewrite Dict_set_keys_absent by exact Hnone. now rewrite map_app.
  - revert Hstart. unfold Client.start, bind, get.
    change (Client.is_connected
              (Client.__init__ server_name (Transport.__init__ E command args env)))
      with false.
    cbv iota. rewrite start_locked_run. cbv zeta. unfold connect_request.
    cbn [Client.transport Client.__init__ Transport.command Transport.args].
    repeat
      match goal with
      | |- context [match ?o with Some _ => _ | None => _ end] => destruct o
      | |- context [match ?o with Ok _ => _ | Raise _ => _ end] => destruct o
      end; intros H; try discriminate H; injection H as _ <-.
    rewrite <- !app_assoc. cbn [app]. eauto.
Qed.

(** X28: a server that has been added was launched by the ending of its
    script path, compared as it is written: a path in [.py] by [python] and a
    path in [.js] by [node], with the path as only argument, and any other
    path as a program of its own without arguments.  The registry holds
    that launch description under the name of the server, after those it
    held, and the launch is the first call made. *)
Theorem add_server_launcher
        (E : Env) (server_name script_path : string)
        (env : option (list (string * string))) (h : Host.t) (l : Log)
        (h' : Host.t) (l' : Log) :
  Host.add_server E server_name script_path env h l = (Ok tt, h', l') ->
  exists command args sent,
    descriptors (Host.connection_manager h') =
      descriptors (Host.connection_manager h)
        ++ [(server_name, Server.mk server_name command args)] /\
    l' = l ++ stdio_client_enter command args
                (Transport.env (Transport.__init__ E command args env)) :: sent /\
    ((exists stem, script_path = (stem ++ ".py")%string) ->
     command = "python" /\ args = [script_path]) /\
    ((forall stem, script_path <> (stem ++ ".py")%string) ->
     (exists stem, script_path = (stem ++ ".js")%string) ->
     command = "node" /\ args = [script_path]) /\
    ((forall stem, script_path <> (stem ++ ".py")%string) ->
     (forall stem, script_path <> (stem ++ ".js")%string) ->
     command = script_path /\ args = []).
Proof.
  unfold Host.add_server, Host.on_connection_manager, zoom.
  destruct (endswith script_path ".py") eqn:Hpy;
    [|destruct (endswith script_path ".js") eqn:Hjs];
    match goal with
    | |- context [ConnectionManager.add_connection E ?n ?c ?a ?e ?cm ?l] =>
        destruct (ConnectionManager.add_connection E n c a e cm l)
          as [[[[]|e1] cm1] l1] eqn:Hadd
    end;
    intros H; try discriminate H; injection H as <- <-;
    apply add_connection_launch in Hadd as (Hd & sent & Hl);
    do 2 eexists; exists sent; cbn [Host.connection_manager];
    (split; [exact Hd|]); (split; [exact Hl|]).
  - split; [auto|]. apply endswith_inv in Hpy as (stem & Hpy).
    split; intros Hno; exfalso; exact (Hno stem Hpy).
  - apply endswith_inv in Hjs as (stem & Hjs).
    split; [|split].
    + intros (stem' & ->). now rewrite endswith_app in Hpy.
    + auto.
    + intros _ Hno. exfalso. exact (Hno stem Hjs).
  - split; [|split].
    + intros (stem' & ->). now rewrite endswith_app in Hpy.
    + intros _ (stem' & ->). now rewrite endswith_app in Hjs.
    + auto.
Qed.

(** The weather server of the page. *)
Lemma add_server_launcher_witness :
  exists command args sent,
    descriptors Scenario.registry =
      descriptors ConnectionManager.__init__
        ++ [("weather", Server.mk "weather" command args)] /\
    Scenario.started_log =
      [] ++ stdio_client_enter command args
              (Transport.env (Transport.__init__ Scenario.healthy command args None))
         :: sent /\
    command = "python" /\ args = ["server.py"].
Proof.
  destruct (add_server_launcher Scenario.healthy "weather" "server.py" None
              Host.__init__ [] (Host.mk Scenario.registry []) Scenario.started_log
              eq_refl)
    as (command & args & sent & Hd & Hl & Hpy & _).
  exists command, args, sent. split; [exact Hd|]. split; [exact Hl|].
  apply Hpy. now exists "server".
Defined.
